(** * Fuse core: Z80 supplementary routines and generic Spectrum routines

    A shallow embedding of [z80/z80.c] (reset, maskable interrupt
    acceptance, snapshot transfer) and of [spectrum.c] (frame rebase,
    memory contention, floating bus), with the properties the design
    document states about them.

    Conventions.  Every C integer is a [Z] and each conversion to a
    fixed-width type is written out ([wrap_byte], [wrap_word],
    [wrap_dword], [to_signed_dword]).  The global variables the two files
    act on are gathered in [fuse_state]; what they only read is gathered
    in [fuse_env]. *)

From Stdlib Require Import ZArith List Bool Lia.
Import ListNotations.
Local Open Scope Z_scope.

(** ** Machine integers (libspectrum.h) *)

(** [libspectrum_byte], [libspectrum_word], [libspectrum_dword]: unsigned
    8, 16 and 32 bit; conversion to them reduces modulo the width. *)
Definition wrap_byte (x : Z) : Z := x mod 256.
Definition wrap_word (x : Z) : Z := x mod 65536.
Definition wrap_dword (x : Z) : Z := x mod 4294967296.

(** [libspectrum_signed_dword] and [int]: 32 bit two's complement. *)
Definition to_signed_dword (x : Z) : Z :=
  let y := wrap_dword x in
  if y <? 2147483648 then y else y - 4294967296.

(** C truth value of an integer. *)
Definition truthy (x : Z) : bool := negb (x =? 0).

(** C value of a comparison or of [!!x]. *)
Definition of_bool (b : bool) : Z := if b then 1 else 0.

(** ** Register pairs

    A [regpair] is a union of a 16-bit word [w] and its two bytes [b.h],
    [b.l].  It is kept as the word; the halves are read and written
    through it. *)
Definition hi (w : Z) : Z := (w / 256) mod 256.
Definition lo (w : Z) : Z := w mod 256.
Definition set_hi (w v : Z) : Z := 256 * wrap_byte v + lo w.
Definition set_lo (w v : Z) : Z := 256 * hi w + wrap_byte v.

(** ** The processor (z80.h) *)

(** Modelled from the spec: z80.h, which declares the processor, is not
    among the sources.  Register pairs are 16-bit words, I is 8-bit, the
    flip-flops, IM and Q are bytes.  Field names are those the sources use
    ([z80.halted], [z80.memptr.w], [z80.iff2_read],
    [z80.interrupts_enabled_at]) or the lower-case form of the accessor
    macros ([AF], [PC], [IFF1], [R7], [Q], ...).  [r] is held in a 16-bit
    word, of which the low seven bits are the refresh count (it is
    incremented next to [rzx_instructions_offset], as an instruction
    counter); [r7] is a byte of which bit 7 counts; [halted] and
    [iff2_read] are [int]; [interrupts_enabled_at] is a signed count wide
    enough for any tstate. *)
Record processor : Type := mk_processor {
  af : Z; bc : Z; de : Z; hl : Z;
  af_ : Z; bc_ : Z; de_ : Z; hl_ : Z;
  ix : Z; iy : Z;
  i : Z;
  r : Z;
  r7 : Z;
  sp : Z; pc : Z;
  memptr : Z;
  iff2_read : Z;
  iff1 : Z; iff2 : Z; im : Z;
  halted : Z;
  interrupts_enabled_at : Z;
  q : Z
}.

(** The accessor macros for the halves that the routines below use. *)
Definition A (z : processor) : Z := hi (af z).
Definition F (z : processor) : Z := lo (af z).
Definition A_ (z : processor) : Z := hi (af_ z).
Definition F_ (z : processor) : Z := lo (af_ z).
Definition PCH (z : processor) : Z := hi (pc z).
Definition PCL (z : processor) : Z := lo (pc z).

Definition set_af (z : processor) (v : Z) : processor :=
  mk_processor v (bc z) (de z) (hl z) (af_ z) (bc_ z) (de_ z) (hl_ z)
    (ix z) (iy z) (i z) (r z) (r7 z) (sp z) (pc z) (memptr z)
    (iff2_read z) (iff1 z) (iff2 z) (im z) (halted z)
    (interrupts_enabled_at z) (q z).

Definition set_r (z : processor) (v : Z) : processor :=
  mk_processor (af z) (bc z) (de z) (hl z) (af_ z) (bc_ z) (de_ z) (hl_ z)
    (ix z) (iy z) (i z) v (r7 z) (sp z) (pc z) (memptr z)
    (iff2_read z) (iff1 z) (iff2 z) (im z) (halted z)
    (interrupts_enabled_at z) (q z).

Definition set_sp (z : processor) (v : Z) : processor :=
  mk_processor (af z) (bc z) (de z) (hl z) (af_ z) (bc_ z) (de_ z) (hl_ z)
    (ix z) (iy z) (i z) (r z) (r7 z) v (pc z) (memptr z)
    (iff2_read z) (iff1 z) (iff2 z) (im z) (halted z)
    (interrupts_enabled_at z) (q z).

Definition set_pc (z : processor) (v : Z) : processor :=
  mk_processor (af z) (bc z) (de z) (hl z) (af_ z) (bc_ z) (de_ z) (hl_ z)
    (ix z) (iy z) (i z) (r z) (r7 z) (sp z) v (memptr z)
    (iff2_read z) (iff1 z) (iff2 z) (im z) (halted z)
    (interrupts_enabled_at z) (q z).

Definition set_memptr (z : processor) (v : Z) : processor :=
  mk_processor (af z) (bc z) (de z) (hl z) (af_ z) (bc_ z) (de_ z) (hl_ z)
    (ix z) (iy z) (i z) (r z) (r7 z) (sp z) (pc z) v
    (iff2_read z) (iff1 z) (iff2 z) (im z) (halted z)
    (interrupts_enabled_at z) (q z).

Definition set_iff1 (z : processor) (v : Z) : processor :=
  mk_processor (af z) (bc z) (de z) (hl z) (af_ z) (bc_ z) (de_ z) (hl_ z)
    (ix z) (iy z) (i z) (r z) (r7 z) (sp z) (pc z) (memptr z)
    (iff2_read z) v (iff2 z) (im z) (halted z)
    (interrupts_enabled_at z) (q z).

Definition set_iff2 (z : processor) (v : Z) : processor :=
  mk_processor (af z) (bc z) (de z) (hl z) (af_ z) (bc_ z) (de_ z) (hl_ z)
    (ix z) (iy z) (i z) (r z) (r7 z) (sp z) (pc z) (memptr z)
    (iff2_read z) (iff1 z) v (im z) (halted z)
    (interrupts_enabled_at z) (q z).

Definition set_halted (z : processor) (v : Z) : processor :=
  mk_processor (af z) (bc z) (de z) (hl z) (af_ z) (bc_ z) (de_ z) (hl_ z)
    (ix z) (iy z) (i z) (r z) (r7 z) (sp z) (pc z) (memptr z)
    (iff2_read z) (iff1 z) (iff2 z) (im z) v
    (interrupts_enabled_at z) (q z).

Definition set_interrupts_enabled_at (z : processor) (v : Z) : processor :=
  mk_processor (af z) (bc z) (de z) (hl z) (af_ z) (bc_ z) (de_ z) (hl_ z)
    (ix z) (iy z) (i z) (r z) (r7 z) (sp z) (pc z) (memptr z)
    (iff2_read z) (iff1 z) (iff2 z) (im z) (halted z) v (q z).

Definition set_q (z : processor) (v : Z) : processor :=
  mk_processor (af z) (bc z) (de z) (hl z) (af_ z) (bc_ z) (de_ z) (hl_ z)
    (ix z) (iy z) (i z) (r z) (r7 z) (sp z) (pc z) (memptr z)
    (iff2_read z) (iff1 z) (iff2 z) (im z) (halted z)
    (interrupts_enabled_at z) v.

(** Assignments through the byte macros [F], [PCL], [PCH]. *)
Definition set_F (z : processor) (v : Z) : processor := set_af z (set_lo (af z) v).
Definition set_PCL (z : processor) (v : Z) : processor := set_pc z (set_lo (pc z) v).
Definition set_PCH (z : processor) (v : Z) : processor := set_pc z (set_hi (pc z) v).

(** Every field holds a value of its C type. *)
Definition is_byte (x : Z) : Prop := 0 <= x < 256.
Definition is_word (x : Z) : Prop := 0 <= x < 65536.
Definition is_dword (x : Z) : Prop := 0 <= x < 4294967296.

Record processor_wf (z : processor) : Prop := mk_processor_wf {
  wf_af : is_word (af z); wf_bc : is_word (bc z);
  wf_de : is_word (de z); wf_hl : is_word (hl z);
  wf_af_ : is_word (af_ z); wf_bc_ : is_word (bc_ z);
  wf_de_ : is_word (de_ z); wf_hl_ : is_word (hl_ z);
  wf_ix : is_word (ix z); wf_iy : is_word (iy z);
  wf_i : is_byte (i z);
  wf_r : is_word (r z);
  wf_r7 : is_byte (r7 z);
  wf_sp : is_word (sp z); wf_pc : is_word (pc z);
  wf_memptr : is_word (memptr z);
  wf_iff1 : is_byte (iff1 z); wf_iff2 : is_byte (iff2 z);
  wf_im : is_byte (im z);
  wf_q : is_byte (q z)
}.

(** Modelled from the spec: [FLAG_P] comes from z80_macros.h, which is not
    among the sources; the design document names it "the parity flag F.P",
    which the Z80 keeps in bit 2 of F. *)
Definition FLAG_P : Z := 4.

(** ** z80_reset *)

Definition z80_reset (hard_reset : Z) (z : processor) : processor :=
  (* AF = AF_ = 0xffff; I = R = R7 = 0; PC = 0; SP = 0xffff;
     IFF1 = IFF2 = IM = 0; z80.halted = 0; z80.iff2_read = 0; Q = 0; *)
  let z1 :=
    mk_processor 65535 (bc z) (de z) (hl z) 65535 (bc_ z) (de_ z) (hl_ z)
      (ix z) (iy z) 0 0 0 65535 0 (memptr z)
      0 0 0 0 0 (interrupts_enabled_at z) 0 in
  let z2 :=
    if truthy hard_reset then
      (* BC = DE = HL = 0; BC_ = DE_ = HL_ = 0; IX = IY = 0;
         z80.memptr.w = 0; *)
      mk_processor (af z1) 0 0 0 (af_ z1) 0 0 0
        0 0 (i z1) (r z1) (r7 z1) (sp z1) (pc z1) 0
        (iff2_read z1) (iff1 z1) (iff2 z1) (im z1) (halted z1)
        (interrupts_enabled_at z1) (q z1)
    else z1 in
  (* z80.interrupts_enabled_at = -1; *)
  set_interrupts_enabled_at z2 (-1).

(** ** Snapshots (the Z80 part of a libspectrum_snap) *)

Record snapshot : Type := mk_snapshot {
  snap_a : Z; snap_f : Z; snap_a_ : Z; snap_f_ : Z;
  snap_bc : Z; snap_de : Z; snap_hl : Z;
  snap_bc_ : Z; snap_de_ : Z; snap_hl_ : Z;
  snap_ix : Z; snap_iy : Z;
  snap_i : Z; snap_r : Z;
  snap_sp : Z; snap_pc : Z;
  snap_iff1 : Z; snap_iff2 : Z; snap_im : Z;
  snap_memptr : Z;
  snap_halted : Z;
  snap_last_instruction_ei : Z;
  snap_last_instruction_set_f : Z
}.

Record snapshot_wf (n : snapshot) : Prop := mk_snapshot_wf {
  wf_snap_a : is_byte (snap_a n); wf_snap_f : is_byte (snap_f n);
  wf_snap_a_ : is_byte (snap_a_ n); wf_snap_f_ : is_byte (snap_f_ n);
  wf_snap_bc : is_word (snap_bc n); wf_snap_de : is_word (snap_de n);
  wf_snap_hl : is_word (snap_hl n);
  wf_snap_bc_ : is_word (snap_bc_ n); wf_snap_de_ : is_word (snap_de_ n);
  wf_snap_hl_ : is_word (snap_hl_ n);
  wf_snap_ix : is_word (snap_ix n); wf_snap_iy : is_word (snap_iy n);
  wf_snap_i : is_byte (snap_i n); wf_snap_r : is_byte (snap_r n);
  wf_snap_sp : is_word (snap_sp n); wf_snap_pc : is_word (snap_pc n);
  wf_snap_iff1 : is_byte (snap_iff1 n); wf_snap_iff2 : is_byte (snap_iff2 n);
  wf_snap_im : is_byte (snap_im n);
  wf_snap_memptr : is_word (snap_memptr n)
}.

(** [z80_from_snapshot], run with the global [tstates] at the given value
    on the processor [z]; [iff2_read] is the one field it leaves alone.
    [tstates] is a [libspectrum_dword], so the conditional that gives
    [interrupts_enabled_at] is evaluated in unsigned 32-bit arithmetic:
    its [-1] is stored as 4294967295. *)
Definition z80_from_snapshot (snap : snapshot) (tstates : Z) (z : processor)
  : processor :=
  (* A = ...; F = ...; A_ = ...; F_ = ...; *)
  let af' := set_lo (set_hi (af z) (snap_a snap)) (snap_f snap) in
  let af_' := set_lo (set_hi (af_ z) (snap_a_ snap)) (snap_f_ snap) in
  mk_processor af' (snap_bc snap) (snap_de snap) (snap_hl snap)
    af_' (snap_bc_ snap) (snap_de_ snap) (snap_hl_ snap)
    (snap_ix snap) (snap_iy snap)
    (snap_i snap)
    (* R = R7 = libspectrum_snap_r(snap); *)
    (snap_r snap) (snap_r snap)
    (snap_sp snap) (snap_pc snap)
    (snap_memptr snap)
    (iff2_read z)
    (snap_iff1 snap) (snap_iff2 snap) (snap_im snap)
    (snap_halted snap)
    (* ... ? tstates : -1 *)
    (wrap_dword (if truthy (snap_last_instruction_ei snap) then tstates else -1))
    (* Q = ... ? F : 0 *)
    (if truthy (snap_last_instruction_set_f snap) then lo af' else 0).

(** The local [r_register] of [z80_to_snapshot], a [libspectrum_byte]:
    the refresh register as the outside sees it. *)
Definition r_register (z : processor) : Z :=
  wrap_byte (Z.lor (Z.land (r7 z) 128) (Z.land (r z) 127)).

(** [z80_to_snapshot]: every Z80 field of the snapshot is set. *)
Definition z80_to_snapshot (z : processor) (tstates : Z) : snapshot :=
  let r_register := r_register z in
  mk_snapshot (A z) (F z) (A_ z) (F_ z)
    (bc z) (de z) (hl z) (bc_ z) (de_ z) (hl_ z)
    (ix z) (iy z)
    (i z) r_register
    (sp z) (pc z)
    (iff1 z) (iff2 z) (im z)
    (memptr z)
    (halted z)
    (of_bool (interrupts_enabled_at z =? tstates))
    (of_bool (truthy (q z))).

(** ** Machine description (machine.h) and what the routines only read *)

(** Modelled from the spec: machine.h is not among the sources.  The
    "machine timing profile" has tstates_per_line, tstates_per_frame,
    left_border, horizontal_screen and interrupt_length; they are counts
    of tstates that fit an [int]. *)
Record machine_timings : Type := mk_machine_timings {
  left_border : Z;
  horizontal_screen : Z;
  tstates_per_line : Z;
  interrupt_length : Z;
  tstates_per_frame : Z
}.

(** Modelled from the spec: what [machine_current] points to, with the
    timings and "line_times[]: array mapping display-line index to the
    T-state at which the first visible pixel of that line begins"; the
    entries are [libspectrum_dword]s. *)
Record fuse_machine_info : Type := mk_fuse_machine_info {
  timings : machine_timings;
  line_times : Z -> Z
}.

Record fuse_env : Type := mk_fuse_env {
  machine_current : fuse_machine_info;
  (* scld_last_dec.name.intdisable *)
  scld_intdisable : Z;
  (* IS_CMOS *)
  z80_is_cmos : Z;
  rzx_playback : Z;
  (* event kinds handed out by event_register at start-up *)
  z80_interrupt_event : Z;
  spectrum_frame_event : Z;
  (* tstates one bus access takes: address, then the time it starts at *)
  access_cost : Z -> Z -> Z;
  (* what display_frame() returns for the frame that ends *)
  display_frame : Z
}.

(** ** Event scheduler (event.c) *)

(** Modelled from the spec: event.c is not among the sources.  An entry is
    the tuple (due_tstate, event_kind_id, user_data); [add] passes no user
    data, so it is left out.  "The queue is ordered by due_tstate
    ascending; ties broken by insertion order." *)
Record event : Type := mk_event {
  due_tstate : Z;
  event_kind_id : Z
}.

(** Modelled from the spec: "add(due_tstate, event_kind_id): enqueue",
    keeping the queue ascending with a new entry behind those it ties
    with. *)
Fixpoint event_add (event_time type : Z) (queue : list event) : list event :=
  match queue with
  | [] => [mk_event event_time type]
  | e :: rest =>
      if event_time <? due_tstate e
      then mk_event event_time type :: queue
      else e :: event_add event_time type rest
  end.

(** Modelled from the spec: "frame(frame_length): subtract frame_length
    from every queued entry's due_tstate, clamping negatives to zero." *)
Definition event_reduce_tstates (frame_length : Z) (e : event) : event :=
  mk_event (Z.max 0 (due_tstate e - frame_length)) (event_kind_id e).

(** Modelled from the spec: [frame] applies that to every queued entry, in
    place. *)
Definition event_frame (frame_length : Z) (queue : list event) : list event :=
  map (event_reduce_tstates frame_length) queue.

(** ** The global state *)

(** [memory] is the 64 KiB the Z80 sees through the memory bus; [tstates]
    is the [libspectrum_dword] of spectrum.c; [rzx_instructions_offset] is
    an [int]; [frames_since_reset] a [libspectrum_dword]. *)
Record fuse_state : Type := mk_fuse_state {
  z80 : processor;
  tstates : Z;
  memory : Z -> Z;
  event_list : list event;
  rzx_instructions_offset : Z;
  frames_since_reset : Z
}.

Definition set_z80 (s : fuse_state) (z : processor) : fuse_state :=
  mk_fuse_state z (tstates s) (memory s) (event_list s)
    (rzx_instructions_offset s) (frames_since_reset s).

Definition set_tstates (s : fuse_state) (t : Z) : fuse_state :=
  mk_fuse_state (z80 s) t (memory s) (event_list s)
    (rzx_instructions_offset s) (frames_since_reset s).

Definition set_memory (s : fuse_state) (m : Z -> Z) : fuse_state :=
  mk_fuse_state (z80 s) (tstates s) m (event_list s)
    (rzx_instructions_offset s) (frames_since_reset s).

Definition set_event_list (s : fuse_state) (l : list event) : fuse_state :=
  mk_fuse_state (z80 s) (tstates s) (memory s) l
    (rzx_instructions_offset s) (frames_since_reset s).

Definition set_rzx_instructions_offset (s : fuse_state) (n : Z) : fuse_state :=
  mk_fuse_state (z80 s) (tstates s) (memory s) (event_list s)
    n (frames_since_reset s).

Definition set_frames_since_reset (s : fuse_state) (n : Z) : fuse_state :=
  mk_fuse_state (z80 s) (tstates s) (memory s) (event_list s)
    (rzx_instructions_offset s) n.

Definition memory_wf (m : Z -> Z) : Prop := forall a, is_byte (m a).

Record state_wf (s : fuse_state) : Prop := mk_state_wf {
  wf_z80 : processor_wf (z80 s);
  wf_tstates : is_dword (tstates s);
  wf_memory : memory_wf (memory s)
}.

(** ** Memory bus (memory_pages.c) *)

(** Modelled from the spec: the bus routines are not among the sources.
    "readbyte(addr) -> u8, writebyte(addr, u8) ... Each increments tstates
    by the base access cost plus any contention"; that sum is
    [access_cost].  "Memory writes issued by the CPU are instantly visible
    to the next read." *)
Definition readbyte (env : fuse_env) (address : Z) (s : fuse_state)
  : Z * fuse_state :=
  (memory s address,
   set_tstates s (wrap_dword (tstates s + access_cost env address (tstates s)))).

(** Modelled from the spec: the memory with one cell written. *)
Definition store (m : Z -> Z) (address b : Z) : Z -> Z :=
  fun a => if a =? address then b else m a.

(** Modelled from the spec: [writebyte] pays the access and stores the
    byte, in all of the address space. *)
Definition writebyte (env : fuse_env) (address b : Z) (s : fuse_state)
  : fuse_state :=
  let s1 :=
    set_tstates s (wrap_dword (tstates s + access_cost env address (tstates s))) in
  set_memory s1 (store (memory s1) address (wrap_byte b)).

(** ** z80_interrupt *)

(** A call either returns its [int] and the new state, or ends in
    [fuse_abort()]. *)
Inductive outcome : Type :=
| Returned (value : Z) (s : fuse_state)
| Aborted.

(** The body once the interrupt is taken, from [if (z80.halted)] on. *)
Definition z80_interrupt_accept (env : fuse_env) (s : fuse_state) : outcome :=
  (* if (z80.halted) { PC++; z80.halted = 0; } *)
  let z := z80 s in
  let z :=
    if truthy (halted z)
    then set_halted (set_pc z (wrap_word (pc z + 1))) 0
    else z in
  (* IFF1 = IFF2 = 0; R++; *)
  let z := set_iff1 (set_iff2 z 0) 0 in
  let z := set_r z (wrap_word (r z + 1)) in
  let s := set_z80 s z in
  (* rzx_instructions_offset--; *)
  let s := set_rzx_instructions_offset s (rzx_instructions_offset s - 1) in
  (* tstates += 7; *)
  let s := set_tstates s (wrap_dword (tstates s + 7)) in
  (* writebyte(--SP, PCH); *)
  let s := set_z80 s (set_sp (z80 s) (wrap_word (sp (z80 s) - 1))) in
  let s := writebyte env (sp (z80 s)) (PCH (z80 s)) s in
  (* writebyte(--SP, PCL); *)
  let s := set_z80 s (set_sp (z80 s) (wrap_word (sp (z80 s) - 1))) in
  let s := writebyte env (sp (z80 s)) (PCL (z80 s)) s in
  (* switch (IM) *)
  let after_switch :=
    let IM := im (z80 s) in
    if IM =? 0 then Some (set_z80 s (set_pc (z80 s) 56))
    else if IM =? 1 then Some (set_z80 s (set_pc (z80 s) 56))
    else if IM =? 2 then
      (* libspectrum_word inttemp = (0x100 * I) + 0xff; *)
      let inttemp := wrap_word (256 * i (z80 s) + 255) in
      (* PCL = readbyte(inttemp++); *)
      let '(b, s) := readbyte env inttemp s in
      let inttemp := wrap_word (inttemp + 1) in
      let s := set_z80 s (set_PCL (z80 s) b) in
      (* PCH = readbyte(inttemp); *)
      let '(b, s) := readbyte env inttemp s in
      Some (set_z80 s (set_PCH (z80 s) b))
    else None in
  match after_switch with
  | None => Aborted
  | Some s =>
      (* z80.memptr.w = PC; Q = 0; return 1; *)
      let z := set_memptr (z80 s) (pc (z80 s)) in
      let z := set_q z 0 in
      Returned 1 (set_z80 s z)
  end.

Definition z80_interrupt (env : fuse_env) (s : fuse_state) : outcome :=
  if truthy (iff1 (z80 s))
     && (tstates s <? interrupt_length (timings (machine_current env)))
     && negb (truthy (scld_intdisable env))
  then
    (* if (z80.iff2_read && !IS_CMOS) F &= ~FLAG_P; *)
    let s :=
      if truthy (iff2_read (z80 s)) && negb (truthy (z80_is_cmos env))
      then set_z80 s (set_F (z80 s) (Z.land (F (z80 s)) (Z.lnot FLAG_P)))
      else s in
    (* if (tstates == z80.interrupts_enabled_at) *)
    if tstates s =? interrupts_enabled_at (z80 s) then
      Returned 0
        (set_event_list s
           (event_add (wrap_dword (tstates s + 1)) (z80_interrupt_event env)
              (event_list s)))
    else z80_interrupt_accept env s
  else Returned 0 s.

(** ** spectrum_frame *)

Definition frame_length (env : fuse_env) (s : fuse_state) : Z :=
  if truthy (rzx_playback env) then tstates s
  else tstates_per_frame (timings (machine_current env)).

(** The calls into the debugger, the sound, profile, printer, loader and
    phantom typist modules act on state of their own and leave no trace
    here. *)
Definition spectrum_frame (env : fuse_env) (s : fuse_state) : Z * fuse_state :=
  let frame_length := frame_length env s in
  (* event_frame( frame_length ); *)
  let s := set_event_list s (event_frame frame_length (event_list s)) in
  (* tstates -= frame_length; *)
  let s := set_tstates s (wrap_dword (tstates s - frame_length)) in
  (* if( z80.interrupts_enabled_at >= 0 )
       z80.interrupts_enabled_at -= frame_length; *)
  let s :=
    if interrupts_enabled_at (z80 s) >=? 0
    then set_z80 s (set_interrupts_enabled_at (z80 s)
                      (interrupts_enabled_at (z80 s) - frame_length))
    else s in
  (* if( display_frame() ) return 1; *)
  if truthy (display_frame env) then (1, s)
  else
    (* if( !rzx_playback ) event_add( ..., spectrum_frame_event ); *)
    let s :=
      if negb (truthy (rzx_playback env))
      then set_event_list s
             (event_add (tstates_per_frame (timings (machine_current env)))
                (spectrum_frame_event env) (event_list s))
      else s in
    (* frames_since_reset++; *)
    let s := set_frames_since_reset s (wrap_dword (frames_since_reset s + 1)) in
    (0, s).

(** ** Contention and the floating bus (spectrum.c) *)

Definition contention_pattern_65432100 : list Z := [5; 4; 3; 2; 1; 0; 0; 6].
Definition contention_pattern_76543210 : list Z := [5; 4; 3; 2; 1; 0; 7; 6].

Definition spectrum_contend_delay_none (time : Z) : Z := 0.

Section Display.

(** display.h and display.c are not among the sources: the geometry of
    the displayed picture and the two tables of offsets into the screen
    page are taken as they come. *)
Variables DISPLAY_BORDER_HEIGHT DISPLAY_HEIGHT DISPLAY_BORDER_WIDTH_COLS : Z.
Variables display_line_start display_attr_start : Z -> Z.

Variable mc : fuse_machine_info.

(** The locals [line] and [tstates_through_line] of
    [contend_delay_common] when the tests are reached. *)
Definition contend_line (time : Z) : Z :=
  Z.quot (to_signed_dword (wrap_dword (time - line_times mc 0)))
         (tstates_per_line (timings mc)).

Definition contend_tstates_through_line (time : Z) : Z :=
  Z.rem
    (to_signed_dword
       (wrap_dword (wrap_dword (time - line_times mc 0)
                    + (left_border (timings mc) - DISPLAY_BORDER_WIDTH_COLS * 4))))
    (tstates_per_line (timings mc)).

Definition contend_delay_common (time : Z) (timings_ : list Z) (offset : Z) : Z :=
  (* line = (libspectrum_signed_dword)( time - line_times[ 0 ] ) /
            tstates_per_line; *)
  let line :=
    Z.quot (to_signed_dword (wrap_dword (time - line_times mc 0)))
           (tstates_per_line (timings mc)) in
  (* tstates_through_line = time - line_times[ 0 ] +
       ( left_border - DISPLAY_BORDER_WIDTH_COLS * 4 ); *)
  let tstates_through_line :=
    to_signed_dword
      (wrap_dword (wrap_dword (time - line_times mc 0)
                   + (left_border (timings mc) - DISPLAY_BORDER_WIDTH_COLS * 4))) in
  (* tstates_through_line %= tstates_per_line; *)
  let tstates_through_line :=
    Z.rem tstates_through_line (tstates_per_line (timings mc)) in
  if (line <? DISPLAY_BORDER_HEIGHT)
     || (line >=? DISPLAY_BORDER_HEIGHT + DISPLAY_HEIGHT) then 0
  else if tstates_through_line <? left_border (timings mc) - offset then 0
  else if tstates_through_line >=?
            left_border (timings mc) + horizontal_screen (timings mc) - offset
  then 0
  else wrap_byte (nth (Z.to_nat (Z.rem tstates_through_line 8)) timings_ 0).

Definition spectrum_contend_delay_65432100 (time : Z) : Z :=
  contend_delay_common time contention_pattern_65432100 1.

Definition spectrum_contend_delay_76543210 (time : Z) : Z :=
  contend_delay_common time contention_pattern_76543210 4.

(** The locals [line] and [tstates_through_line] of
    [spectrum_unattached_port]. *)
Definition unattached_line (tstates : Z) : Z :=
  to_signed_dword
    (wrap_dword (to_signed_dword tstates - line_times mc DISPLAY_BORDER_HEIGHT)
     / tstates_per_line (timings mc)).

Definition unattached_tstates_through_line (tstates : Z) : Z :=
  to_signed_dword
    (wrap_dword
       (wrap_dword (tstates
                    - line_times mc (DISPLAY_BORDER_HEIGHT + unattached_line tstates))
        + (left_border (timings mc) - DISPLAY_BORDER_WIDTH_COLS * 4))).

(** [RAM] is the array of 16 KiB pages, [memory_current_screen] the page
    the ULA displays, [tstates] the global clock. *)
Definition spectrum_unattached_port
    (RAM : Z -> Z -> Z) (memory_current_screen : Z) (tstates : Z) : Z :=
  (* if( tstates < line_times[ DISPLAY_BORDER_HEIGHT ] ) return 0xff; *)
  if tstates <? line_times mc DISPLAY_BORDER_HEIGHT then 255
  else
    (* unsigned subtraction and division, stored in an int *)
    let line :=
      to_signed_dword
        (wrap_dword (to_signed_dword tstates - line_times mc DISPLAY_BORDER_HEIGHT)
         / tstates_per_line (timings mc)) in
    (* if( line >= DISPLAY_HEIGHT ) return 0xff; *)
    if line >=? DISPLAY_HEIGHT then 255
    else
      let tstates_through_line :=
        to_signed_dword
          (wrap_dword
             (wrap_dword (tstates - line_times mc (DISPLAY_BORDER_HEIGHT + line))
              + (left_border (timings mc) - DISPLAY_BORDER_WIDTH_COLS * 4))) in
      if tstates_through_line <? left_border (timings mc) then 255
      else if tstates_through_line >=?
                left_border (timings mc) + horizontal_screen (timings mc)
      then 255
      else
        (* column = ( ( tstates_through_line - left_border ) / 8 ) * 2; *)
        let column :=
          Z.quot (tstates_through_line - left_border (timings mc)) 8 * 2 in
        match Z.rem tstates_through_line 8 with
        | 5 => RAM memory_current_screen (display_attr_start line + (column + 1))
        | 3 => RAM memory_current_screen (display_attr_start line + column)
        | 4 => RAM memory_current_screen (display_line_start line + (column + 1))
        | 2 => RAM memory_current_screen (display_line_start line + column)
        | 0 | 1 | 6 | 7 => 255
        | _ => 0
        end.

End Display.

Definition spectrum_unattached_port_none : Z := 255.

(** ** Reading aids for the ULA routines *)

(** Where [spectrum_unattached_port] does not return the idle bus at one
    of its four tests: at or below the first screen line, above the lower
    border, right of the left border, left of the right border. *)
Definition unattached_in_display
    (DISPLAY_BORDER_HEIGHT DISPLAY_HEIGHT DISPLAY_BORDER_WIDTH_COLS : Z)
    (mc : fuse_machine_info) (tstates : Z) : Prop :=
  let line := unattached_line DISPLAY_BORDER_HEIGHT mc tstates in
  let col_ts :=
    unattached_tstates_through_line DISPLAY_BORDER_HEIGHT
      DISPLAY_BORDER_WIDTH_COLS mc tstates in
  line_times mc DISPLAY_BORDER_HEIGHT <= tstates /\
  line < DISPLAY_HEIGHT /\
  left_border (timings mc) <= col_ts
  < left_border (timings mc) + horizontal_screen (timings mc).

(** The statement "on a screen line the 48K-like delay is
    pattern_A[col_ts & 7] for col_ts in [left_border-1,
    left_border+horizontal_screen-2) and 0 outside", at one time. *)
Definition contention_symmetry_as_stated
    (DISPLAY_BORDER_HEIGHT DISPLAY_HEIGHT DISPLAY_BORDER_WIDTH_COLS : Z)
    (mc : fuse_machine_info) (time : Z) : Prop :=
  let line := contend_line mc time in
  let col_ts := contend_tstates_through_line DISPLAY_BORDER_WIDTH_COLS mc time in
  let lb := left_border (timings mc) in
  let hs := horizontal_screen (timings mc) in
  let delay :=
    spectrum_contend_delay_65432100 DISPLAY_BORDER_HEIGHT DISPLAY_HEIGHT
      DISPLAY_BORDER_WIDTH_COLS mc time in
  DISPLAY_BORDER_HEIGHT <= line < DISPLAY_BORDER_HEIGHT + DISPLAY_HEIGHT ->
  (lb - 1 <= col_ts < lb + hs - 2 ->
   delay = nth (Z.to_nat (Z.land col_ts 7)) contention_pattern_65432100 0) /\
  (~ (lb - 1 <= col_ts < lb + hs - 2) -> delay = 0).

(** ** Reading aids for [z80_interrupt] *)

(** The guard of [z80_interrupt]. *)
Definition interrupt_line_active (env : fuse_env) (s : fuse_state) : Prop :=
  iff1 (z80 s) <> 0 /\
  tstates s < interrupt_length (timings (machine_current env)) /\
  scld_intdisable env = 0.

(** The state at the test for EI: F may have lost its parity flag, nothing
    else has changed. *)
Definition nmos_iff2_fixup (env : fuse_env) (s : fuse_state) : fuse_state :=
  if truthy (iff2_read (z80 s)) && negb (truthy (z80_is_cmos env))
  then set_z80 s (set_F (z80 s) (Z.land (F (z80 s)) (Z.lnot FLAG_P)))
  else s.

(** ** Running the core *)

(** Export followed by import into the same processor at the same time. *)
Definition snapshot_roundtrip (z : processor) (tstates : Z) : processor :=
  z80_from_snapshot (z80_to_snapshot z tstates) tstates z.

(** Two processors that differ at most in Q. *)
Definition eq_mod_Q (z1 z2 : processor) : Prop := set_q z1 0 = set_q z2 0.

Definition processor_zero : processor :=
  mk_processor 0 0 0 0 0 0 0 0 0 0 0 0 0 0 0 0 0 0 0 0 0 0 0.

(** The states the routines above lead to from power-on: the processor is
    hard reset, then reset again, loaded from snapshots, interrupted, and
    carried over frame ends.  (Instructions are executed elsewhere; what
    is reachable here is reachable with them too.) *)
Inductive reachable (env : fuse_env) : fuse_state -> Prop :=
| reach_power_on m :
    memory_wf m ->
    reachable env (mk_fuse_state (z80_reset 1 processor_zero) 0 m [] 0 0)
| reach_reset s hard_reset :
    reachable env s ->
    reachable env (set_z80 s (z80_reset hard_reset (z80 s)))
| reach_from_snapshot s snap :
    reachable env s -> snapshot_wf snap ->
    reachable env (set_z80 s (z80_from_snapshot snap (tstates s) (z80 s)))
| reach_interrupt s value s' :
    reachable env s -> z80_interrupt env s = Returned value s' ->
    reachable env s'
| reach_frame s :
    reachable env s -> reachable env (snd (spectrum_frame env s)).

(** ** Sample machines and states *)

(** A 48K-like machine: 24 tstates of left border, 128 of screen, 224 per
    line, /INT held for 32 tstates. *)
Definition sample_timings : machine_timings :=
  mk_machine_timings 24 128 224 32 69888.

Definition sample_machine : fuse_machine_info :=
  mk_fuse_machine_info sample_timings (fun n => 8944 + 224 * n).

(** NMOS Z80, no SCLD inhibit, no RZX playback, every bus access three
    tstates long. *)
Definition sample_env : fuse_env :=
  mk_fuse_env sample_machine 0 0 0 1 0 (fun _ _ => 3) 0.

(** IM 2 with the vector table at 0x80ff. *)
Definition im2_memory : Z -> Z :=
  store (store (fun _ => 0) 33023 52) 33024 18.

Definition im2_processor : processor :=
  mk_processor 0 0 0 0 0 0 0 0 0 0
    128 0 0
    32768 43981
    0 0
    1 1 2
    0 (-1) 0.

Definition im2_state : fuse_state :=
  mk_fuse_state im2_processor 0 im2_memory [] 0 0.

(** The same processor right after EI, ten tstates into the frame, with
    three events waiting. *)
Definition after_ei_state : fuse_state :=
  mk_fuse_state (set_interrupts_enabled_at im2_processor 10) 10 im2_memory
    [mk_event 5 7; mk_event 11 8; mk_event 20 9] 0 0.

(** IM 2 with I = 0xff: the vector straddles the end of the address
    space. *)
Definition vector_wrap_state : fuse_state :=
  mk_fuse_state
    (mk_processor 0 0 0 0 0 0 0 0 0 0
       255 0 0
       32768 43981
       0 0
       1 1 2
       0 (-1) 0)
    0 (store (store (fun _ => 0) 65535 120) 0 86) [] 0 0.

(** Twelve tstates past the end of a frame, EI one tstate ago, two events
    waiting. *)
Definition frame_end_state : fuse_state :=
  mk_fuse_state (set_interrupts_enabled_at im2_processor 69899) 69900
    im2_memory [mk_event 100 7; mk_event 70000 8] 0 41.

(** Q set by the last instruction, with the flags it left in F. *)
Definition flags_processor : processor :=
  set_q (set_af im2_processor 68) 68.

(** A machine whose left border lasts 36 tstates. *)
Definition wide_border_machine : fuse_machine_info :=
  mk_fuse_machine_info (mk_machine_timings 36 128 224 36 71680)
    (fun n => 12596 + 224 * n).

(** The usual layout of the screen page: pixel lines interleaved, then the
    attributes, and a page content that tells its cells apart. *)
Definition sample_line_start (y : Z) : Z :=
  Z.lor (Z.lor (Z.shiftl (Z.land y 7) 8) (Z.shiftl (Z.land y 56) 2))
        (Z.shiftl (Z.land y 192) 5).

Definition sample_attr_start (y : Z) : Z := 6144 + 32 * (y / 8).

Definition sample_RAM (page offset : Z) : Z := (page + offset) mod 251.

(** A snapshot taken with interrupts on in IM 1, R = 0. *)
Definition im1_snapshot : snapshot :=
  mk_snapshot 0 0 0 0 0 0 0 0 0 0 0 0 0 0 65535 32768 1 1 1 0 0 0 0.

(** Power-on, that snapshot, then the first frame interrupt. *)
Definition loaded_state : fuse_state :=
  let s := mk_fuse_state (z80_reset 1 processor_zero) 0 (fun _ => 0) [] 0 0 in
  set_z80 s (z80_from_snapshot im1_snapshot (tstates s) (z80 s)).

Definition interrupted_state : fuse_state :=
  match z80_interrupt sample_env loaded_state with
  | Returned _ s => s
  | Aborted => loaded_state
  end.

(** A snapshot whose R byte is 0xff. *)
Definition r_ff_snapshot : snapshot :=
  mk_snapshot 0 0 0 0 0 0 0 0 0 0 0 0 0 255 65535 0 0 0 0 0 0 0 0.

Definition r_ff_state : fuse_state :=
  let s := mk_fuse_state (z80_reset 1 processor_zero) 0 (fun _ => 0) [] 0 0 in
  set_z80 s (z80_from_snapshot r_ff_snapshot (tstates s) (z80 s)).

(** The registers of the soft-reset scenario. *)
Definition seeded_processor : processor :=
  mk_processor 66 4660 22136 39612 0 0 0 0 57005 0
    0 0 0 0 0 0 0 0 0 0 0 0 0.

(** ** Flag tables (z80.c) *)

(** The number of ones among the eight low bits. *)
Definition popcount8 (x : Z) : Z :=
  Z.b2z (Z.testbit x 0) + Z.b2z (Z.testbit x 1) + Z.b2z (Z.testbit x 2)
  + Z.b2z (Z.testbit x 3) + Z.b2z (Z.testbit x 4) + Z.b2z (Z.testbit x 5)
  + Z.b2z (Z.testbit x 6) + Z.b2z (Z.testbit x 7).

(** A C array of bytes: reading and writing one element. *)
Fixpoint array_set (l : list Z) (n : nat) (v : Z) : list Z :=
  match l, n with
  | [], _ => []
  | _ :: rest, O => v :: rest
  | x :: rest, S n' => x :: array_set rest n' v
  end.

Definition table_get (l : list Z) (index : Z) : Z := nth (Z.to_nat index) l 0.
Definition table_set (l : list Z) (index v : Z) : list Z :=
  array_set l (Z.to_nat index) v.

(** The three tables that [z80_init_tables] fills. *)
Record flag_tables : Type := mk_flag_tables {
  sz53_table : list Z;
  parity_table : list Z;
  sz53p_table : list Z
}.

(** The index "r12" into the half-carry and overflow tables: the chosen
    bit of the result, of the first and of the second argument. *)
Definition r12 (bit r arg1 arg2 : Z) : Z :=
  4 * Z.b2z (Z.testbit r bit) + 2 * Z.b2z (Z.testbit arg1 bit)
  + Z.b2z (Z.testbit arg2 bit).

(** A byte read as a two's complement number. *)
Definition signed_byte (x : Z) : Z := if x <? 128 then x else x - 256.

(** The bytes, for exhaustive checks. *)
Definition byte_range : list Z := map Z.of_nat (seq 0 256).

Section FlagTables.

(** z80_macros.h is not among the sources: the flag masks other than
    [FLAG_P] are taken as they come. *)
Variables FLAG_3 FLAG_5 FLAG_S FLAG_Z FLAG_H FLAG_V : Z.

Definition halfcarry_add_table : list Z :=
  [0; FLAG_H; FLAG_H; FLAG_H; 0; 0; 0; FLAG_H].
Definition halfcarry_sub_table : list Z :=
  [0; 0; FLAG_H; 0; FLAG_H; 0; FLAG_H; FLAG_H].
Definition overflow_add_table : list Z :=
  [0; 0; 0; FLAG_V; FLAG_V; 0; 0; 0].
Definition overflow_sub_table : list Z :=
  [0; FLAG_V; 0; 0; 0; 0; FLAG_V; 0].

(** The inner loop of [z80_init_tables], [k] rounds of
    [parity ^= j & 1; j >>= 1;]. *)
Fixpoint parity_loop (k : nat) (j parity : Z) : Z :=
  match k with
  | O => parity
  | S k' =>
      parity_loop k' (Z.shiftr j 1) (wrap_byte (Z.lxor parity (Z.land j 1)))
  end.

(** One round of the outer loop. *)
Definition init_tables_step (i : Z) (t : flag_tables) : flag_tables :=
  (* sz53_table[i]= i & (FLAG_3 | FLAG_5 | FLAG_S); *)
  let sz53 :=
    table_set (sz53_table t) i
      (wrap_byte (Z.land i (Z.lor (Z.lor FLAG_3 FLAG_5) FLAG_S))) in
  (* j = i; parity = 0; for (k = 0; k < 8; k++) ... *)
  let parity := parity_loop 8 i 0 in
  (* parity_table[i] = (parity ? 0 : FLAG_P); *)
  let par :=
    table_set (parity_table t) i
      (wrap_byte (if truthy parity then 0 else FLAG_P)) in
  (* sz53p_table[i] = sz53_table[i] | parity_table[i]; *)
  let sz53p :=
    table_set (sz53p_table t) i
      (wrap_byte (Z.lor (table_get sz53 i) (table_get par i))) in
  mk_flag_tables sz53 par sz53p.

(** [for (i = ...; i < ...; i++)], [n] rounds from [i]. *)
Fixpoint init_tables_loop (n : nat) (i : Z) (t : flag_tables) : flag_tables :=
  match n with
  | O => t
  | S n' => init_tables_loop n' (i + 1) (init_tables_step i t)
  end.

Definition z80_init_tables (t : flag_tables) : flag_tables :=
  let t := init_tables_loop 256 0 t in
  (* sz53_table[0] |= FLAG_Z; *)
  let sz53 :=
    table_set (sz53_table t) 0
      (wrap_byte (Z.lor (table_get (sz53_table t) 0) FLAG_Z)) in
  (* sz53p_table[0] |= FLAG_Z; *)
  let sz53p :=
    table_set (sz53p_table t) 0
      (wrap_byte (Z.lor (table_get (sz53p_table t) 0) FLAG_Z)) in
  mk_flag_tables sz53 (parity_table t) sz53p.

End FlagTables.

(** What one round of the outer loop writes at [i] in each table. *)
Definition sz53_entry (FLAG_3 FLAG_5 FLAG_S i : Z) : Z :=
  wrap_byte (Z.land i (Z.lor (Z.lor FLAG_3 FLAG_5) FLAG_S)).

Definition parity_entry (i : Z) : Z :=
  wrap_byte (if truthy (parity_loop 8 i 0) then 0 else FLAG_P).

Definition sz53p_entry (FLAG_3 FLAG_5 FLAG_S i : Z) : Z :=
  wrap_byte (Z.lor (sz53_entry FLAG_3 FLAG_5 FLAG_S i) (parity_entry i)).

(** The tables before start-up: 0x100 bytes each. *)
Definition tables_allocated (t : flag_tables) : Prop :=
  length (sz53_table t) = 256%nat /\
  length (parity_table t) = 256%nat /\
  length (sz53p_table t) = 256%nat.

Definition blank_tables : flag_tables :=
  mk_flag_tables (repeat 0 256) (repeat 0 256) (repeat 0 256).

(** ** More sample states *)

(** HALTed at 0x8000 in IM 1, five tstates into the frame. *)
Definition halted_im1_state : fuse_state :=
  mk_fuse_state
    (mk_processor 0 0 0 0 0 0 0 0 0 0
       0 0 0
       24576 32768
       0 0
       1 1 1
       1 (-1) 0)
    5 (fun _ => 0) [] 0 0.

(** An interrupt mode that does not exist. *)
Definition unknown_im_state : fuse_state :=
  mk_fuse_state
    (mk_processor 0 0 0 0 0 0 0 0 0 0
       0 0 0
       24576 32768
       0 0
       1 1 3
       0 (-1) 0)
    5 (fun _ => 0) [] 0 0.

(** Right after EI, with LD A,I just before it having copied IFF2 into
    the parity flag: F = 0x44. *)
Definition iff2_read_state : fuse_state :=
  mk_fuse_state
    (mk_processor 68 0 0 0 0 0 0 0 0 0
       0 0 0
       24576 32768
       0 1
       1 1 1
       0 10 0)
    10 (fun _ => 0) [] 0 0.

(** ** z80_nmi *)

(** What [z80_nmi] reads beyond [fuse_env]: the Spectranet and Beta
    interfaces, the capabilities of the machine and the last byte written
    to its second paging port.  [spectranet_nmi_flipflop] is what the
    function of that name returns; the capability mask comes from
    libspectrum.h. *)
Record nmi_env : Type := mk_nmi_env {
  nmi_fuse_env : fuse_env;
  spectranet_available : Z;
  spectranet_nmi_flipflop : Z;
  capabilities : Z;
  LIBSPECTRUM_MACHINE_CAPABILITY_SCORP_MEMORY : Z;
  beta_available : Z;
  last_byte2 : Z
}.

(** The call into a peripheral that pages a ROM in.  These act on the
    memory map, which belongs to the memory bus: [z80_nmi] hands the call
    back instead of running it. *)
Inductive nmi_paging : Type :=
| Writeport_internal (port b : Z)
| Beta_page
| Spectranet_nmi.

Definition z80_nmi (pe : nmi_env) (s : fuse_state)
  : fuse_state * option nmi_paging :=
  let env := nmi_fuse_env pe in
  (* if (spectranet_available && spectranet_nmi_flipflop()) return; *)
  if truthy (spectranet_available pe) && truthy (spectranet_nmi_flipflop pe)
  then (s, None)
  else
    (* if (z80.halted) { PC++; z80.halted = 0; } *)
    let z := z80 s in
    let z :=
      if truthy (halted z)
      then set_halted (set_pc z (wrap_word (pc z + 1))) 0
      else z in
    (* IFF1 = 0; R++; tstates += 5; *)
    let z := set_iff1 z 0 in
    let z := set_r z (wrap_word (r z + 1)) in
    let s := set_z80 s z in
    let s := set_tstates s (wrap_dword (tstates s + 5)) in
    (* writebyte(--SP, PCH); writebyte(--SP, PCL); *)
    let s := set_z80 s (set_sp (z80 s) (wrap_word (sp (z80 s) - 1))) in
    let s := writebyte env (sp (z80 s)) (PCH (z80 s)) s in
    let s := set_z80 s (set_sp (z80 s) (wrap_word (sp (z80 s) - 1))) in
    let s := writebyte env (sp (z80 s)) (PCL (z80 s)) s in
    let paging :=
      if truthy (Z.land (capabilities pe)
                   (LIBSPECTRUM_MACHINE_CAPABILITY_SCORP_MEMORY pe))
      then Some (Writeport_internal 8189 (wrap_byte (Z.lor (last_byte2 pe) 2)))
      else if truthy (beta_available pe) then Some Beta_page
      else if truthy (spectranet_available pe) then Some Spectranet_nmi
      else None in
    (* Q = 0; PC = 0x0066; *)
    let z := set_q (z80 s) 0 in
    let z := set_pc z 102 in
    (set_z80 s z, paging).

(** ** spectrum_reset and the frame count *)

Definition spectrum_reset (hard_reset : Z) (s : fuse_state) : fuse_state :=
  set_frames_since_reset s 0.

Definition get_frame_count (s : fuse_state) : Z := frames_since_reset s.

(** A run of frame ends, each with what it reads. *)
Definition spectrum_frames (envs : list fuse_env) (s : fuse_state) : fuse_state :=
  fold_left (fun s env => snd (spectrum_frame env s)) envs s.

(** The frames that [display_frame] lets through. *)
Definition frames_completed (envs : list fuse_env) : Z :=
  Z.of_nat (length (filter (fun env => display_frame env =? 0) envs)).

(** ** More sample data *)

(** A Scorpion with a Spectranet whose NMI flip-flop is clear. *)
Definition sample_nmi_env : nmi_env :=
  mk_nmi_env sample_env 1 0 16 16 0 8.

(** The same machine with the flip-flop set. *)
Definition absorbing_nmi_env : nmi_env :=
  mk_nmi_env sample_env 1 1 16 16 0 8.

(** A frame end on which the display asks to leave. *)
Definition exit_env : fuse_env :=
  mk_fuse_env sample_machine 0 0 0 1 0 (fun _ _ => 3) 1.

(** A frame end during RZX playback. *)
Definition playback_env : fuse_env :=
  mk_fuse_env sample_machine 0 0 1 1 0 (fun _ _ => 3) 0.

(** * Properties *)

(** ** Machine integers and register halves *)

Lemma wrap_byte_small x : is_byte x -> wrap_byte x = x.
Proof. unfold is_byte, wrap_byte; intros; apply Z.mod_small; lia. Qed.

Lemma wrap_word_small x : is_word x -> wrap_word x = x.
Proof. unfold is_word, wrap_word; intros; apply Z.mod_small; lia. Qed.

Lemma wrap_dword_small x : is_dword x -> wrap_dword x = x.
Proof. unfold is_dword, wrap_dword; intros; apply Z.mod_small; lia. Qed.

Lemma wrap_byte_is_byte x : is_byte (wrap_byte x).
Proof. unfold is_byte, wrap_byte; apply Z.mod_pos_bound; lia. Qed.

Lemma wrap_word_is_word x : is_word (wrap_word x).
Proof. unfold is_word, wrap_word; apply Z.mod_pos_bound; lia. Qed.

Lemma wrap_dword_is_dword x : is_dword (wrap_dword x).
Proof. unfold is_dword, wrap_dword; apply Z.mod_pos_bound; lia. Qed.

Lemma to_signed_dword_small x :
  0 <= x < 2147483648 -> to_signed_dword x = x.
Proof.
  intros H. unfold to_signed_dword.
  rewrite wrap_dword_small by (unfold is_dword; lia).
  destruct (Z.ltb_spec x 2147483648); lia.
Qed.

Lemma hi_is_byte w : is_byte (hi w).
Proof. unfold is_byte, hi; apply Z.mod_pos_bound; lia. Qed.

Lemma lo_is_byte w : is_byte (lo w).
Proof. unfold is_byte, lo; apply Z.mod_pos_bound; lia. Qed.

Lemma hi_lo w : is_word w -> 256 * hi w + lo w = w.
Proof.
  unfold is_word, hi, lo; intros H.
  rewrite (Z.mod_small (w / 256)) by (split; [apply Z.div_pos | apply Z.div_lt_upper_bound]; lia).
  symmetry; apply Z.div_mod; lia.
Qed.

Lemma hi_pair h l : is_byte h -> is_byte l -> hi (256 * h + l) = h.
Proof.
  unfold is_byte, hi; intros Hh Hl.
  replace ((256 * h + l) / 256) with h by (apply Z.div_unique with l; lia).
  apply Z.mod_small; lia.
Qed.

Lemma lo_pair h l : is_byte l -> lo (256 * h + l) = l.
Proof.
  unfold is_byte, lo; intros Hl.
  rewrite Z.add_comm, Z.mul_comm, Z.mod_add by lia. apply Z.mod_small; lia.
Qed.

Lemma pair_is_word h l : is_byte h -> is_byte l -> is_word (256 * h + l).
Proof. unfold is_byte, is_word; lia. Qed.

Lemma set_hi_is_word w v : is_word (set_hi w v).
Proof. apply pair_is_word; [apply wrap_byte_is_byte | apply lo_is_byte]. Qed.

Lemma set_lo_is_word w v : is_word (set_lo w v).
Proof. apply pair_is_word; [apply hi_is_byte | apply wrap_byte_is_byte]. Qed.

Lemma hi_set_hi w v : hi (set_hi w v) = wrap_byte v.
Proof. apply hi_pair; [apply wrap_byte_is_byte | apply lo_is_byte]. Qed.

Lemma lo_set_hi w v : lo (set_hi w v) = lo w.
Proof. apply lo_pair, lo_is_byte. Qed.

Lemma hi_set_lo w v : hi (set_lo w v) = hi w.
Proof. apply hi_pair; [apply hi_is_byte | apply wrap_byte_is_byte]. Qed.

Lemma lo_set_lo w v : lo (set_lo w v) = wrap_byte v.
Proof. apply lo_pair, wrap_byte_is_byte. Qed.

(** Writing both halves of a pair back leaves the word as it was. *)
Lemma set_halves_same w : is_word w -> set_lo (set_hi w (hi w)) (lo w) = w.
Proof.
  intros H. unfold set_lo. rewrite hi_set_hi.
  rewrite !wrap_byte_small by (apply hi_is_byte || apply lo_is_byte).
  apply hi_lo, H.
Qed.

(** ** The refresh register *)

(** The two masks of [z80_to_snapshot] in arithmetic form. *)
Lemma land_127 x : Z.land x 127 = x mod 128.
Proof. change 127 with (Z.ones 7). rewrite Z.land_ones by lia. reflexivity. Qed.

Lemma land_128 x : Z.land x 128 = 128 * ((x / 128) mod 2).
Proof.
  change 128 with (2 ^ 7) at 1.
  apply Z.bits_inj'. intros n Hn.
  rewrite Z.land_spec, Z.pow2_bits_eqb by lia.
  destruct (Z.eqb_spec 7 n) as [<- | Hne].
  - rewrite andb_true_r.
    change (128 * ((x / 128) mod 2)) with (2 ^ 7 * ((x / 2 ^ 7) mod 2 ^ 1)).
    rewrite Z.mul_comm, Z.mul_pow2_bits by lia.
    replace (7 - 7) with 0 by lia.
    rewrite Z.mod_pow2_bits_low by lia.
    rewrite Z.div_pow2_bits by lia. reflexivity.
  - rewrite andb_false_r.
    change (128 * ((x / 128) mod 2)) with (2 ^ 7 * ((x / 2 ^ 7) mod 2 ^ 1)).
    rewrite Z.mul_comm.
    destruct (Z.ltb_spec n 7).
    + rewrite Z.mul_pow2_bits_low by lia. reflexivity.
    + rewrite Z.mul_pow2_bits by lia.
      rewrite Z.mod_pow2_bits_high by lia. reflexivity.
Qed.

Lemma lor_disjoint_halves a b :
  0 <= a <= 1 -> 0 <= b < 128 -> Z.lor (128 * a) b = 128 * a + b.
Proof.
  intros Ha Hb.
  assert (Z.land (128 * a) b = 0) as Hdisj.
  { assert (a = 0 \/ a = 1) as [-> | ->] by lia; [reflexivity |].
    change (128 * 1) with 128. rewrite Z.land_comm, land_128.
    rewrite Z.div_small by lia. reflexivity. }
  pose proof (Z.add_lor_land (128 * a) b) as H.
  rewrite Hdisj in H. lia.
Qed.

(** The byte [z80_to_snapshot] stores for R. *)
Lemma r_register_arith x y :
  Z.lor (Z.land x 128) (Z.land y 127) = 128 * ((x / 128) mod 2) + y mod 128.
Proof.
  rewrite land_127, land_128. apply lor_disjoint_halves.
  - pose proof (Z.mod_pos_bound (x / 128) 2); lia.
  - apply Z.mod_pos_bound; lia.
Qed.

Lemma r_register_is_byte x y : is_byte (Z.lor (Z.land x 128) (Z.land y 127)).
Proof.
  rewrite r_register_arith. unfold is_byte.
  pose proof (Z.mod_pos_bound (x / 128) 2). pose proof (Z.mod_pos_bound y 128). lia.
Qed.

Lemma r_register_same b : is_byte b -> Z.lor (Z.land b 128) (Z.land b 127) = b.
Proof.
  intros Hb. rewrite r_register_arith. unfold is_byte in Hb.
  rewrite (Z.mod_small (b / 128)) by (split; [apply Z.div_pos | apply Z.div_lt_upper_bound]; lia).
  symmetry. apply Z.div_mod. lia.
Qed.

(** ** Reset *)

(** C2.  A soft reset ([hard_reset] = 0) sets AF and AF' to 0xffff, I, R
    and R7 to 0, PC to 0, SP to 0xffff, IFF1, IFF2 and IM to 0, clears
    [halted], [iff2_read] and Q, and sets [interrupts_enabled_at] to the
    negative sentinel -1; BC, DE, HL, their shadows, IX, IY and MEMPTR are
    left as they were.  In particular, from BC=0x1234, DE=0x5678,
    HL=0x9abc, IX=0xdead, AF=0x0042 the reset leaves AF=AF'=0xffff, PC=0,
    SP=0xffff, IFF1=IFF2=0, IM=0 and BC, DE, HL, IX unchanged. *)
Theorem z80_reset_soft :
  (forall z,
     let z' := z80_reset 0 z in
     af z' = 65535 /\ af_ z' = 65535 /\
     i z' = 0 /\ r z' = 0 /\ r7 z' = 0 /\
     pc z' = 0 /\ sp z' = 65535 /\
     iff1 z' = 0 /\ iff2 z' = 0 /\ im z' = 0 /\
     halted z' = 0 /\ iff2_read z' = 0 /\ q z' = 0 /\
     interrupts_enabled_at z' = -1 /\ interrupts_enabled_at z' < 0 /\
     bc z' = bc z /\ de z' = de z /\ hl z' = hl z /\
     bc_ z' = bc_ z /\ de_ z' = de_ z /\ hl_ z' = hl_ z /\
     ix z' = ix z /\ iy z' = iy z /\ memptr z' = memptr z) /\
  (forall z,
     bc z = 4660 -> de z = 22136 -> hl z = 39612 -> ix z = 57005 ->
     af z = 66 ->
     let z' := z80_reset 0 z in
     af z' = 65535 /\ af_ z' = 65535 /\ pc z' = 0 /\ sp z' = 65535 /\
     iff1 z' = 0 /\ iff2 z' = 0 /\ im z' = 0 /\
     bc z' = 4660 /\ de z' = 22136 /\ hl z' = 39612 /\ ix z' = 57005).
Proof.
  split.
  - intros z. cbn. repeat split; lia.
  - intros z Hbc Hde Hhl Hix _. cbn. rewrite Hbc, Hde, Hhl, Hix.
    repeat split.
Qed.

Lemma z80_reset_soft_witness :
  let z' := z80_reset 0 seeded_processor in
  af z' = 65535 /\ af_ z' = 65535 /\ pc z' = 0 /\ sp z' = 65535 /\
  iff1 z' = 0 /\ iff2 z' = 0 /\ im z' = 0 /\
  bc z' = 4660 /\ de z' = 22136 /\ hl z' = 39612 /\ ix z' = 57005.
Proof.
  apply (proj2 z80_reset_soft seeded_processor); reflexivity.
Defined.

(** A hard reset also clears the pairs a soft reset keeps. *)
Lemma z80_reset_hard hard_reset z :
  hard_reset <> 0 ->
  let z' := z80_reset hard_reset z in
  bc z' = 0 /\ de z' = 0 /\ hl z' = 0 /\ bc_ z' = 0 /\ de_ z' = 0 /\
  hl_ z' = 0 /\ ix z' = 0 /\ iy z' = 0 /\ memptr z' = 0 /\
  af z' = 65535 /\ af_ z' = 65535 /\ pc z' = 0 /\ sp z' = 65535.
Proof.
  intros H. unfold z80_reset, truthy.
  destruct (Z.eqb_spec hard_reset 0); [contradiction |].
  cbn. repeat split.
Qed.

Lemma z80_reset_wf hard_reset z :
  processor_wf z -> processor_wf (z80_reset hard_reset z).
Proof.
  intros [].
  unfold z80_reset. destruct (truthy hard_reset); constructor; cbn;
    unfold is_word, is_byte in *; lia.
Qed.

(** ** Snapshots *)

Lemma truthy_of_bool b : truthy (of_bool b) = b.
Proof. destruct b; reflexivity. Qed.

Lemma truthy_true x : truthy x = true <-> x <> 0.
Proof. unfold truthy. destruct (Z.eqb_spec x 0); cbn; split; congruence. Qed.

Lemma truthy_false x : truthy x = false <-> x = 0.
Proof. unfold truthy. destruct (Z.eqb_spec x 0); cbn; split; congruence. Qed.

Lemma r_register_byte z : is_byte (r_register z).
Proof. apply wrap_byte_is_byte. Qed.

Lemma r_register_unwrapped z :
  r_register z = Z.lor (Z.land (r7 z) 128) (Z.land (r z) 127).
Proof. apply wrap_byte_small, r_register_is_byte. Qed.

(** What import after export leaves in each field. *)
Lemma snapshot_roundtrip_fields z t :
  processor_wf z ->
  snapshot_roundtrip z t =
  mk_processor (af z) (bc z) (de z) (hl z) (af_ z) (bc_ z) (de_ z) (hl_ z)
    (ix z) (iy z) (i z) (r_register z) (r_register z) (sp z) (pc z) (memptr z)
    (iff2_read z) (iff1 z) (iff2 z) (im z) (halted z)
    (wrap_dword (if interrupts_enabled_at z =? t then t else -1))
    (if truthy (q z) then F z else 0).
Proof.
  intros Hz.
  unfold snapshot_roundtrip, z80_from_snapshot, z80_to_snapshot.
  cbn [snap_a snap_f snap_a_ snap_f_ snap_bc snap_de snap_hl snap_bc_ snap_de_
       snap_hl_ snap_ix snap_iy snap_i snap_r snap_sp snap_pc snap_iff1
       snap_iff2 snap_im snap_memptr snap_halted snap_last_instruction_ei
       snap_last_instruction_set_f].
  rewrite !truthy_of_bool. unfold A, F, A_, F_.
  rewrite !set_halves_same by (apply Hz).
  reflexivity.
Qed.

Lemma snapshot_roundtrip_wf z t :
  processor_wf z -> is_dword t -> processor_wf (snapshot_roundtrip z t).
Proof.
  intros Hz Ht. rewrite snapshot_roundtrip_fields by assumption.
  destruct Hz. constructor; cbn; try assumption.
  - pose proof (r_register_byte z). unfold is_word, is_byte in *. lia.
  - apply r_register_byte.
  - destruct (truthy (q z)); [apply lo_is_byte | unfold is_byte; lia].
Qed.

(** What import leaves in [interrupts_enabled_at] after export, for a
    32-bit clock. *)
Lemma snapshot_roundtrip_enabled_at z t :
  is_dword t ->
  wrap_dword (if interrupts_enabled_at z =? t then t else -1)
  = (if interrupts_enabled_at z =? t then t else 4294967295).
Proof.
  intros Ht. destruct (interrupts_enabled_at z =? t); [| reflexivity].
  apply wrap_dword_small, Ht.
Qed.

(** Exporting the re-imported processor gives the same snapshot, as long
    as a set Q goes with a non-zero F and the clock is not at 2^32 - 1
    with no EI pending. *)
Lemma export_import_export z t :
  processor_wf z -> is_dword t ->
  (q z <> 0 -> F z <> 0) ->
  t <> 4294967295 \/ interrupts_enabled_at z = t ->
  z80_to_snapshot (snapshot_roundtrip z t) t = z80_to_snapshot z t.
Proof.
  intros Hz Ht HQ Hlast.
  rewrite snapshot_roundtrip_fields by assumption.
  rewrite snapshot_roundtrip_enabled_at by assumption.
  unfold z80_to_snapshot, r_register, A, F, A_, F_.
  cbn -[wrap_dword Z.eqb].
  f_equal.
  - rewrite r_register_same by apply wrap_byte_is_byte.
    apply wrap_byte_small, wrap_byte_is_byte.
  - f_equal. destruct (Z.eqb_spec (interrupts_enabled_at z) t) as [E | E].
    + apply Z.eqb_refl.
    + apply Z.eqb_neq. lia.
  - f_equal. destruct (truthy (q z)) eqn:E; [| reflexivity].
    apply truthy_true. apply HQ. apply truthy_true, E.
Qed.

(** At 2^32 - 1 the second export reports an EI that was not there. *)
Lemma export_import_export_at_last_tstate z :
  processor_wf z ->
  interrupts_enabled_at z <> 4294967295 ->
  snap_last_instruction_ei (z80_to_snapshot z 4294967295) = 0 /\
  snap_last_instruction_ei
    (z80_to_snapshot (snapshot_roundtrip z 4294967295) 4294967295) = 1.
Proof.
  intros Hz Hne. rewrite snapshot_roundtrip_fields by assumption.
  apply Z.eqb_neq in Hne.
  cbn [z80_to_snapshot snap_last_instruction_ei interrupts_enabled_at].
  rewrite Hne. split; reflexivity.
Qed.

(** Without that proviso the flag [last_instruction_set_f] is lost. *)
Lemma export_import_export_loses_set_f z t :
  processor_wf z -> q z <> 0 -> F z = 0 ->
  snap_last_instruction_set_f (z80_to_snapshot z t) = 1 /\
  snap_last_instruction_set_f (z80_to_snapshot (snapshot_roundtrip z t) t) = 0.
Proof.
  intros Hz HQ HF. rewrite snapshot_roundtrip_fields by assumption.
  apply truthy_true in HQ. cbn. rewrite HQ, HF. split; reflexivity.
Qed.

(** ** Maskable interrupts *)

Lemma store_same m a b : store m a b a = b.
Proof. unfold store. rewrite Z.eqb_refl. reflexivity. Qed.

Lemma store_other m a b x : x <> a -> store m a b x = m x.
Proof. unfold store. intros H. destruct (Z.eqb_spec x a); congruence. Qed.

Lemma store_wf m a b : memory_wf m -> is_byte b -> memory_wf (store m a b).
Proof.
  intros Hm Hb x. unfold store. destruct (x =? a); [assumption | apply Hm].
Qed.

Lemma interrupt_guard_true env s :
  interrupt_line_active env s ->
  truthy (iff1 (z80 s))
  && (tstates s <? interrupt_length (timings (machine_current env)))
  && negb (truthy (scld_intdisable env)) = true.
Proof.
  intros (H1 & H2 & H3).
  apply truthy_true in H1. apply Z.ltb_lt in H2. apply truthy_false in H3.
  rewrite H1, H2, H3. reflexivity.
Qed.

Lemma interrupt_guard_false env s :
  ~ interrupt_line_active env s -> z80_interrupt env s = Returned 0 s.
Proof.
  intros H. unfold z80_interrupt.
  destruct (truthy (iff1 (z80 s))) eqn:E1; cbn; [| reflexivity].
  destruct (Z.ltb_spec (tstates s) (interrupt_length (timings (machine_current env))));
    cbn; [| reflexivity].
  destruct (truthy (scld_intdisable env)) eqn:E3; cbn; [reflexivity |].
  exfalso. apply H. repeat split;
    [apply truthy_true, E1 | assumption | apply truthy_false, E3].
Qed.

Lemma z80_interrupt_active env s :
  interrupt_line_active env s ->
  z80_interrupt env s =
  let s1 := nmos_iff2_fixup env s in
  if tstates s =? interrupts_enabled_at (z80 s) then
    Returned 0
      (set_event_list s1
         (event_add (wrap_dword (tstates s + 1)) (z80_interrupt_event env)
            (event_list s)))
  else z80_interrupt_accept env s1.
Proof.
  intros H. unfold z80_interrupt. rewrite interrupt_guard_true by assumption.
  unfold nmos_iff2_fixup.
  destruct (truthy (iff2_read (z80 s)) && negb (truthy (z80_is_cmos env)));
    reflexivity.
Qed.

(** Running a routine on a state given by its fields: everything is
    computed but the arithmetic, which is kept as written. *)
Ltac run_core :=
  cbv -[wrap_byte wrap_word wrap_dword hi lo set_hi set_lo store
        Z.add Z.sub Z.mul Z.eqb Z.ltb Z.land Z.lnot truthy access_cost
        event_add z80_interrupt_event interrupt_length timings
        machine_current scld_intdisable z80_is_cmos].

(** Acceptance in IM 2, field by field. *)
Lemma z80_interrupt_accept_im2 env s :
  im (z80 s) = 2 ->
  let z := z80 s in
  let pc0 := if truthy (halted z) then wrap_word (pc z + 1) else pc z in
  let a1 := wrap_word (sp z - 1) in
  let a2 := wrap_word (a1 - 1) in
  let m' :=
    store (store (memory s) a1 (wrap_byte (hi pc0))) a2 (wrap_byte (lo pc0)) in
  let vec := wrap_word (256 * i z + 255) in
  let vec' := wrap_word (vec + 1) in
  let t0 := wrap_dword (tstates s + 7) in
  let t1 := wrap_dword (t0 + access_cost env a1 t0) in
  let t2 := wrap_dword (t1 + access_cost env a2 t1) in
  let t3 := wrap_dword (t2 + access_cost env vec t2) in
  let t4 := wrap_dword (t3 + access_cost env vec' t3) in
  exists s',
    z80_interrupt_accept env s = Returned 1 s' /\
    memory s' = m' /\ tstates s' = t4 /\
    event_list s' = event_list s /\
    pc (z80 s') = set_hi (set_lo pc0 (m' vec)) (m' vec') /\
    memptr (z80 s') = pc (z80 s') /\
    q (z80 s') = 0 /\
    sp (z80 s') = a2 /\
    iff1 (z80 s') = 0 /\ iff2 (z80 s') = 0 /\
    halted (z80 s') = 0.
Proof.
  destruct s as [z t m ev ro fr]. destruct z.
  cbn [z80 im]. intros Him. subst. run_core.
  change (2 =? 0) with false. change (2 =? 1) with false.
  change (2 =? 2) with true. cbv iota.
  destruct (truthy halted0) eqn:Eh;
    (eexists; split; [reflexivity |]); run_core; repeat split.
  apply truthy_false, Eh.
Qed.

(** Whatever the mode, an accepted interrupt returns 1 and has advanced R
    by one, leaving R7 alone. *)
Lemma z80_interrupt_accept_refresh env s value s' :
  z80_interrupt_accept env s = Returned value s' ->
  value = 1 /\
  r (z80 s') = wrap_word (r (z80 s) + 1) /\ r7 (z80 s') = r7 (z80 s).
Proof.
  destruct s as [z t m ev ro fr]. destruct z.
  unfold z80_interrupt_accept. cbn [z80 halted].
  destruct (truthy halted0); run_core;
    (destruct (im0 =? 0); [| destruct (im0 =? 1); [| destruct (im0 =? 2)]]);
    intros H; inversion H; subst; clear H; run_core; repeat split.
Qed.

(** The parity fix-up touches F and nothing else. *)
Lemma nmos_iff2_fixup_fields env s :
  exists f,
    nmos_iff2_fixup env s = set_z80 s (set_af (z80 s) f) /\
    hi f = hi (af (z80 s)) /\
    (is_word (af (z80 s)) -> is_word f).
Proof.
  unfold nmos_iff2_fixup.
  destruct (truthy (iff2_read (z80 s)) && negb (truthy (z80_is_cmos env))).
  - eexists. split; [reflexivity |]. split.
    + apply hi_set_lo.
    + intros _. apply set_lo_is_word.
  - exists (af (z80 s)). split; [| split; [reflexivity | tauto]].
    destruct s as [z t m ev ro fr]. destruct z. reflexivity.
Qed.

Lemma z80_interrupt_taken env s :
  interrupt_line_active env s ->
  tstates s <> interrupts_enabled_at (z80 s) ->
  z80_interrupt env s = z80_interrupt_accept env (nmos_iff2_fixup env s).
Proof.
  intros Ha Hne. rewrite z80_interrupt_active by assumption. cbv zeta.
  apply Z.eqb_neq in Hne. rewrite Hne. reflexivity.
Qed.

(** The vector address: [(0x100 * I) + 0xff] is [(I << 8) | 0xff]. *)
Lemma vector_address b :
  is_byte b -> wrap_word (256 * b + 255) = Z.lor (Z.shiftl b 8) 255.
Proof.
  intros Hb. rewrite wrap_word_small by (unfold is_byte, is_word in *; lia).
  rewrite Z.shiftl_mul_pow2 by lia. change (2 ^ 8) with 256.
  pose proof (Z.add_lor_land (b * 256) 255) as H.
  assert (Z.land (b * 256) 255 = 0) as H0.
  { change 255 with (Z.ones 8). rewrite Z.land_ones by lia.
    change (2 ^ 8) with 256. apply Z.mod_mul. lia. }
  rewrite H0 in H. lia.
Qed.

Lemma wrap_word_pred_pred x : wrap_word (wrap_word (x - 1) - 1) = wrap_word (x - 2).
Proof.
  unfold wrap_word. rewrite Zminus_mod_idemp_l. f_equal. lia.
Qed.

Lemma wrap_word_pred_neq x : wrap_word (x - 1) <> wrap_word (x - 2).
Proof.
  unfold wrap_word. intros H.
  pose proof (Z.div_mod (x - 1) 65536). pose proof (Z.div_mod (x - 2) 65536).
  pose proof (Z.mod_pos_bound (x - 1) 65536). lia.
Qed.

(** An accepted IM 2 interrupt, in terms of the state before. *)
Lemma z80_interrupt_accept_im2_effects env s :
  state_wf s ->
  interrupt_line_active env s ->
  halted (z80 s) = 0 ->
  tstates s <> interrupts_enabled_at (z80 s) ->
  im (z80 s) = 2 ->
  let z := z80 s in
  let a1 := wrap_word (sp z - 1) in
  let a2 := wrap_word (sp z - 2) in
  let vec := Z.lor (Z.shiftl (i z) 8) 255 in
  let vec' := wrap_word (vec + 1) in
  let t0 := wrap_dword (tstates s + 7) in
  let t1 := wrap_dword (t0 + access_cost env a1 t0) in
  let t2 := wrap_dword (t1 + access_cost env a2 t1) in
  let t3 := wrap_dword (t2 + access_cost env vec t2) in
  let t4 := wrap_dword (t3 + access_cost env vec' t3) in
  exists s',
    z80_interrupt env s = Returned 1 s' /\
    iff1 (z80 s') = 0 /\ iff2 (z80 s') = 0 /\
    tstates s' = t4 /\
    sp (z80 s') = a2 /\
    memory s' a1 = PCH z /\ memory s' a2 = PCL z /\
    (forall a, a <> a1 -> a <> a2 -> memory s' a = memory s a) /\
    pc (z80 s') = 256 * memory s' vec' + memory s' vec /\
    memptr (z80 s') = pc (z80 s') /\
    q (z80 s') = 0.
Proof.
  intros [Hz Ht Hm] Hactive Hhalt Hei Him. cbv zeta.
  rewrite z80_interrupt_taken by assumption.
  destruct (nmos_iff2_fixup_fields env s) as (f & Hfix & _ & _).
  rewrite Hfix.
  destruct (z80_interrupt_accept_im2 env (set_z80 s (set_af (z80 s) f)))
    as (s' & Hrun & Hmem & Htime & _ & Hpc & Hmemptr & Hq & Hsp & Hiff1 & Hiff2 & _).
  { exact Him. }
  cbn [z80 set_z80 set_af halted pc sp i tstates memory] in Hmem, Htime, Hpc, Hsp.
  rewrite <- Hmem in Hpc.
  replace (truthy (halted (z80 s))) with false in Hmem, Hpc
    by (symmetry; apply truthy_false, Hhalt).
  rewrite wrap_word_pred_pred in Hmem, Htime, Hsp.
  rewrite vector_address in Htime, Hpc by apply Hz.
  rewrite !wrap_byte_small in Hmem by (apply hi_is_byte || apply lo_is_byte).
  assert (memory_wf (memory s')) as Hm'.
  { rewrite Hmem. apply store_wf; [apply store_wf |];
      [assumption | apply hi_is_byte | apply lo_is_byte]. }
  exists s'. split; [exact Hrun |].
  repeat split; try assumption.
  - rewrite Hmem, store_other by apply wrap_word_pred_neq. apply store_same.
  - rewrite Hmem. apply store_same.
  - intros a Ha1 Ha2. rewrite Hmem, !store_other by assumption. reflexivity.
  - rewrite Hpc. unfold set_hi. rewrite lo_set_lo.
    rewrite !wrap_byte_small by apply Hm'. reflexivity.
Qed.

(** C1.  With IFF1 set, [tstates] below the interrupt length, the SCLD
    inhibit clear, the CPU not halted and the last instruction not EI, an
    interrupt in IM 2 is accepted (return value 1): IFF1 and IFF2 are
    cleared; 7 tstates are added, then the cost of the two stack writes
    (and, after them, that of the two reads of the vector); PC's high
    byte goes to SP-1 and its low byte to SP-2, SP ending two below; PC is
    loaded little-endian from (I<<8)|0xff; MEMPTR is the new PC and Q is
    0.  In particular, from IFF1=1, IM=2, I=0x80, 0x34 at 0x80ff, 0x12 at
    0x8100, tstates=0, PC=0xabcd, SP=0x8000 the call leaves PC=0x1234,
    SP=0x7ffe, 0xab at 0x7fff, 0xcd at 0x7ffe, IFF1=IFF2=0 and
    MEMPTR=0x1234. *)
Theorem z80_interrupt_im2_accepted :
  (forall env s,
    state_wf s ->
    interrupt_line_active env s ->
    halted (z80 s) = 0 ->
    tstates s <> interrupts_enabled_at (z80 s) ->
    im (z80 s) = 2 ->
    let z := z80 s in
    let a1 := wrap_word (sp z - 1) in
    let a2 := wrap_word (sp z - 2) in
    let vec := Z.lor (Z.shiftl (i z) 8) 255 in
    let vec' := wrap_word (vec + 1) in
    let t0 := wrap_dword (tstates s + 7) in
    let t1 := wrap_dword (t0 + access_cost env a1 t0) in
    let t2 := wrap_dword (t1 + access_cost env a2 t1) in
    let t3 := wrap_dword (t2 + access_cost env vec t2) in
    let t4 := wrap_dword (t3 + access_cost env vec' t3) in
    exists s',
      z80_interrupt env s = Returned 1 s' /\
      iff1 (z80 s') = 0 /\ iff2 (z80 s') = 0 /\
      tstates s' = t4 /\
      sp (z80 s') = a2 /\
      memory s' a1 = PCH z /\ memory s' a2 = PCL z /\
      (forall a, a <> a1 -> a <> a2 -> memory s' a = memory s a) /\
      pc (z80 s') = 256 * memory s' vec' + memory s' vec /\
      memptr (z80 s') = pc (z80 s') /\
      q (z80 s') = 0) /\
  (forall env s,
     state_wf s ->
     interrupt_line_active env s ->
     halted (z80 s) = 0 ->
     tstates s <> interrupts_enabled_at (z80 s) ->
     iff1 (z80 s) = 1 -> im (z80 s) = 2 -> i (z80 s) = 128 ->
     memory s 33023 = 52 -> memory s 33024 = 18 ->
     tstates s = 0 -> pc (z80 s) = 43981 -> sp (z80 s) = 32768 ->
     exists s',
       z80_interrupt env s = Returned 1 s' /\
       pc (z80 s') = 4660 /\ sp (z80 s') = 32766 /\
       memory s' 32767 = 171 /\ memory s' 32766 = 205 /\
       iff1 (z80 s') = 0 /\ iff2 (z80 s') = 0 /\
       memptr (z80 s') = 4660).
Proof.
  split; [exact z80_interrupt_accept_im2_effects |].
  intros env s Hwf Hactive Hhalt Hei _ Him HI Hlo Hhi _ Hpc Hsp.
  destruct (z80_interrupt_accept_im2_effects env s Hwf Hactive Hhalt Hei Him)
    as (s' & Hrun & Hiff1 & Hiff2 & _ & Hsp' & Hm1 & Hm2 & Hrest & Hpc' & Hmemptr & _).
  rewrite HI in Hpc'. rewrite Hsp in Hsp', Hm1, Hm2, Hrest.
  unfold PCH, PCL in Hm1, Hm2. rewrite Hpc in Hm1, Hm2.
  change (wrap_word (32768 - 1)) with 32767 in *.
  change (wrap_word (32768 - 2)) with 32766 in *.
  change (Z.lor (Z.shiftl 128 8) 255) with 33023 in Hpc'.
  change (wrap_word (33023 + 1)) with 33024 in Hpc'.
  rewrite !Hrest, Hlo, Hhi in Hpc' by lia.
  exists s'. split; [exact Hrun |].
  repeat split; try assumption.
  rewrite Hmemptr. exact Hpc'.
Qed.

(** The scenario with every bus access three tstates long: the call ends
    at tstate 19 = 7 + 4 * 3. *)
Lemma z80_interrupt_im2_accepted_witness :
  exists s',
    z80_interrupt sample_env im2_state = Returned 1 s' /\
    pc (z80 s') = 4660 /\ sp (z80 s') = 32766 /\
    memory s' 32767 = 171 /\ memory s' 32766 = 205 /\
    iff1 (z80 s') = 0 /\ iff2 (z80 s') = 0 /\
    memptr (z80 s') = 4660 /\ q (z80 s') = 0 /\
    tstates s' = 19.
Proof.
  destruct (proj1 z80_interrupt_im2_accepted sample_env im2_state)
    as (s' & Hrun & Hiff1 & Hiff2 & Htime & Hsp & Hhi & Hlo & Hrest & Hpc & Hmemptr & Hq).
  - split.
    + split; cbv; repeat split; congruence.
    + cbv; split; congruence.
    + intros a. unfold im2_state, im2_memory, memory, store, is_byte.
      destruct (a =? 33024); [lia |]. destruct (a =? 33023); lia.
  - cbv. repeat split; congruence.
  - reflexivity.
  - cbv. congruence.
  - reflexivity.
  - assert (pc (z80 s') = 4660) as Hpc'.
    { rewrite Hpc. rewrite !Hrest by (cbv; congruence). reflexivity. }
    exists s'. split; [exact Hrun |].
    repeat split; try assumption.
    + rewrite Hmemptr. exact Hpc'.
Defined.

(** C1 as stated fails on the clock.  In its scenario, with every bus
    access three tstates long, the 7 tstates and the two stack writes
    come to 13, but the call ends at tstate 19: the two bytes of the
    vector, at 0x80ff and 0x8100, are read through the bus as well. *)
Lemma z80_interrupt_im2_clock_past_stack_writes :
  exists s',
    z80_interrupt sample_env im2_state = Returned 1 s' /\
    tstates im2_state + 7 + access_cost sample_env 32767 7
    + access_cost sample_env 32766 10 = 13 /\
    tstates s' = 19 /\
    tstates s'
    <> tstates im2_state + 7 + access_cost sample_env 32767 7
       + access_cost sample_env 32766 10.
Proof.
  assert (exists s', z80_interrupt sample_env im2_state = Returned 1 s')
    as (s' & Hrun) by (vm_compute; eexists; reflexivity).
  exists s'. split; [exact Hrun |].
  assert (tstates s' = 19) as Ht.
  { vm_compute in Hrun. inversion Hrun. reflexivity. }
  split; [reflexivity |]. split; [exact Ht |].
  rewrite Ht. vm_compute. discriminate.
Qed.

(** The three ways through [z80_interrupt]. *)
Lemma z80_interrupt_cases env s :
  z80_interrupt env s = Returned 0 s \/
  (interrupt_line_active env s /\
   tstates s = interrupts_enabled_at (z80 s) /\
   z80_interrupt env s =
   Returned 0
     (set_event_list (nmos_iff2_fixup env s)
        (event_add (wrap_dword (tstates s + 1)) (z80_interrupt_event env)
           (event_list s)))) \/
  (interrupt_line_active env s /\
   tstates s <> interrupts_enabled_at (z80 s) /\
   z80_interrupt env s = z80_interrupt_accept env (nmos_iff2_fixup env s)).
Proof.
  assert (interrupt_line_active env s \/ ~ interrupt_line_active env s) as [Ha | Hn].
  { unfold interrupt_line_active.
    destruct (Z.eq_dec (iff1 (z80 s)) 0); [right; tauto |].
    destruct (Z_lt_dec (tstates s) (interrupt_length (timings (machine_current env))));
      [| right; tauto].
    destruct (Z.eq_dec (scld_intdisable env) 0); [left | right]; tauto. }
  - right. destruct (Z.eq_dec (tstates s) (interrupts_enabled_at (z80 s))) as [E | E].
    + left. split; [exact Ha | split; [exact E |]].
      rewrite z80_interrupt_active by assumption. cbv zeta.
      apply Z.eqb_eq in E. rewrite E. reflexivity.
    + right. split; [exact Ha | split; [exact E |]].
      apply z80_interrupt_taken; assumption.
  - left. apply interrupt_guard_false, Hn.
Qed.

(** ** The scheduler *)

Lemma event_add_splits event_time type queue :
  exists before after,
    queue = before ++ after /\
    event_add event_time type queue
    = before ++ mk_event event_time type :: after /\
    Forall (fun e => due_tstate e <= event_time) before /\
    Forall (fun e => event_time < due_tstate e) (firstn 1 after).
Proof.
  induction queue as [| e rest IH]; cbn.
  - exists [], []. repeat split; constructor.
  - destruct (Z.ltb_spec event_time (due_tstate e)) as [Hlt | Hge].
    + exists [], (e :: rest). cbn. repeat split; repeat constructor. exact Hlt.
    + destruct IH as (before & after & Hq & Hadd & Hb & Ha).
      exists (e :: before), after. cbn. rewrite Hq at 1. rewrite Hadd.
      repeat split; [constructor |]; assumption.
Qed.

Lemma event_add_length event_time type queue :
  length (event_add event_time type queue) = S (length queue).
Proof.
  induction queue as [| e rest IH]; cbn; [reflexivity |].
  destruct (event_time <? due_tstate e); cbn; [| rewrite IH]; reflexivity.
Qed.

(** C3.  When the acceptance conditions hold but [tstates] equals
    [interrupts_enabled_at] (the last instruction was EI), the interrupt
    is not accepted: the call returns 0 and has put exactly one entry in
    the event queue, of the interrupt-event kind and due at tstates + 1;
    PC, SP, IFF1, IFF2 and memory are untouched. *)
Theorem z80_interrupt_deferred_after_ei env s :
  is_dword (tstates s) ->
  is_dword (interrupt_length (timings (machine_current env))) ->
  interrupt_line_active env s ->
  tstates s = interrupts_enabled_at (z80 s) ->
  exists s',
    z80_interrupt env s = Returned 0 s' /\
    pc (z80 s') = pc (z80 s) /\ sp (z80 s') = sp (z80 s) /\
    iff1 (z80 s') = iff1 (z80 s) /\ iff2 (z80 s') = iff2 (z80 s) /\
    memory s' = memory s /\
    (exists before after,
       event_list s = before ++ after /\
       event_list s'
       = before ++ mk_event (tstates s + 1) (z80_interrupt_event env) :: after) /\
    length (event_list s') = S (length (event_list s)).
Proof.
  intros Ht Hlen Hactive Hei.
  rewrite z80_interrupt_active by assumption. cbv zeta.
  apply Z.eqb_eq in Hei. rewrite Hei.
  destruct (nmos_iff2_fixup_fields env s) as (f & Hfix & _ & _).
  rewrite Hfix. eexists. split; [reflexivity |].
  cbn [z80 set_z80 set_event_list set_af pc sp iff1 iff2 memory event_list].
  assert (wrap_dword (tstates s + 1) = tstates s + 1) as Hdue.
  { apply wrap_dword_small. destruct Hactive as (_ & Hlt & _).
    unfold is_dword in *. lia. }
  rewrite Hdue. repeat split.
  - destruct (event_add_splits (tstates s + 1) (z80_interrupt_event env) (event_list s))
      as (before & after & Hq & Hadd & _).
    exists before, after. split; assumption.
  - apply event_add_length.
Qed.

Lemma z80_interrupt_deferred_after_ei_witness :
  exists s',
    z80_interrupt sample_env after_ei_state = Returned 0 s' /\
    pc (z80 s') = 43981 /\ sp (z80 s') = 32768 /\
    iff1 (z80 s') = 1 /\ iff2 (z80 s') = 1 /\
    event_list s' = [mk_event 5 7; mk_event 11 8; mk_event 11 1; mk_event 20 9].
Proof.
  destruct (z80_interrupt_deferred_after_ei sample_env after_ei_state)
    as (s' & Hrun & Hpc & Hsp & Hiff1 & Hiff2 & _ & _ & _).
  - cbv. split; congruence.
  - cbv. split; congruence.
  - cbv. repeat split; congruence.
  - reflexivity.
  - exists s'. split; [exact Hrun |]. repeat split; try assumption.
    cbv in Hrun. inversion Hrun. reflexivity.
Defined.

(** C10.  In IM 2 the vector address is a 16-bit quantity: the low byte of
    the new PC is read at (I<<8)|0xff and the high byte one above it
    modulo 2^16 (the two last bus accesses of the call are at these
    addresses); with I = 0xff the low byte comes from 0xffff and the read
    of the high byte wraps round to 0x0000. *)
Theorem z80_interrupt_im2_vector_wraps env s :
  state_wf s ->
  interrupt_line_active env s ->
  tstates s <> interrupts_enabled_at (z80 s) ->
  im (z80 s) = 2 ->
  let vec := Z.lor (Z.shiftl (i (z80 s)) 8) 255 in
  let vec' := (vec + 1) mod 65536 in
  exists s',
    z80_interrupt env s = Returned 1 s' /\
    PCL (z80 s') = memory s' vec /\
    PCH (z80 s') = memory s' vec' /\
    (exists t2,
       let t3 := wrap_dword (t2 + access_cost env vec t2) in
       tstates s' = wrap_dword (t3 + access_cost env vec' t3)) /\
    (i (z80 s) = 255 ->
     vec = 65535 /\ vec' = 0 /\
     PCL (z80 s') = memory s' 65535 /\ PCH (z80 s') = memory s' 0).
Proof.
  intros [Hz Ht Hm] Hactive Hei Him. cbv zeta.
  rewrite z80_interrupt_taken by assumption.
  destruct (nmos_iff2_fixup_fields env s) as (f & Hfix & _ & _).
  rewrite Hfix.
  destruct (z80_interrupt_accept_im2 env (set_z80 s (set_af (z80 s) f)))
    as (s' & Hrun & Hmem & Htime & _ & Hpc & _).
  { exact Him. }
  cbn [z80 set_z80 set_af halted pc sp i tstates memory] in Hmem, Htime, Hpc.
  rewrite <- Hmem in Hpc.
  rewrite vector_address in Htime, Hpc by apply Hz.
  assert (memory_wf (memory s')) as Hm'.
  { rewrite Hmem. apply store_wf; [apply store_wf |];
      solve [assumption | apply wrap_byte_is_byte]. }
  assert (PCL (z80 s') = memory s' (Z.lor (Z.shiftl (i (z80 s)) 8) 255)) as HL.
  { unfold PCL. rewrite Hpc, lo_set_hi, lo_set_lo. apply wrap_byte_small, Hm'. }
  assert (PCH (z80 s')
          = memory s' ((Z.lor (Z.shiftl (i (z80 s)) 8) 255 + 1) mod 65536)) as HH.
  { unfold PCH. rewrite Hpc, hi_set_hi. apply wrap_byte_small, Hm'. }
  exists s'. split; [exact Hrun |]. split; [exact HL |]. split; [exact HH |].
  split.
  - eexists. cbv zeta. exact Htime.
  - intros HI. rewrite HI in HL, HH |- *.
    change (Z.lor (Z.shiftl 255 8) 255) with 65535 in *.
    change ((65535 + 1) mod 65536) with 0 in *.
    repeat split; assumption.
Qed.

(** I = 0xff, 0x78 at 0xffff and 0x56 at 0x0000: the new PC is 0x5678. *)
Lemma z80_interrupt_im2_vector_wraps_witness :
  exists s',
    z80_interrupt sample_env vector_wrap_state = Returned 1 s' /\
    PCL (z80 s') = memory s' 65535 /\ PCH (z80 s') = memory s' 0 /\
    pc (z80 s') = 22136.
Proof.
  destruct (z80_interrupt_im2_vector_wraps sample_env vector_wrap_state)
    as (s' & Hrun & _ & _ & _ & Hwrap).
  - split.
    + split; cbv; repeat split; congruence.
    + cbv; split; congruence.
    + intros a. unfold vector_wrap_state, memory, store, is_byte.
      destruct (a =? 0); [lia |]. destruct (a =? 65535); lia.
  - cbv. repeat split; congruence.
  - cbv. congruence.
  - reflexivity.
  - destruct (Hwrap eq_refl) as (_ & _ & HL & HH).
    exists s'. split; [exact Hrun |]. split; [exact HL |]. split; [exact HH |].
    cbv in Hrun. inversion Hrun. reflexivity.
Defined.

(** ** The refresh register through the core's operations *)

Lemma land_127_succ x :
  Z.land (wrap_word (x + 1)) 127 = (Z.land x 127 + 1) mod 128.
Proof.
  rewrite !land_127. unfold wrap_word.
  rewrite (Z.mod_mod_divide (x + 1) 65536 128) by (exists 512; reflexivity).
  rewrite Zplus_mod_idemp_l. reflexivity.
Qed.

Lemma z80_interrupt_refresh env s value s' :
  z80_interrupt env s = Returned value s' ->
  r7 (z80 s') = r7 (z80 s) /\
  (value = 0 -> r (z80 s') = r (z80 s)) /\
  (value <> 0 -> r (z80 s') = wrap_word (r (z80 s) + 1)).
Proof.
  intros Hrun.
  destruct (nmos_iff2_fixup_fields env s) as (f & Hfix & _ & _).
  destruct (z80_interrupt_cases env s) as [H | [(_ & _ & H) | (_ & _ & H)]];
    rewrite H in Hrun.
  - inversion Hrun; subst. repeat split; congruence.
  - inversion Hrun; subst. rewrite Hfix. cbn. repeat split; congruence.
  - apply z80_interrupt_accept_refresh in Hrun. rewrite Hfix in Hrun.
    cbn [z80 set_z80 set_af r r7] in Hrun.
    destruct Hrun as (-> & Hr & Hr7). repeat split; [assumption | lia | intros _; assumption].
Qed.

Lemma spectrum_frame_refresh env s :
  r (z80 (snd (spectrum_frame env s))) = r (z80 s) /\
  r7 (z80 (snd (spectrum_frame env s))) = r7 (z80 s).
Proof.
  unfold spectrum_frame.
  destruct s as [z t m ev ro fr]. destruct z.
  cbn [z80 set_event_list set_tstates interrupts_enabled_at].
  destruct (interrupts_enabled_at0 >=? 0); destruct (truthy (display_frame env));
    destruct (negb (truthy (rzx_playback env))); split; reflexivity.
Qed.

(** C8, as the code has it.  The stored halves are not confined: import
    puts the whole loaded byte in both R and R7, and an accepted interrupt
    adds one to the 16-bit R without masking.  What holds of every
    processor is the bound on the masked halves that make up the visible
    refresh register: 0 <= R & 0x7f <= 0x7f and R7 & 0x80 is 0x00 or 0x80.
    Reset leaves R = R7 = 0; import leaves R = R7 = the loaded byte; an
    accepted interrupt advances R & 0x7f by one modulo 128 and every call
    of [z80_interrupt] leaves R7 alone; a frame end changes neither. *)
Theorem refresh_register_masked_halves env :
  (forall z,
     0 <= Z.land (r z) 127 <= 127 /\
     (Z.land (r7 z) 128 = 0 \/ Z.land (r7 z) 128 = 128) /\
     r_register z = Z.lor (Z.land (r7 z) 128) (Z.land (r z) 127)) /\
  (forall hard_reset z,
     r (z80_reset hard_reset z) = 0 /\ r7 (z80_reset hard_reset z) = 0) /\
  (forall snap t z,
     r (z80_from_snapshot snap t z) = snap_r snap /\
     r7 (z80_from_snapshot snap t z) = snap_r snap) /\
  (forall s value s',
     z80_interrupt env s = Returned value s' ->
     r7 (z80 s') = r7 (z80 s) /\
     (value = 0 -> r (z80 s') = r (z80 s)) /\
     (value <> 0 ->
      r (z80 s') = wrap_word (r (z80 s) + 1) /\
      Z.land (r (z80 s')) 127 = (Z.land (r (z80 s)) 127 + 1) mod 128)) /\
  (forall s,
     r (z80 (snd (spectrum_frame env s))) = r (z80 s) /\
     r7 (z80 (snd (spectrum_frame env s))) = r7 (z80 s)).
Proof.
  repeat apply conj.
  - intros z. rewrite land_127, land_128. repeat split.
    + apply Z.mod_pos_bound; lia.
    + pose proof (Z.mod_pos_bound (r z) 128); lia.
    + pose proof (Z.mod_pos_bound (r7 z / 128) 2); lia.
    + rewrite <- land_127, <- land_128. apply r_register_unwrapped.
  - intros hard_reset z. unfold z80_reset.
    destruct (truthy hard_reset); split; reflexivity.
  - intros snap t z. split; reflexivity.
  - intros s value s' Hrun.
    destruct (z80_interrupt_refresh env s value s' Hrun) as (H7 & H0 & H1).
    repeat split; try assumption.
    + apply H1; assumption.
    + rewrite H1 by assumption. apply land_127_succ.
  - apply spectrum_frame_refresh.
Qed.

(** The first interrupt after a snapshot with R = 0: R becomes 1. *)
Lemma refresh_register_masked_halves_witness :
  z80_interrupt sample_env loaded_state = Returned 1 interrupted_state /\
  r7 (z80 interrupted_state) = 0 /\
  r (z80 interrupted_state) = 1 /\
  Z.land (r (z80 interrupted_state)) 127 = 1.
Proof.
  assert (z80_interrupt sample_env loaded_state = Returned 1 interrupted_state)
    as Hrun by (vm_compute; reflexivity).
  destruct (proj1 (proj2 (proj2 (proj2 (refresh_register_masked_halves sample_env))))
              loaded_state 1 interrupted_state Hrun) as (H7 & _ & H1).
  destruct H1 as (Hr & Hl); [lia |].
  split; [exact Hrun |]. split; [exact H7 |]. split; [exact Hr | exact Hl].
Defined.

(** C8 as stated fails: after power-on, loading a snapshot whose R byte is
    0xff leaves R = R7 = 0xff. *)
Lemma refresh_halves_not_confined :
  reachable sample_env r_ff_state /\
  r (z80 r_ff_state) = 255 /\ r7 (z80 r_ff_state) = 255 /\
  ~ (0 <= r (z80 r_ff_state) <= 127 /\
     (r7 (z80 r_ff_state) = 0 \/ r7 (z80 r_ff_state) = 128)).
Proof.
  split; [| split; [reflexivity | split; [reflexivity |]]].
  - apply (reach_from_snapshot sample_env
             (mk_fuse_state (z80_reset 1 processor_zero) 0 (fun _ => 0) [] 0 0)
             r_ff_snapshot).
    + apply reach_power_on. intros a. unfold is_byte. lia.
    + constructor; cbv; split; congruence.
  - change (r (z80 r_ff_state)) with 255. lia.
Qed.

(** An accepted interrupt takes R from 0x7f to 0x80 just as well. *)
Lemma z80_interrupt_r_passes_7f env s s' :
  r (z80 s) = 127 -> z80_interrupt env s = Returned 1 s' -> r (z80 s') = 128.
Proof.
  intros Hr Hrun.
  destruct (z80_interrupt_refresh env s 1 s' Hrun) as (_ & _ & H).
  rewrite H, Hr by lia. reflexivity.
Qed.

(** ** Snapshot round trips *)

Lemma r_register_roundtrip z t :
  processor_wf z -> r_register (snapshot_roundtrip z t) = r_register z.
Proof.
  intros Hz. rewrite snapshot_roundtrip_fields by assumption.
  unfold r_register at 1. cbn [r r7].
  rewrite r_register_same by apply r_register_byte.
  apply wrap_byte_small, r_register_byte.
Qed.

(** C6, as the code has it.  Export after import after export gives the
    first export again whenever Q is zero or F is not, and [tstates] is
    not 2^32 - 1 or equals [interrupts_enabled_at].  Import after export
    gives back every field but four: R and R7 both become the visible
    refresh register (R7 & 0x80) | (R & 0x7f), which is thereby kept;
    [interrupts_enabled_at] is kept if it was equal to [tstates] and
    becomes 4294967295 otherwise; Q becomes F if it was non-zero and 0
    otherwise.  The encoding rules: R is exported as (R7 & 0x80) | (R &
    0x7f) and import sets both R and R7 to the loaded byte;
    [last_instruction_ei] is exported as 1 exactly when
    [interrupts_enabled_at] equals [tstates], and import sets
    [interrupts_enabled_at] to [tstates] when it is set (and to
    4294967295, the [-1] of an unsigned 32-bit conditional, when it is
    not); import sets Q to F when [last_instruction_set_f] is set and to
    0 otherwise. *)
Theorem snapshot_marshalling_round_trip :
  (forall z t,
     processor_wf z -> is_dword t ->
     (q z <> 0 -> F z <> 0) ->
     t <> 4294967295 \/ interrupts_enabled_at z = t ->
     z80_to_snapshot (snapshot_roundtrip z t) t = z80_to_snapshot z t) /\
  (forall z t,
     processor_wf z -> is_dword t ->
     snapshot_roundtrip z t =
     mk_processor (af z) (bc z) (de z) (hl z) (af_ z) (bc_ z) (de_ z) (hl_ z)
       (ix z) (iy z) (i z)
       (r_register z) (r_register z)
       (sp z) (pc z) (memptr z)
       (iff2_read z) (iff1 z) (iff2 z) (im z) (halted z)
       (if interrupts_enabled_at z =? t then t else 4294967295)
       (if q z =? 0 then 0 else F z) /\
     r_register (snapshot_roundtrip z t) = r_register z) /\
  (forall z t,
     let n := z80_to_snapshot z t in
     snap_r n = Z.lor (Z.land (r7 z) 128) (Z.land (r z) 127) /\
     snap_last_instruction_ei n
     = (if interrupts_enabled_at z =? t then 1 else 0) /\
     snap_last_instruction_set_f n = (if q z =? 0 then 0 else 1)) /\
  (forall snap t z,
     is_dword t ->
     let z' := z80_from_snapshot snap t z in
     r z' = snap_r snap /\ r7 z' = snap_r snap /\
     interrupts_enabled_at z'
     = (if snap_last_instruction_ei snap =? 0 then 4294967295 else t) /\
     q z' = (if snap_last_instruction_set_f snap =? 0 then 0 else F z') /\
     F z' = wrap_byte (snap_f snap)).
Proof.
  repeat apply conj.
  - intros z t Hz Ht HQ Hlast. apply export_import_export; assumption.
  - intros z t Hz Ht. split; [| apply r_register_roundtrip, Hz].
    rewrite snapshot_roundtrip_fields by assumption.
    rewrite snapshot_roundtrip_enabled_at by assumption.
    unfold truthy. destruct (q z =? 0); reflexivity.
  - intros z t. cbv zeta. cbn [z80_to_snapshot snap_r snap_last_instruction_ei
                                snap_last_instruction_set_f].
    split; [apply r_register_unwrapped |].
    unfold truthy.
    destruct (interrupts_enabled_at z =? t); destruct (q z =? 0); split; reflexivity.
  - intros snap t z Ht. cbv zeta. unfold F.
    cbn [z80_from_snapshot r r7 interrupts_enabled_at q af].
    unfold truthy.
    destruct (snap_last_instruction_ei snap =? 0);
      destruct (snap_last_instruction_set_f snap =? 0);
      cbn [negb];
      repeat split;
      try apply lo_set_lo; try (apply wrap_dword_small; exact Ht).
Qed.

Lemma snapshot_marshalling_round_trip_witness :
  z80_to_snapshot (snapshot_roundtrip flags_processor 0) 0
  = z80_to_snapshot flags_processor 0.
Proof.
  apply (proj1 snapshot_marshalling_round_trip flags_processor 0).
  - constructor; cbv; split; congruence.
  - cbv; split; congruence.
  - cbv. congruence.
  - left. cbv. congruence.
Defined.

(** C6 as stated fails.  Power-on, a snapshot with interrupts enabled,
    then the frame interrupt lead to R = 1, R7 = 0; export and import turn
    that into R = R7 = 1, a difference outside Q. *)
Lemma snapshot_roundtrip_changes_r7 :
  reachable sample_env interrupted_state /\
  r7 (z80 interrupted_state) = 0 /\
  r7 (snapshot_roundtrip (z80 interrupted_state) (tstates interrupted_state)) = 1 /\
  ~ eq_mod_Q
      (snapshot_roundtrip (z80 interrupted_state) (tstates interrupted_state))
      (z80 interrupted_state).
Proof.
  split; [| split; [| split]].
  - apply (reach_interrupt sample_env loaded_state 1 interrupted_state).
    + apply (reach_from_snapshot sample_env
               (mk_fuse_state (z80_reset 1 processor_zero) 0 (fun _ => 0) [] 0 0)
               im1_snapshot).
      * apply reach_power_on. intros a. unfold is_byte. lia.
      * constructor; cbv; split; congruence.
    + vm_compute. reflexivity.
  - vm_compute. reflexivity.
  - vm_compute. reflexivity.
  - unfold eq_mod_Q. intros H. apply (f_equal r7) in H.
    vm_compute in H. discriminate H.
Qed.

(** Nor is every other [interrupts_enabled_at] kept: any value other than
    "now", the -1 that [z80_reset] stores included, comes back as
    4294967295. *)
Lemma snapshot_roundtrip_forgets_pending_ei z t :
  processor_wf z ->
  interrupts_enabled_at z <> t ->
  interrupts_enabled_at (snapshot_roundtrip z t) = 4294967295.
Proof.
  intros Hz Hne. rewrite snapshot_roundtrip_fields by assumption.
  cbn [interrupts_enabled_at]. apply Z.eqb_neq in Hne. rewrite Hne. reflexivity.
Qed.

(** ** Frame ends *)

Lemma event_reduce_tstates_clamps frame_length e :
  due_tstate (event_reduce_tstates frame_length e)
  = (if due_tstate e <? frame_length then 0 else due_tstate e - frame_length)
  /\ event_kind_id (event_reduce_tstates frame_length e) = event_kind_id e.
Proof.
  cbn. split; [| reflexivity].
  destruct (Z.ltb_spec (due_tstate e) frame_length); lia.
Qed.

Lemma event_frame_rebases frame_length queue :
  Forall2
    (fun e e' =>
       event_kind_id e' = event_kind_id e /\
       due_tstate e'
       = (if due_tstate e <? frame_length then 0 else due_tstate e - frame_length))
    queue (event_frame frame_length queue).
Proof.
  induction queue as [| e rest IH]; cbn; constructor; [| exact IH].
  destruct (event_reduce_tstates_clamps frame_length e). split; assumption.
Qed.

(** C7.  [spectrum_frame] rebases by L, which is [tstates] during RZX
    playback and the machine's [tstates_per_frame] otherwise.  Afterwards
    [tstates] is the 32-bit difference [tstates - L], which is exactly L
    less as soon as L tstates had elapsed; [interrupts_enabled_at] is
    exactly L less if it was >= 0 and unchanged otherwise; every entry
    that was queued has kept its place and kind and has its due time
    lowered by exactly L, or set to 0 if it was below L (behind them the
    queue may hold the re-armed frame event). *)
Theorem spectrum_frame_rebase env s :
  let L := frame_length env s in
  let s' := snd (spectrum_frame env s) in
  L = (if rzx_playback env =? 0
       then tstates_per_frame (timings (machine_current env))
       else tstates s) /\
  tstates s' = wrap_dword (tstates s - L) /\
  (is_dword (tstates s) -> 0 <= L <= tstates s ->
   tstates s' = tstates s - L) /\
  (interrupts_enabled_at (z80 s) >= 0 ->
   interrupts_enabled_at (z80 s') = interrupts_enabled_at (z80 s) - L) /\
  (interrupts_enabled_at (z80 s) < 0 ->
   interrupts_enabled_at (z80 s') = interrupts_enabled_at (z80 s)) /\
  exists rebased,
    Forall2
      (fun e e' =>
         event_kind_id e' = event_kind_id e /\
         due_tstate e' = (if due_tstate e <? L then 0 else due_tstate e - L))
      (event_list s) rebased /\
    (event_list s' = rebased \/
     event_list s'
     = event_add (tstates_per_frame (timings (machine_current env)))
         (spectrum_frame_event env) rebased).
Proof.
  cbv zeta.
  assert (forall s0 : fuse_state,
            interrupts_enabled_at (z80 (snd (spectrum_frame env s0)))
            = (if interrupts_enabled_at (z80 s0) >=? 0
               then interrupts_enabled_at (z80 s0) - frame_length env s0
               else interrupts_enabled_at (z80 s0)) /\
            tstates (snd (spectrum_frame env s0))
            = wrap_dword (tstates s0 - frame_length env s0) /\
            (event_list (snd (spectrum_frame env s0))
             = event_frame (frame_length env s0) (event_list s0) \/
             event_list (snd (spectrum_frame env s0))
             = event_add (tstates_per_frame (timings (machine_current env)))
                 (spectrum_frame_event env)
                 (event_frame (frame_length env s0) (event_list s0)))) as Hrun.
  { intros s0. unfold spectrum_frame.
    generalize (frame_length env s0) as L. intros L.
    destruct s0 as [z t m ev ro fr]. destruct z.
    cbn [z80 set_event_list set_tstates interrupts_enabled_at tstates event_list].
    destruct (interrupts_enabled_at0 >=? 0); destruct (truthy (display_frame env));
      destruct (negb (truthy (rzx_playback env))); cbn; auto. }
  destruct (Hrun s) as (Hiea & Ht & Hev).
  split; [| split; [| split; [| split; [| split]]]].
  - unfold frame_length, truthy. destruct (rzx_playback env =? 0); reflexivity.
  - exact Ht.
  - intros Hd Hle. rewrite Ht. apply wrap_dword_small.
    unfold is_dword in *. lia.
  - intros Hge. rewrite Hiea.
    destruct (Z.geb_spec (interrupts_enabled_at (z80 s)) 0); lia.
  - intros Hlt. rewrite Hiea.
    destruct (Z.geb_spec (interrupts_enabled_at (z80 s)) 0); lia.
  - exists (event_frame (frame_length env s) (event_list s)).
    split; [apply event_frame_rebases | exact Hev].
Qed.

Lemma spectrum_frame_rebase_witness :
  let s' := snd (spectrum_frame sample_env frame_end_state) in
  tstates s' = 12 /\ interrupts_enabled_at (z80 s') = 11 /\
  event_list s' = [mk_event 0 7; mk_event 112 8; mk_event 69888 0].
Proof.
  destruct (spectrum_frame_rebase sample_env frame_end_state)
    as (_ & _ & Ht & Hiea & _ & _).
  cbv zeta. split; [| split].
  - apply Ht; cbv; split; congruence.
  - apply Hiea. cbv. congruence.
  - vm_compute. reflexivity.
Defined.

(** ** Contention *)

Section Contention.

Variables DISPLAY_BORDER_HEIGHT DISPLAY_HEIGHT DISPLAY_BORDER_WIDTH_COLS : Z.
Variable mc : fuse_machine_info.

(** Outside the screen lines, or in the borders, there is no delay. *)
Lemma contend_delay_common_border time timings_ offset :
  let line := contend_line mc time in
  let col_ts := contend_tstates_through_line DISPLAY_BORDER_WIDTH_COLS mc time in
  line < DISPLAY_BORDER_HEIGHT \/
  DISPLAY_BORDER_HEIGHT + DISPLAY_HEIGHT <= line \/
  col_ts < left_border (timings mc) - offset \/
  left_border (timings mc) + horizontal_screen (timings mc) - offset <= col_ts ->
  contend_delay_common DISPLAY_BORDER_HEIGHT DISPLAY_HEIGHT
    DISPLAY_BORDER_WIDTH_COLS mc time timings_ offset = 0.
Proof.
  cbv zeta. unfold contend_delay_common.
  fold (contend_line mc time).
  fold (contend_tstates_through_line DISPLAY_BORDER_WIDTH_COLS mc time).
  generalize (contend_line mc time) as line.
  generalize (contend_tstates_through_line DISPLAY_BORDER_WIDTH_COLS mc time)
    as col_ts.
  intros col_ts line H.
  destruct (Z.ltb_spec line DISPLAY_BORDER_HEIGHT); cbn [orb]; [reflexivity |].
  destruct (Z.geb_spec line (DISPLAY_BORDER_HEIGHT + DISPLAY_HEIGHT));
    [reflexivity |].
  destruct (Z.ltb_spec col_ts (left_border (timings mc) - offset));
    [reflexivity |].
  destruct (Z.geb_spec col_ts
              (left_border (timings mc) + horizontal_screen (timings mc) - offset));
    [reflexivity | lia].
Qed.

(** On the screen the delay is the entry of the pattern that the position
    in the line selects. *)
Lemma contend_delay_common_screen time timings_ offset :
  let line := contend_line mc time in
  let col_ts := contend_tstates_through_line DISPLAY_BORDER_WIDTH_COLS mc time in
  DISPLAY_BORDER_HEIGHT <= line < DISPLAY_BORDER_HEIGHT + DISPLAY_HEIGHT ->
  left_border (timings mc) - offset <= col_ts
  < left_border (timings mc) + horizontal_screen (timings mc) - offset ->
  contend_delay_common DISPLAY_BORDER_HEIGHT DISPLAY_HEIGHT
    DISPLAY_BORDER_WIDTH_COLS mc time timings_ offset
  = wrap_byte (nth (Z.to_nat (Z.rem col_ts 8)) timings_ 0).
Proof.
  cbv zeta. unfold contend_delay_common.
  fold (contend_line mc time).
  fold (contend_tstates_through_line DISPLAY_BORDER_WIDTH_COLS mc time).
  generalize (contend_line mc time) as line.
  generalize (contend_tstates_through_line DISPLAY_BORDER_WIDTH_COLS mc time)
    as col_ts.
  intros col_ts line Hl Hc.
  destruct (Z.ltb_spec line DISPLAY_BORDER_HEIGHT); [lia |]. cbn [orb].
  destruct (Z.geb_spec line (DISPLAY_BORDER_HEIGHT + DISPLAY_HEIGHT)); [lia |].
  destruct (Z.ltb_spec col_ts (left_border (timings mc) - offset)); [lia |].
  destruct (Z.geb_spec col_ts
              (left_border (timings mc) + horizontal_screen (timings mc) - offset));
    [lia | reflexivity].
Qed.

(** An index into a pattern of eight small numbers. *)
Lemma pattern_entry (pattern : list Z) x :
  0 <= x ->
  length pattern = 8%nat ->
  Forall is_byte pattern ->
  wrap_byte (nth (Z.to_nat (Z.rem x 8)) pattern 0)
  = nth (Z.to_nat (x mod 8)) pattern 0.
Proof.
  intros Hx Hlen Hall. rewrite Z.rem_mod_nonneg by lia.
  apply wrap_byte_small.
  pose proof (Z.mod_pos_bound x 8 ltac:(lia)) as Hk.
  rewrite Forall_forall in Hall. apply Hall, nth_In. lia.
Qed.

Lemma pattern_65432100_wf :
  length contention_pattern_65432100 = 8%nat /\
  Forall is_byte contention_pattern_65432100.
Proof. split; [reflexivity |]. repeat constructor; unfold is_byte; lia. Qed.

Lemma pattern_76543210_wf :
  length contention_pattern_76543210 = 8%nat /\
  Forall is_byte contention_pattern_76543210.
Proof. split; [reflexivity |]. repeat constructor; unfold is_byte; lia. Qed.

(** C4.  Each contention function returns 0 when the line is outside the
    screen lines, or the position in the line is before [left_border -
    offset] or at or after [left_border + horizontal_screen - offset];
    otherwise it returns pattern[col_ts mod 8].  The 48K-like function has
    pattern 5,4,3,2,1,0,0,6 and offset 1, the 128K-like one
    5,4,3,2,1,0,7,6 and offset 4.  In particular the delay is 0 on every
    line outside the screen, whatever the position in the line. *)
Theorem contend_delay_regions time :
  0 < tstates_per_line (timings mc) ->
  4 <= left_border (timings mc) ->
  let BH := DISPLAY_BORDER_HEIGHT in
  let DH := DISPLAY_HEIGHT in
  let lb := left_border (timings mc) in
  let hs := horizontal_screen (timings mc) in
  let line := contend_line mc time in
  let col_ts := contend_tstates_through_line DISPLAY_BORDER_WIDTH_COLS mc time in
  let delay_a :=
    spectrum_contend_delay_65432100 BH DH DISPLAY_BORDER_WIDTH_COLS mc time in
  let delay_b :=
    spectrum_contend_delay_76543210 BH DH DISPLAY_BORDER_WIDTH_COLS mc time in
  (line < BH \/ BH + DH <= line \/ col_ts < lb - 1 \/ lb + hs - 1 <= col_ts ->
   delay_a = 0) /\
  (BH <= line < BH + DH -> lb - 1 <= col_ts < lb + hs - 1 ->
   delay_a = nth (Z.to_nat (col_ts mod 8)) [5; 4; 3; 2; 1; 0; 0; 6] 0) /\
  (line < BH \/ BH + DH <= line \/ col_ts < lb - 4 \/ lb + hs - 4 <= col_ts ->
   delay_b = 0) /\
  (BH <= line < BH + DH -> lb - 4 <= col_ts < lb + hs - 4 ->
   delay_b = nth (Z.to_nat (col_ts mod 8)) [5; 4; 3; 2; 1; 0; 7; 6] 0) /\
  (line < BH \/ BH + DH <= line -> delay_a = 0 /\ delay_b = 0).
Proof.
  intros Htpl Hlb. cbv zeta.
  unfold spectrum_contend_delay_65432100, spectrum_contend_delay_76543210.
  split; [| split; [| split; [| split]]].
  - apply contend_delay_common_border.
  - intros Hl Hc. rewrite contend_delay_common_screen by assumption.
    apply pattern_entry; [lia | apply pattern_65432100_wf ..].
  - apply contend_delay_common_border.
  - intros Hl Hc. rewrite contend_delay_common_screen by assumption.
    apply pattern_entry; [lia | apply pattern_76543210_wf ..].
  - intros H. split; apply contend_delay_common_border; tauto.
Qed.

(** The interval of the 48K-like function as the code tests it.  On a
    screen line the delay is pattern_A[col_ts & 7] for every position in
    [left_border - 1, left_border + horizontal_screen - 1), and 0 for
    every position outside that interval. *)
Lemma contend_delay_65432100_interval time :
  0 < tstates_per_line (timings mc) ->
  1 <= left_border (timings mc) ->
  let lb := left_border (timings mc) in
  let hs := horizontal_screen (timings mc) in
  let line := contend_line mc time in
  let col_ts := contend_tstates_through_line DISPLAY_BORDER_WIDTH_COLS mc time in
  let delay_a :=
    spectrum_contend_delay_65432100 DISPLAY_BORDER_HEIGHT DISPLAY_HEIGHT
      DISPLAY_BORDER_WIDTH_COLS mc time in
  DISPLAY_BORDER_HEIGHT <= line < DISPLAY_BORDER_HEIGHT + DISPLAY_HEIGHT ->
  (lb - 1 <= col_ts < lb + hs - 1 ->
   delay_a = nth (Z.to_nat (Z.land col_ts 7)) contention_pattern_65432100 0) /\
  (~ (lb - 1 <= col_ts < lb + hs - 1) -> delay_a = 0).
Proof.
  intros Htpl Hlb. cbv zeta. intros Hl.
  unfold spectrum_contend_delay_65432100. split.
  - intros Hc. rewrite contend_delay_common_screen by assumption.
    change 7 with (Z.ones 3). rewrite Z.land_ones by lia. change (2 ^ 3) with 8.
    apply pattern_entry; [lia | apply pattern_65432100_wf ..].
  - intros Hc. apply contend_delay_common_border. lia.
Qed.

(** C9.  For the 48K-like function (pattern A = 5,4,3,2,1,0,0,6, offset
    1), on a screen line, the delay is pattern_A[col_ts & 7] for every
    position in [left_border - 1, left_border + horizontal_screen - 2),
    and 0 for every position outside that interval.  The timings are
    those of a machine whose left border and screen together last a
    multiple of 8 tstates, as the 24 + 128 of the machines with this
    pattern: the code's own test lets one more position through, left_border
    + horizontal_screen - 2, and there the pattern's entry 6 is 0. *)
Theorem contend_delay_65432100_symmetry time :
  0 < tstates_per_line (timings mc) ->
  1 <= left_border (timings mc) ->
  (left_border (timings mc) + horizontal_screen (timings mc)) mod 8 = 0 ->
  let lb := left_border (timings mc) in
  let hs := horizontal_screen (timings mc) in
  let line := contend_line mc time in
  let col_ts := contend_tstates_through_line DISPLAY_BORDER_WIDTH_COLS mc time in
  let delay_a :=
    spectrum_contend_delay_65432100 DISPLAY_BORDER_HEIGHT DISPLAY_HEIGHT
      DISPLAY_BORDER_WIDTH_COLS mc time in
  DISPLAY_BORDER_HEIGHT <= line < DISPLAY_BORDER_HEIGHT + DISPLAY_HEIGHT ->
  (lb - 1 <= col_ts < lb + hs - 2 ->
   delay_a = nth (Z.to_nat (Z.land col_ts 7)) contention_pattern_65432100 0) /\
  (~ (lb - 1 <= col_ts < lb + hs - 2) -> delay_a = 0).
Proof.
  intros Htpl Hlb Halign. cbv zeta. intros Hl.
  unfold spectrum_contend_delay_65432100.
  set (col_ts := contend_tstates_through_line DISPLAY_BORDER_WIDTH_COLS mc time).
  split.
  - intros Hc. rewrite contend_delay_common_screen by (fold col_ts; lia).
    fold col_ts.
    change 7 with (Z.ones 3). rewrite Z.land_ones by lia. change (2 ^ 3) with 8.
    apply pattern_entry; [lia | apply pattern_65432100_wf ..].
  - intros Hc.
    destruct (Z.eq_dec col_ts
                (left_border (timings mc) + horizontal_screen (timings mc) - 2))
      as [E | E].
    + destruct (Z_le_dec (left_border (timings mc) - 1) col_ts) as [Hin | Hout].
      * rewrite contend_delay_common_screen by (fold col_ts; lia).
        fold col_ts.
        rewrite pattern_entry by (try lia; apply pattern_65432100_wf).
        assert (col_ts mod 8 = 6) as ->; [| reflexivity].
        pose proof (Z.div_mod
                      (left_border (timings mc) + horizontal_screen (timings mc))
                      8 ltac:(lia)) as Hdm.
        rewrite Halign in Hdm.
        symmetry.
        apply Z.mod_unique
          with (q := (left_border (timings mc)
                      + horizontal_screen (timings mc)) / 8 - 1); lia.
      * apply contend_delay_common_border. fold col_ts. lia.
    + apply contend_delay_common_border. fold col_ts. lia.
Qed.

End Contention.

Lemma contend_delay_regions_witness :
  spectrum_contend_delay_65432100 24 192 4 sample_machine 14352 = 5 /\
  spectrum_contend_delay_76543210 24 192 4 sample_machine 14350 = 7 /\
  spectrum_contend_delay_65432100 24 192 4 sample_machine 14350 = 0.
Proof.
  destruct (contend_delay_regions 24 192 4 sample_machine 14352)
    as (_ & Ha & _); [reflexivity | cbv; congruence |].
  destruct (contend_delay_regions 24 192 4 sample_machine 14350)
    as (_ & Ha' & _ & Hb & _); [reflexivity | cbv; congruence |].
  split; [| split].
  - apply Ha; vm_compute; split; congruence.
  - apply Hb; vm_compute; split; congruence.
  - apply Ha'; vm_compute; split; congruence.
Defined.

Lemma contend_delay_65432100_symmetry_witness :
  spectrum_contend_delay_65432100 24 192 4 sample_machine 14352 = 5 /\
  contend_tstates_through_line 4 sample_machine 14462 = 150 /\
  spectrum_contend_delay_65432100 24 192 4 sample_machine 14462 = 0.
Proof.
  destruct (contend_delay_65432100_symmetry 24 192 4 sample_machine 14352)
    as (Hin & _); [reflexivity | cbv; congruence | reflexivity
                  | vm_compute; split; congruence |].
  destruct (contend_delay_65432100_symmetry 24 192 4 sample_machine 14462)
    as (_ & Hout); [reflexivity | cbv; congruence | reflexivity
                   | vm_compute; split; congruence |].
  split; [apply Hin; vm_compute; split; congruence |].
  split; [vm_compute; reflexivity |].
  apply Hout. vm_compute. intros [_ H]. discriminate H.
Defined.

(** The condition on the timings is needed.  With a left border of 36
    tstates, which none of the machines has, position 162 = left_border +
    horizontal_screen - 2 of the first screen line is delayed by
    pattern_A[2] = 3. *)
Lemma contention_symmetry_off_by_one :
  contend_line wide_border_machine 18114 = 24 /\
  contend_tstates_through_line 4 wide_border_machine 18114 = 162 /\
  spectrum_contend_delay_65432100 24 192 4 wide_border_machine 18114 = 3 /\
  ~ contention_symmetry_as_stated 24 192 4 wide_border_machine 18114.
Proof.
  assert (contend_line wide_border_machine 18114 = 24) as E1
    by (vm_compute; reflexivity).
  assert (contend_tstates_through_line 4 wide_border_machine 18114 = 162) as E2
    by (vm_compute; reflexivity).
  assert (spectrum_contend_delay_65432100 24 192 4 wide_border_machine 18114 = 3)
    as E3 by (vm_compute; reflexivity).
  split; [exact E1 | split; [exact E2 | split; [exact E3 |]]].
  unfold contention_symmetry_as_stated. cbv zeta. rewrite E1, E2, E3.
  change (left_border (timings wide_border_machine)) with 36.
  change (horizontal_screen (timings wide_border_machine)) with 128.
  intros H. destruct H as [_ H]; [lia |].
  assert (3 = 0) as Habs by (apply H; lia). discriminate Habs.
Qed.

(** With the stock 24 + 128 timings the statement holds at every time,
    because position left_border + horizontal_screen - 2 = 150 selects
    pattern_A[6] = 0. *)
Lemma contention_symmetry_stock_timings time :
  contention_symmetry_as_stated 24 192 4 sample_machine time.
Proof.
  unfold contention_symmetry_as_stated, spectrum_contend_delay_65432100.
  cbv zeta. intros Hl.
  change (left_border (timings sample_machine)) with 24.
  change (horizontal_screen (timings sample_machine)) with 128.
  split.
  - intros Hc. rewrite contend_delay_common_screen by (cbn; lia).
    change 7 with (Z.ones 3). rewrite Z.land_ones by lia. change (2 ^ 3) with 8.
    apply pattern_entry; [lia | apply pattern_65432100_wf ..].
  - intros Hc.
    destruct (Z.eq_dec (contend_tstates_through_line 4 sample_machine time) 150)
      as [E | E].
    + rewrite contend_delay_common_screen by (cbn; lia). rewrite E. reflexivity.
    + apply contend_delay_common_border. cbn. lia.
Qed.

(** Within a frame nothing wraps: the two locals are the quotient and the
    remainder of exact arithmetic. *)
Lemma contend_locals_exact DISPLAY_BORDER_WIDTH_COLS mc time :
  let d := time - line_times mc 0 in
  let shift := left_border (timings mc) - DISPLAY_BORDER_WIDTH_COLS * 4 in
  0 < tstates_per_line (timings mc) ->
  0 <= d < 2147483648 ->
  0 <= d + shift < 2147483648 ->
  contend_line mc time = d / tstates_per_line (timings mc) /\
  contend_tstates_through_line DISPLAY_BORDER_WIDTH_COLS mc time
  = (d + shift) mod tstates_per_line (timings mc).
Proof.
  cbv zeta. intros Htpl Hd Hs.
  unfold contend_line, contend_tstates_through_line.
  rewrite (wrap_dword_small (time - line_times mc 0)) by (unfold is_dword; lia).
  rewrite (wrap_dword_small (_ + _)) by (unfold is_dword; lia).
  rewrite !to_signed_dword_small by lia.
  split; [apply Z.quot_div_nonneg | apply Z.rem_mod_nonneg]; lia.
Qed.

(** ** The floating bus *)

Section FloatingBus.

Variables DISPLAY_BORDER_HEIGHT DISPLAY_HEIGHT DISPLAY_BORDER_WIDTH_COLS : Z.
Variables display_line_start display_attr_start : Z -> Z.
Variable mc : fuse_machine_info.
Variable RAM : Z -> Z -> Z.
Variable memory_current_screen : Z.

(** [spectrum_unattached_port] in terms of its two locals. *)
Lemma spectrum_unattached_port_unfold tstates :
  let line := unattached_line DISPLAY_BORDER_HEIGHT mc tstates in
  let col_ts :=
    unattached_tstates_through_line DISPLAY_BORDER_HEIGHT
      DISPLAY_BORDER_WIDTH_COLS mc tstates in
  spectrum_unattached_port DISPLAY_BORDER_HEIGHT DISPLAY_HEIGHT
    DISPLAY_BORDER_WIDTH_COLS display_line_start display_attr_start mc
    RAM memory_current_screen tstates
  = if tstates <? line_times mc DISPLAY_BORDER_HEIGHT then 255
    else if line >=? DISPLAY_HEIGHT then 255
    else if col_ts <? left_border (timings mc) then 255
    else if col_ts >=? left_border (timings mc) + horizontal_screen (timings mc)
    then 255
    else
      let column := Z.quot (col_ts - left_border (timings mc)) 8 * 2 in
      match Z.rem col_ts 8 with
      | 5 => RAM memory_current_screen (display_attr_start line + (column + 1))
      | 3 => RAM memory_current_screen (display_attr_start line + column)
      | 4 => RAM memory_current_screen (display_line_start line + (column + 1))
      | 2 => RAM memory_current_screen (display_line_start line + column)
      | 0 | 1 | 6 | 7 => 255
      | _ => 0
      end.
Proof. reflexivity. Qed.

(** C5.  A read of an unattached port returns 0xff outside the display
    area.  Inside it, with column = ((col_ts - left_border) / 8) * 2, it
    returns from the RAM page [memory_current_screen] the pixel byte at
    display_line_start[line] + column when col_ts mod 8 = 2, the next
    pixel byte when it is 4, the attribute byte at
    display_attr_start[line] + column when it is 3, the next attribute
    byte when it is 5, and 0xff when it is 0, 1, 6 or 7. *)
Theorem spectrum_unattached_port_bytes tstates :
  0 < tstates_per_line (timings mc) ->
  0 <= left_border (timings mc) ->
  let line := unattached_line DISPLAY_BORDER_HEIGHT mc tstates in
  let col_ts :=
    unattached_tstates_through_line DISPLAY_BORDER_HEIGHT
      DISPLAY_BORDER_WIDTH_COLS mc tstates in
  let column := (col_ts - left_border (timings mc)) / 8 * 2 in
  let port :=
    spectrum_unattached_port DISPLAY_BORDER_HEIGHT DISPLAY_HEIGHT
      DISPLAY_BORDER_WIDTH_COLS display_line_start display_attr_start mc
      RAM memory_current_screen tstates in
  (~ unattached_in_display DISPLAY_BORDER_HEIGHT DISPLAY_HEIGHT
       DISPLAY_BORDER_WIDTH_COLS mc tstates ->
   port = 255) /\
  (unattached_in_display DISPLAY_BORDER_HEIGHT DISPLAY_HEIGHT
     DISPLAY_BORDER_WIDTH_COLS mc tstates ->
   (col_ts mod 8 = 2 ->
    port = RAM memory_current_screen (display_line_start line + column)) /\
   (col_ts mod 8 = 4 ->
    port = RAM memory_current_screen (display_line_start line + column + 1)) /\
   (col_ts mod 8 = 3 ->
    port = RAM memory_current_screen (display_attr_start line + column)) /\
   (col_ts mod 8 = 5 ->
    port = RAM memory_current_screen (display_attr_start line + column + 1)) /\
   (col_ts mod 8 = 0 \/ col_ts mod 8 = 1 \/ col_ts mod 8 = 6 \/ col_ts mod 8 = 7 ->
    port = 255)).
Proof.
  intros Htpl Hlb. cbv zeta. rewrite spectrum_unattached_port_unfold. cbv zeta.
  unfold unattached_in_display. cbv zeta.
  generalize (unattached_line DISPLAY_BORDER_HEIGHT mc tstates) as line.
  generalize (unattached_tstates_through_line DISPLAY_BORDER_HEIGHT
                DISPLAY_BORDER_WIDTH_COLS mc tstates) as col_ts.
  intros col_ts line.
  destruct (Z.ltb_spec tstates (line_times mc DISPLAY_BORDER_HEIGHT)) as [H1 | H1].
  { split; [reflexivity | lia]. }
  destruct (Z.geb_spec line DISPLAY_HEIGHT) as [H2 | H2].
  { split; [reflexivity | lia]. }
  destruct (Z.ltb_spec col_ts (left_border (timings mc))) as [H3 | H3].
  { split; [reflexivity | lia]. }
  destruct (Z.geb_spec col_ts
              (left_border (timings mc) + horizontal_screen (timings mc)))
    as [H4 | H4].
  { split; [reflexivity | lia]. }
  split; [intros Hn; exfalso; apply Hn; lia |]. intros _.
  rewrite Z.rem_mod_nonneg by lia.
  rewrite Z.quot_div_nonneg by lia.
  rewrite !Z.add_assoc.
  repeat split.
  - intros ->. reflexivity.
  - intros ->. reflexivity.
  - intros ->. reflexivity.
  - intros ->. reflexivity.
  - intros [-> | [-> | [-> | ->]]]; reflexivity.
Qed.

End FloatingBus.

(** Line 10 of the screen, 19 tstates into it: the attribute byte of
    column 4. *)
Lemma spectrum_unattached_port_bytes_witness :
  unattached_line 24 sample_machine 16595 = 10 /\
  unattached_tstates_through_line 24 4 sample_machine 16595 = 43 /\
  spectrum_unattached_port 24 192 4 sample_line_start sample_attr_start
    sample_machine sample_RAM 5 16595
  = sample_RAM 5 (sample_attr_start 10 + 4).
Proof.
  assert (unattached_line 24 sample_machine 16595 = 10) as E1
    by (vm_compute; reflexivity).
  assert (unattached_tstates_through_line 24 4 sample_machine 16595 = 43) as E2
    by (vm_compute; reflexivity).
  split; [exact E1 | split; [exact E2 |]].
  destruct (spectrum_unattached_port_bytes 24 192 4 sample_line_start
              sample_attr_start sample_machine sample_RAM 5 16595)
    as (_ & Hin); [reflexivity | cbv; congruence |].
  destruct Hin as (_ & _ & Hattr & _).
  - unfold unattached_in_display. cbv zeta. rewrite E1, E2.
    vm_compute. repeat split; congruence.
  - rewrite E1, E2 in Hattr. apply Hattr. reflexivity.
Defined.

(** In the left border of a screen line the bus idles. *)
Lemma spectrum_unattached_port_left_border :
  unattached_line 24 sample_machine 25525 = 50 /\
  unattached_tstates_through_line 24 4 sample_machine 25525 = 13 /\
  spectrum_unattached_port 24 192 4 sample_line_start sample_attr_start
    sample_machine sample_RAM 5 25525 = 255.
Proof. repeat split; vm_compute; reflexivity. Qed.

(** ** Well-formedness is kept *)

Ltac solve_range :=
  solve [ assumption
        | apply wrap_byte_is_byte | apply wrap_word_is_word
        | apply wrap_dword_is_dword
        | apply set_hi_is_word | apply set_lo_is_word
        | apply hi_is_byte | apply lo_is_byte
        | unfold is_byte, is_word, is_dword in *; lia ].

Lemma z80_from_snapshot_wf snap t z :
  snapshot_wf snap -> processor_wf (z80_from_snapshot snap t z).
Proof.
  intros []. unfold z80_from_snapshot.
  destruct (truthy (snap_last_instruction_set_f snap));
    constructor; cbn; solve_range.
Qed.

Lemma z80_interrupt_accept_wf env s value s' :
  state_wf s -> z80_interrupt_accept env s = Returned value s' -> state_wf s'.
Proof.
  destruct s as [z t m ev ro fr]. destruct z.
  intros [Hz Ht Hm]. destruct Hz. cbn in * |-.
  unfold z80_interrupt_accept. cbn [z80 halted].
  destruct (truthy halted0); run_core;
    (destruct (im0 =? 0); [| destruct (im0 =? 1); [| destruct (im0 =? 2)]]);
    intros H; inversion H; subst; clear H;
    (constructor; [constructor | |]); cbn;
    try solve_range;
    repeat (apply store_wf; try solve_range).
Qed.

Lemma z80_interrupt_wf env s value s' :
  state_wf s -> z80_interrupt env s = Returned value s' -> state_wf s'.
Proof.
  intros Hs Hrun.
  assert (state_wf (nmos_iff2_fixup env s)) as Hfixwf.
  { destruct (nmos_iff2_fixup_fields env s) as (f & Hfix & _ & Hf).
    rewrite Hfix. destruct Hs as [[] Ht Hm].
    constructor; [constructor | |]; cbn; try assumption. apply Hf; assumption. }
  destruct (z80_interrupt_cases env s) as [H | [(_ & _ & H) | (_ & _ & H)]];
    rewrite H in Hrun.
  - inversion Hrun; subst. exact Hs.
  - inversion Hrun; subst. destruct Hfixwf. constructor; assumption.
  - eapply z80_interrupt_accept_wf; eassumption.
Qed.

Lemma spectrum_frame_wf env s :
  state_wf s -> state_wf (snd (spectrum_frame env s)).
Proof.
  destruct s as [z t m ev ro fr]. destruct z.
  intros [Hz Ht Hm]. destruct Hz. cbn in * |-.
  unfold spectrum_frame.
  cbn [z80 set_event_list set_tstates interrupts_enabled_at tstates event_list].
  destruct (interrupts_enabled_at0 >=? 0); destruct (truthy (display_frame env));
    destruct (negb (truthy (rzx_playback env))); cbn;
    (constructor; [constructor | |]); cbn; solve_range.
Qed.

(** Every state the core reaches is well-formed. *)
Lemma reachable_wf env s : reachable env s -> state_wf s.
Proof.
  induction 1 as [m Hm | s hard _ IH | s snap _ IH Hsnap | s value s' _ IH Hrun | s _ IH].
  - constructor; cbn; [| unfold is_dword; lia | exact Hm].
    apply z80_reset_wf. constructor; cbn; unfold is_word, is_byte; lia.
  - destruct IH. constructor; cbn; try assumption. apply z80_reset_wf; assumption.
  - destruct IH. constructor; cbn; try assumption.
    apply z80_from_snapshot_wf; assumption.
  - eapply z80_interrupt_wf; eassumption.
  - apply spectrum_frame_wf; assumption.
Qed.

(** * Further properties *)

(** ** The flag tables *)

Lemma forall_bytes (P : Z -> bool) :
  forallb P byte_range = true -> forall x, is_byte x -> P x = true.
Proof.
  intros H x Hx. rewrite forallb_forall in H. apply H.
  unfold byte_range. replace x with (Z.of_nat (Z.to_nat x)) by (unfold is_byte in Hx; lia).
  apply in_map, in_seq. unfold is_byte in Hx. lia.
Qed.

Lemma array_set_length l n v : length (array_set l n v) = length l.
Proof.
  revert n. induction l as [| x rest IH]; intros [| n]; cbn; congruence.
Qed.

Lemma nth_array_set_same l n v d :
  (n < length l)%nat -> nth n (array_set l n v) d = v.
Proof.
  revert n. induction l as [| x rest IH]; intros [| n] H; cbn in *;
    try lia; try reflexivity. apply IH. lia.
Qed.

Lemma nth_array_set_other l n m v d :
  n <> m -> nth m (array_set l n v) d = nth m l d.
Proof.
  revert n m. induction l as [| x rest IH]; intros [| n] [| m] H; cbn;
    try reflexivity; try congruence.
  apply IH. congruence.
Qed.

Lemma table_get_set_same l index v :
  0 <= index < Z.of_nat (length l) -> table_get (table_set l index v) index = v.
Proof. intros H. apply nth_array_set_same. lia. Qed.

Lemma table_get_set_other l index other v :
  0 <= index -> 0 <= other -> index <> other ->
  table_get (table_set l index v) other = table_get l other.
Proof. intros H1 H2 H3. apply nth_array_set_other. lia. Qed.

Lemma table_set_length l index v : length (table_set l index v) = length l.
Proof. apply array_set_length. Qed.

Section FlagTableFacts.

Variables FLAG_3 FLAG_5 FLAG_S FLAG_Z : Z.

Lemma init_tables_step_spec i t :
  tables_allocated t -> 0 <= i < 256 ->
  let t' := init_tables_step FLAG_3 FLAG_5 FLAG_S i t in
  tables_allocated t' /\
  table_get (sz53_table t') i = sz53_entry FLAG_3 FLAG_5 FLAG_S i /\
  table_get (parity_table t') i = parity_entry i /\
  table_get (sz53p_table t') i = sz53p_entry FLAG_3 FLAG_5 FLAG_S i /\
  (forall j, 0 <= j -> j <> i ->
     table_get (sz53_table t') j = table_get (sz53_table t) j /\
     table_get (parity_table t') j = table_get (parity_table t) j /\
     table_get (sz53p_table t') j = table_get (sz53p_table t) j).
Proof.
  intros (H1 & H2 & H3) Hi. cbv zeta. unfold init_tables_step.
  cbn [sz53_table parity_table sz53p_table].
  rewrite !table_get_set_same by lia.
  unfold tables_allocated. cbn [sz53_table parity_table sz53p_table].
  rewrite !table_set_length.
  repeat split; try assumption; apply table_get_set_other; lia.
Qed.

Lemma init_tables_loop_spec n : forall i t,
  tables_allocated t -> 0 <= i -> i + Z.of_nat n <= 256 ->
  let t' := init_tables_loop FLAG_3 FLAG_5 FLAG_S n i t in
  tables_allocated t' /\
  (forall j, i <= j < i + Z.of_nat n ->
     table_get (sz53_table t') j = sz53_entry FLAG_3 FLAG_5 FLAG_S j /\
     table_get (parity_table t') j = parity_entry j /\
     table_get (sz53p_table t') j = sz53p_entry FLAG_3 FLAG_5 FLAG_S j) /\
  (forall j, 0 <= j < i ->
     table_get (sz53_table t') j = table_get (sz53_table t) j /\
     table_get (parity_table t') j = table_get (parity_table t) j /\
     table_get (sz53p_table t') j = table_get (sz53p_table t) j).
Proof.
  induction n as [| n IH]; intros i t Ht Hi Hn; cbv zeta.
  - cbn. split; [assumption |]. split; [lia | tauto].
  - cbn [init_tables_loop].
    destruct (init_tables_step_spec i t Ht ltac:(lia))
      as (Ht1 & Ha & Hb & Hc & Hrest).
    destruct (IH (i + 1) _ Ht1 ltac:(lia) ltac:(lia)) as (Ht2 & Hnew & Hold).
    split; [exact Ht2 |]. split.
    + intros j Hj. destruct (Z.eq_dec j i) as [-> | Hne].
      * destruct (Hold i ltac:(lia)) as (-> & -> & ->). tauto.
      * apply Hnew. lia.
    + intros j Hj. destruct (Hold j ltac:(lia)) as (-> & -> & ->).
      apply Hrest; lia.
Qed.

End FlagTableFacts.

Lemma wrap_byte_land_255 x : wrap_byte x = Z.land x 255.
Proof.
  unfold wrap_byte. change 255 with (Z.ones 8). rewrite Z.land_ones by lia.
  reflexivity.
Qed.

Lemma wrap_byte_land x y : is_byte x -> wrap_byte (Z.land x y) = Z.land x y.
Proof.
  intros Hx. rewrite wrap_byte_land_255.
  rewrite <- Z.land_assoc, (Z.land_comm y 255), Z.land_assoc.
  rewrite <- wrap_byte_land_255, wrap_byte_small by assumption. reflexivity.
Qed.

Lemma wrap_byte_lor x y : is_byte x -> is_byte y -> wrap_byte (Z.lor x y) = Z.lor x y.
Proof.
  intros Hx Hy. rewrite wrap_byte_land_255, Z.land_lor_distr_l.
  rewrite <- !wrap_byte_land_255, !wrap_byte_small by assumption. reflexivity.
Qed.

(** The inner loop leaves the parity of the eight low bits. *)
Lemma parity_loop_popcount i :
  is_byte i -> parity_loop 8 i 0 = popcount8 i mod 2.
Proof.
  intros Hi. apply Z.eqb_eq.
  apply (forall_bytes (fun x => parity_loop 8 x 0 =? popcount8 x mod 2));
    [vm_compute; reflexivity | exact Hi].
Qed.

Lemma parity_entry_even i :
  is_byte i -> parity_entry i = (if Z.even (popcount8 i) then FLAG_P else 0).
Proof.
  intros Hi. unfold parity_entry. rewrite parity_loop_popcount by assumption.
  rewrite Zeven_mod. unfold truthy.
  destruct (popcount8 i mod 2 =? 0); reflexivity.
Qed.

(** X1.  [z80_init_tables]: the parity table.  Whatever the tables held, entry
    i of [parity_table] is FLAG_P when i has an even number of one bits
    and 0 when it has an odd number. *)
Theorem z80_init_tables_parity FLAG_3 FLAG_5 FLAG_S FLAG_Z t i :
  tables_allocated t ->
  is_byte i ->
  table_get (parity_table (z80_init_tables FLAG_3 FLAG_5 FLAG_S FLAG_Z t)) i
  = (if Z.even (popcount8 i) then FLAG_P else 0).
Proof.
  intros Ht Hi. unfold z80_init_tables. cbn [parity_table].
  destruct (init_tables_loop_spec FLAG_3 FLAG_5 FLAG_S 256 0 t Ht)
    as (_ & Hnew & _); [lia | lia |].
  destruct (Hnew i) as (_ & -> & _); [unfold is_byte in Hi; lia |].
  apply parity_entry_even, Hi.
Qed.

Lemma z80_init_tables_parity_witness :
  table_get (parity_table (z80_init_tables 8 32 128 64 blank_tables)) 3 = 4 /\
  table_get (parity_table (z80_init_tables 8 32 128 64 blank_tables)) 7 = 0.
Proof.
  split.
  - apply (z80_init_tables_parity 8 32 128 64 blank_tables 3).
    + repeat split.
    + unfold is_byte. lia.
  - apply (z80_init_tables_parity 8 32 128 64 blank_tables 7).
    + repeat split.
    + unfold is_byte. lia.
Defined.

(** X2.  [z80_init_tables]: the other two tables.  With byte-sized masks,
    entry i of [sz53_table] is i & (FLAG_3 | FLAG_5 | FLAG_S) for every i
    but 0, entry 0 is FLAG_Z, and for every i, 0 included, entry i of
    [sz53p_table] is the "or" of the entries i of [sz53_table] and
    [parity_table]; the three tables keep their 0x100 entries and nothing
    of what they held before is left. *)
Theorem z80_init_tables_sz53 FLAG_3 FLAG_5 FLAG_S FLAG_Z t :
  is_byte FLAG_3 -> is_byte FLAG_5 -> is_byte FLAG_S -> is_byte FLAG_Z ->
  tables_allocated t ->
  let t' := z80_init_tables FLAG_3 FLAG_5 FLAG_S FLAG_Z t in
  tables_allocated t' /\
  table_get (sz53_table t') 0 = FLAG_Z /\
  (forall i, 0 < i < 256 ->
     table_get (sz53_table t') i
     = Z.land i (Z.lor (Z.lor FLAG_3 FLAG_5) FLAG_S)) /\
  (forall i, is_byte i ->
     table_get (sz53p_table t') i
     = Z.lor (table_get (sz53_table t') i) (table_get (parity_table t') i)).
Proof.
  intros H3 H5 HS HZ Ht. cbv zeta. unfold z80_init_tables.
  destruct (init_tables_loop_spec FLAG_3 FLAG_5 FLAG_S 256 0 t Ht)
    as ((L1 & L2 & L3) & Hnew & _); [lia | lia |].
  set (t1 := init_tables_loop FLAG_3 FLAG_5 FLAG_S 256 0 t) in *.
  cbn [sz53_table parity_table sz53p_table].
  assert (forall i, is_byte i -> is_byte (parity_entry i)) as Hpar.
  { intros i Hi. apply wrap_byte_is_byte. }
  assert (forall i, is_byte i ->
            sz53_entry FLAG_3 FLAG_5 FLAG_S i
            = Z.land i (Z.lor (Z.lor FLAG_3 FLAG_5) FLAG_S)) as Hsz.
  { intros i Hi. apply wrap_byte_land, Hi. }
  destruct (Hnew 0) as (E0 & P0 & S0); [lia |].
  assert (is_byte 0) as B0 by (unfold is_byte; lia).
  split; [| split; [| split]].
  - unfold tables_allocated. cbn [sz53_table parity_table sz53p_table].
    rewrite !table_set_length. tauto.
  - rewrite table_get_set_same by lia. rewrite E0, Hsz by assumption.
    rewrite Z.land_0_l, Z.lor_0_l. apply wrap_byte_small, HZ.
  - intros i Hi. rewrite table_get_set_other by lia.
    destruct (Hnew i) as (-> & _); [lia |]. apply Hsz. unfold is_byte. lia.
  - intros i Hi. destruct (Z.eq_dec i 0) as [-> | Hne].
    + rewrite !table_get_set_same by lia. rewrite E0, P0, S0.
      unfold sz53p_entry. rewrite Hsz by assumption.
      rewrite Z.land_0_l, !Z.lor_0_l.
      rewrite (wrap_byte_small (parity_entry 0)) by (apply Hpar, B0).
      rewrite !wrap_byte_lor by (try apply Hpar; assumption).
      rewrite (wrap_byte_small FLAG_Z) by assumption.
      apply Z.lor_comm.
    + unfold is_byte in Hi. rewrite !table_get_set_other by lia.
      destruct (Hnew i) as (-> & -> & ->); [lia |].
      unfold sz53p_entry. apply wrap_byte_lor; [| apply Hpar; unfold is_byte; lia].
      rewrite Hsz by (unfold is_byte; lia).
      rewrite <- wrap_byte_land by (unfold is_byte; lia). apply wrap_byte_is_byte.
Qed.

Lemma z80_init_tables_sz53_witness :
  let t' := z80_init_tables 8 32 128 64 blank_tables in
  table_get (sz53_table t') 0 = 64 /\
  table_get (sz53_table t') 255 = 168 /\
  table_get (sz53p_table t') 0 = 68 /\
  table_get (sz53p_table t') 255 = 172.
Proof.
  destruct (z80_init_tables_sz53 8 32 128 64 blank_tables)
    as (_ & H0 & Hi & Hp); try (unfold is_byte; lia); [repeat split |].
  cbv zeta. split; [exact H0 |]. split; [apply Hi; lia |].
  split; (rewrite Hp by (unfold is_byte; lia)); vm_compute; reflexivity.
Defined.

(** A table of one flag, entry by entry. *)
Lemma flag_table_lookup (FLAG : Z) (pattern : list bool) index :
  table_get (map (fun b : bool => if b then FLAG else 0) pattern) index
  = (if nth (Z.to_nat index) pattern false then FLAG else 0).
Proof.
  unfold table_get.
  apply (map_nth (fun b : bool => if b then FLAG else 0) pattern false).
Qed.

Lemma forall_bytes_carry (P : Z -> Z -> Z -> bool) :
  forallb (fun a => forallb (fun b => P a b 0 && P a b 1) byte_range) byte_range
  = true ->
  forall a b c, is_byte a -> is_byte b -> c = 0 \/ c = 1 -> P a b c = true.
Proof.
  intros H a b c Ha Hb Hc.
  pose proof (forall_bytes _ H a Ha) as H1. cbv beta in H1.
  pose proof (forall_bytes _ H1 b Hb) as H2. cbv beta in H2.
  apply andb_true_iff in H2. destruct Hc as [-> | ->]; tauto.
Qed.

(** X3.  The tables for additions.  For bytes a and b and a carry c coming in,
    with r the low byte of a + b + c: the entry of [halfcarry_add_table]
    at the index made of bit 3 of r, a and b is FLAG_H exactly when the
    low nibbles and the carry add up to more than 15, and the entry of
    [overflow_add_table] at the index made of their bits 7 is FLAG_V
    exactly when the sum of a and b as signed bytes, plus c, does not fit
    a signed byte. *)
Theorem add_tables_correct FLAG_H FLAG_V a b c :
  is_byte a -> is_byte b -> c = 0 \/ c = 1 ->
  let r := wrap_byte (a + b + c) in
  table_get (halfcarry_add_table FLAG_H) (r12 3 r a b)
  = (if 15 <? a mod 16 + b mod 16 + c then FLAG_H else 0) /\
  table_get (overflow_add_table FLAG_V) (r12 7 r a b)
  = (let sum := signed_byte a + signed_byte b + c in
     if (sum <? -128) || (127 <? sum) then FLAG_V else 0).
Proof.
  intros Ha Hb Hc. cbv zeta.
  change (halfcarry_add_table FLAG_H)
    with (map (fun x : bool => if x then FLAG_H else 0)
              [false; true; true; true; false; false; false; true]).
  change (overflow_add_table FLAG_V)
    with (map (fun x : bool => if x then FLAG_V else 0)
              [false; false; false; true; true; false; false; false]).
  rewrite !flag_table_lookup.
  pose proof
    (forall_bytes_carry
       (fun a b c =>
          let r := wrap_byte (a + b + c) in
          Bool.eqb
            (nth (Z.to_nat (r12 3 r a b))
                 [false; true; true; true; false; false; false; true] false)
            (15 <? a mod 16 + b mod 16 + c)
          && Bool.eqb
               (nth (Z.to_nat (r12 7 r a b))
                    [false; false; false; true; true; false; false; false] false)
               (let sum := signed_byte a + signed_byte b + c in
                (sum <? -128) || (127 <? sum)))
       ltac:(vm_compute; reflexivity) a b c Ha Hb Hc) as H.
  cbv beta zeta in H. apply andb_true_iff in H. destruct H as [H1 H2].
  apply Bool.eqb_prop in H1, H2. rewrite H1, H2. split; reflexivity.
Qed.

Lemma add_tables_correct_witness :
  table_get (halfcarry_add_table 16) (r12 3 (wrap_byte (15 + 1 + 0)) 15 1) = 16 /\
  table_get (overflow_add_table 4) (r12 7 (wrap_byte (127 + 1 + 0)) 127 1) = 4.
Proof.
  destruct (add_tables_correct 16 4 15 1 0) as (H & _);
    try (unfold is_byte; lia).
  destruct (add_tables_correct 16 4 127 1 0) as (_ & V);
    try (unfold is_byte; lia).
  split; [exact H | exact V].
Defined.

(** X4.  The tables for subtractions.  For bytes m and s and a borrow c coming
    in, with r the low byte of m - s - c: the entry of
    [halfcarry_sub_table] at the index made of bit 3 of r, of the
    subtrahend s and of the minuend m is FLAG_H exactly when the low
    nibble of m is less than that of s plus c, and the entry of
    [overflow_sub_table] at the index made of their bits 7 is FLAG_V
    exactly when the difference of m and s as signed bytes, less c, does
    not fit a signed byte. *)
Theorem sub_tables_correct FLAG_H FLAG_V m s c :
  is_byte m -> is_byte s -> c = 0 \/ c = 1 ->
  let r := wrap_byte (m - s - c) in
  table_get (halfcarry_sub_table FLAG_H) (r12 3 r s m)
  = (if m mod 16 <? s mod 16 + c then FLAG_H else 0) /\
  table_get (overflow_sub_table FLAG_V) (r12 7 r s m)
  = (let difference := signed_byte m - signed_byte s - c in
     if (difference <? -128) || (127 <? difference) then FLAG_V else 0).
Proof.
  intros Hm Hs Hc. cbv zeta.
  change (halfcarry_sub_table FLAG_H)
    with (map (fun x : bool => if x then FLAG_H else 0)
              [false; false; true; false; true; false; true; true]).
  change (overflow_sub_table FLAG_V)
    with (map (fun x : bool => if x then FLAG_V else 0)
              [false; true; false; false; false; false; true; false]).
  rewrite !flag_table_lookup.
  pose proof
    (forall_bytes_carry
       (fun m s c =>
          let r := wrap_byte (m - s - c) in
          Bool.eqb
            (nth (Z.to_nat (r12 3 r s m))
                 [false; false; true; false; true; false; true; true] false)
            (m mod 16 <? s mod 16 + c)
          && Bool.eqb
               (nth (Z.to_nat (r12 7 r s m))
                    [false; true; false; false; false; false; true; false] false)
               (let difference := signed_byte m - signed_byte s - c in
                (difference <? -128) || (127 <? difference)))
       ltac:(vm_compute; reflexivity) m s c Hm Hs Hc) as H.
  cbv beta zeta in H. apply andb_true_iff in H. destruct H as [H1 H2].
  apply Bool.eqb_prop in H1, H2. rewrite H1, H2. split; reflexivity.
Qed.

Lemma sub_tables_correct_witness :
  table_get (halfcarry_sub_table 16) (r12 3 (wrap_byte (16 - 1 - 0)) 1 16) = 16 /\
  table_get (overflow_sub_table 4) (r12 7 (wrap_byte (128 - 1 - 0)) 1 128) = 4.
Proof.
  destruct (sub_tables_correct 16 4 16 1 0) as (H & _);
    try (unfold is_byte; lia).
  destruct (sub_tables_correct 16 4 128 1 0) as (_ & V);
    try (unfold is_byte; lia).
  split; [exact H | exact V].
Defined.

(** The order of the two arguments matters for subtractions: with the
    minuend's bit in the middle of the index the table misses the borrow
    of 0 - 8. *)
Lemma sub_tables_argument_order :
  table_get (halfcarry_sub_table 16) (r12 3 (wrap_byte (0 - 8 - 0)) 8 0) = 16 /\
  table_get (halfcarry_sub_table 16) (r12 3 (wrap_byte (0 - 8 - 0)) 0 8) = 0.
Proof. split; vm_compute; reflexivity. Qed.

(** ** More on maskable interrupts *)

(** A state given by its fields, with the names the proofs below use. *)
Ltac destruct_state s :=
  let z := fresh "z" in
  destruct s as [z t m ev ro fr];
  destruct z as [af0 bc0 de0 hl0 af_0 bc_0 de_0 hl_0 ix0 iy0 i0 r0 r70 sp0 pc0
                 memptr0 iff2_read0 iff10 iff20 im0 halted0
                 interrupts_enabled_at0 q0].

(** An accepted interrupt in any mode, in terms of the state before. *)
Lemma z80_interrupt_accept_effects env s value s' :
  z80_interrupt_accept env s = Returned value s' ->
  let z := z80 s in
  let ret := if truthy (halted z) then wrap_word (pc z + 1) else pc z in
  let a1 := wrap_word (sp z - 1) in
  let a2 := wrap_word (a1 - 1) in
  let t0 := wrap_dword (tstates s + 7) in
  let t1 := wrap_dword (t0 + access_cost env a1 t0) in
  let t2 := wrap_dword (t1 + access_cost env a2 t1) in
  value = 1 /\
  memory s' = store (store (memory s) a1 (wrap_byte (hi ret))) a2 (wrap_byte (lo ret)) /\
  sp (z80 s') = a2 /\
  halted (z80 s') = 0 /\
  iff1 (z80 s') = 0 /\ iff2 (z80 s') = 0 /\ q (z80 s') = 0 /\
  memptr (z80 s') = pc (z80 s') /\
  af (z80 s') = af z /\ im (z80 s') = im z /\
  event_list s' = event_list s /\
  (im z = 0 \/ im z = 1 \/ im z = 2) /\
  (im z <> 2 -> pc (z80 s') = 56 /\ tstates s' = t2).
Proof.
  destruct_state s.
  unfold z80_interrupt_accept. cbn [z80 halted].
  destruct (truthy halted0) eqn:Eh; run_core;
    (destruct (Z.eqb_spec im0 0);
     [| destruct (Z.eqb_spec im0 1); [| destruct (Z.eqb_spec im0 2)]]);
    intros H; inversion H; subst; clear H; run_core;
    repeat split; try tauto; try lia; try congruence;
    try (apply truthy_false; assumption).
Qed.

Lemma z80_interrupt_accept_unknown_mode env s :
  im (z80 s) <> 0 -> im (z80 s) <> 1 -> im (z80 s) <> 2 ->
  z80_interrupt_accept env s = Aborted.
Proof.
  destruct_state s.
  unfold z80_interrupt_accept. cbn [z80 halted im].
  intros H0 H1 H2.
  destruct (truthy halted0); run_core;
    destruct (Z.eqb_spec im0 0); try contradiction;
    destruct (Z.eqb_spec im0 1); try contradiction;
    destruct (Z.eqb_spec im0 2); try contradiction; reflexivity.
Qed.

(** X5.  [z80_interrupt]: refusal.  With IFF1 clear, or [tstates] at or past
    the interrupt length, or the SCLD inhibit set, the call returns 0 and
    changes nothing at all; so it does right after any reset. *)
Theorem z80_interrupt_refused env :
  (forall s,
     iff1 (z80 s) = 0 \/
     interrupt_length (timings (machine_current env)) <= tstates s \/
     scld_intdisable env <> 0 ->
     z80_interrupt env s = Returned 0 s) /\
  (forall s hard_reset,
     let s' := set_z80 s (z80_reset hard_reset (z80 s)) in
     z80_interrupt env s' = Returned 0 s').
Proof.
  split.
  - intros s H. apply interrupt_guard_false.
    unfold interrupt_line_active. lia.
  - intros s hard_reset. cbv zeta. apply interrupt_guard_false.
    unfold interrupt_line_active. cbn [z80 set_z80].
    assert (iff1 (z80_reset hard_reset (z80 s)) = 0) as H.
    { unfold z80_reset. destruct (truthy hard_reset); reflexivity. }
    tauto.
Qed.

Lemma z80_interrupt_refused_witness :
  z80_interrupt sample_env (set_tstates im2_state 32)
  = Returned 0 (set_tstates im2_state 32).
Proof.
  apply (proj1 (z80_interrupt_refused sample_env)).
  right. left. cbv. congruence.
Defined.

(** X6.  [z80_interrupt]: the return address.  Whenever an interrupt is
    accepted, in any mode, the word pushed is PC, or PC + 1 (modulo 2^16)
    if the CPU was halted, high byte at SP-1 and low byte at SP-2; SP ends
    two below, HALT is left, IFF1, IFF2 and Q are 0, MEMPTR is the new PC
    and the mode was 0, 1 or 2. *)
Theorem z80_interrupt_return_address env s s' :
  z80_interrupt env s = Returned 1 s' ->
  let z := z80 s in
  let ret := if halted z =? 0 then pc z else wrap_word (pc z + 1) in
  memory s' (wrap_word (sp z - 1)) = hi ret /\
  memory s' (wrap_word (sp z - 2)) = lo ret /\
  (forall a, a <> wrap_word (sp z - 1) -> a <> wrap_word (sp z - 2) ->
     memory s' a = memory s a) /\
  sp (z80 s') = wrap_word (sp z - 2) /\
  halted (z80 s') = 0 /\
  iff1 (z80 s') = 0 /\ iff2 (z80 s') = 0 /\ q (z80 s') = 0 /\
  memptr (z80 s') = pc (z80 s') /\
  (im z = 0 \/ im z = 1 \/ im z = 2).
Proof.
  intros Hrun. cbv zeta.
  destruct (nmos_iff2_fixup_fields env s) as (f & Hfix & _ & _).
  destruct (z80_interrupt_cases env s) as [H | [(_ & _ & H) | (_ & _ & H)]];
    rewrite H in Hrun; try discriminate Hrun.
  apply z80_interrupt_accept_effects in Hrun. rewrite Hfix in Hrun.
  cbn [z80 set_z80 set_af halted pc sp im tstates memory] in Hrun.
  destruct Hrun as (_ & Hmem & Hsp & Hh & H1 & H2 & Hq & Hmp & _ & _ & _ & Him & _).
  rewrite wrap_word_pred_pred in Hmem, Hsp.
  rewrite !wrap_byte_small in Hmem by (apply hi_is_byte || apply lo_is_byte).
  unfold truthy in Hmem.
  assert ((if negb (halted (z80 s) =? 0) then wrap_word (pc (z80 s) + 1)
           else pc (z80 s))
          = (if halted (z80 s) =? 0 then pc (z80 s)
             else wrap_word (pc (z80 s) + 1))) as E
    by (destruct (halted (z80 s) =? 0); reflexivity).
  rewrite E in Hmem.
  repeat split; try assumption.
  - rewrite Hmem, store_other by apply wrap_word_pred_neq. apply store_same.
  - rewrite Hmem. apply store_same.
  - intros a Ha1 Ha2. rewrite Hmem, !store_other by assumption. reflexivity.
Qed.

Lemma z80_interrupt_return_address_witness :
  exists s',
    z80_interrupt sample_env halted_im1_state = Returned 1 s' /\
    memory s' 24575 = 128 /\ memory s' 24574 = 1 /\
    sp (z80 s') = 24574 /\ halted (z80 s') = 0.
Proof.
  assert (exists s', z80_interrupt sample_env halted_im1_state = Returned 1 s')
    as (s' & Hrun) by (vm_compute; eexists; reflexivity).
  destruct (z80_interrupt_return_address sample_env halted_im1_state s' Hrun)
    as (H1 & H2 & _ & Hsp & Hh & _).
  exists s'. repeat split; assumption.
Defined.

(** X7.  [z80_interrupt]: modes 0 and 1.  With the line active and the last
    instruction not EI, an interrupt in IM 0 or IM 1 is accepted and goes
    to 0x0038; it costs the 7 tstates and the two stack writes, and reads
    nothing from the bus. *)
Theorem z80_interrupt_im01_accepted env s :
  interrupt_line_active env s ->
  tstates s <> interrupts_enabled_at (z80 s) ->
  im (z80 s) = 0 \/ im (z80 s) = 1 ->
  let a1 := wrap_word (sp (z80 s) - 1) in
  let a2 := wrap_word (sp (z80 s) - 2) in
  let t0 := wrap_dword (tstates s + 7) in
  let t1 := wrap_dword (t0 + access_cost env a1 t0) in
  let t2 := wrap_dword (t1 + access_cost env a2 t1) in
  exists s',
    z80_interrupt env s = Returned 1 s' /\
    pc (z80 s') = 56 /\ memptr (z80 s') = 56 /\
    tstates s' = t2 /\
    im (z80 s') = im (z80 s).
Proof.
  intros Hactive Hei Him. cbv zeta.
  rewrite z80_interrupt_taken by assumption.
  destruct (nmos_iff2_fixup_fields env s) as (f & Hfix & _ & _).
  rewrite Hfix.
  destruct (z80_interrupt_accept env (set_z80 s (set_af (z80 s) f)))
    as [value s' |] eqn:Hrun.
  - apply z80_interrupt_accept_effects in Hrun.
    cbn [z80 set_z80 set_af halted pc sp im tstates memory] in Hrun.
    destruct Hrun as (-> & _ & _ & _ & _ & _ & _ & Hmp & _ & Him' & _ & _ & Hpc).
    destruct Hpc as (Hpc & Ht); [lia |].
    rewrite wrap_word_pred_pred in Ht.
    exists s'. repeat split; try assumption. congruence.
  - exfalso.
    assert (z80_interrupt_accept env (set_z80 s (set_af (z80 s) f)) <> Aborted)
      as Hn; [| contradiction].
    clear Hrun. destruct_state s.
    cbn [z80 im] in Him. unfold z80_interrupt_accept. cbn [z80 set_z80 set_af halted].
    destruct (truthy halted0); run_core;
      destruct Him as [-> | ->]; cbn; discriminate.
Qed.

Lemma z80_interrupt_im01_accepted_witness :
  exists s',
    z80_interrupt sample_env halted_im1_state = Returned 1 s' /\
    pc (z80 s') = 56 /\ memptr (z80 s') = 56 /\ tstates s' = 18.
Proof.
  destruct (z80_interrupt_im01_accepted sample_env halted_im1_state)
    as (s' & Hrun & Hpc & Hmp & Ht & _).
  - cbv. repeat split; congruence.
  - cbv. congruence.
  - right. reflexivity.
  - exists s'. repeat split; assumption.
Defined.

(** X8.  [z80_interrupt]: the fatal error.  The call ends in [fuse_abort]
    exactly when an interrupt is being accepted (line active, last
    instruction not EI) in a mode other than 0, 1 and 2. *)
Theorem z80_interrupt_aborts_iff env s :
  z80_interrupt env s = Aborted <->
  (interrupt_line_active env s /\
   tstates s <> interrupts_enabled_at (z80 s) /\
   im (z80 s) <> 0 /\ im (z80 s) <> 1 /\ im (z80 s) <> 2).
Proof.
  destruct (nmos_iff2_fixup_fields env s) as (f & Hfix & _ & _).
  split.
  - intros Hrun.
    destruct (z80_interrupt_cases env s) as [H | [(_ & _ & H) | (Ha & Hei & H)]];
      rewrite H in Hrun; try discriminate Hrun.
    split; [exact Ha | split; [exact Hei |]].
    rewrite Hfix in Hrun.
    destruct (Z.eq_dec (im (z80 s)) 0) as [E | E0];
      [| destruct (Z.eq_dec (im (z80 s)) 1) as [E | E1];
         [| destruct (Z.eq_dec (im (z80 s)) 2) as [E | E2]; [| tauto]]];
      exfalso; revert Hrun; clear - E;
      destruct_state s; cbn [z80 im] in E; subst;
      unfold z80_interrupt_accept; cbn [z80 set_z80 set_af halted];
      destruct (truthy halted0); run_core; cbn; discriminate.
  - intros (Ha & Hei & H0 & H1 & H2).
    rewrite z80_interrupt_taken by assumption. rewrite Hfix.
    apply z80_interrupt_accept_unknown_mode; cbn [z80 set_z80 set_af im]; assumption.
Qed.

Lemma z80_interrupt_aborts_iff_witness :
  z80_interrupt sample_env unknown_im_state = Aborted.
Proof.
  apply (proj2 (z80_interrupt_aborts_iff sample_env unknown_im_state)).
  cbv. repeat split; congruence.
Defined.

Lemma clear_flag_p x : is_byte x -> wrap_byte (Z.land x (Z.lnot FLAG_P)) = Z.land x 251.
Proof.
  intros Hx. rewrite wrap_byte_land_255, <- Z.land_assoc. reflexivity.
Qed.

(** The three ways through [z80_interrupt], told apart. *)
Lemma z80_interrupt_paths env s :
  (~ interrupt_line_active env s /\ z80_interrupt env s = Returned 0 s) \/
  (interrupt_line_active env s /\
   tstates s = interrupts_enabled_at (z80 s) /\
   z80_interrupt env s =
   Returned 0
     (set_event_list (nmos_iff2_fixup env s)
        (event_add (wrap_dword (tstates s + 1)) (z80_interrupt_event env)
           (event_list s)))) \/
  (interrupt_line_active env s /\
   tstates s <> interrupts_enabled_at (z80 s) /\
   z80_interrupt env s = z80_interrupt_accept env (nmos_iff2_fixup env s)).
Proof.
  destruct (z80_interrupt_cases env s) as [H | [H | H]]; [| tauto | tauto].
  assert (interrupt_line_active env s \/ ~ interrupt_line_active env s) as [Ha | Hn].
  { unfold interrupt_line_active.
    destruct (Z.eq_dec (iff1 (z80 s)) 0); [right; tauto |].
    destruct (Z_lt_dec (tstates s) (interrupt_length (timings (machine_current env))));
      [| right; tauto].
    destruct (Z.eq_dec (scld_intdisable env) 0); [left | right]; tauto. }
  - right.
    destruct (Z.eq_dec (tstates s) (interrupts_enabled_at (z80 s))) as [E | E].
    + left. split; [exact Ha | split; [exact E |]].
      rewrite z80_interrupt_active by assumption. cbv zeta.
      apply Z.eqb_eq in E. rewrite E. reflexivity.
    + right. split; [exact Ha | split; [exact E |]].
      apply z80_interrupt_taken; assumption.
  - left. tauto.
Qed.

(** X9.  [z80_interrupt]: the NMOS parity fix-up.  Every call that returns
    leaves A as it was.  F loses its parity flag (F becomes F & 0xfb) when
    the line is active, [iff2_read] is set and the Z80 is not a CMOS one,
    whether the interrupt is then accepted or put off after EI; in every
    other case AF is untouched. *)
Theorem z80_interrupt_parity_fixup env s value s' :
  z80_interrupt env s = Returned value s' ->
  A (z80 s') = A (z80 s) /\
  (interrupt_line_active env s -> iff2_read (z80 s) <> 0 -> z80_is_cmos env = 0 ->
   F (z80 s') = Z.land (F (z80 s)) 251) /\
  (~ interrupt_line_active env s \/ iff2_read (z80 s) = 0 \/ z80_is_cmos env <> 0 ->
   af (z80 s') = af (z80 s)).
Proof.
  intros Hrun.
  destruct (z80_interrupt_paths env s) as [(Hn & H) | Hactive].
  - rewrite H in Hrun. inversion Hrun; subst. tauto.
  - assert (interrupt_line_active env s
            /\ af (z80 s') = af (z80 (nmos_iff2_fixup env s))) as (Ha & Haf).
    { destruct Hactive as [(Ha & _ & H) | (Ha & _ & H)]; rewrite H in Hrun.
      - inversion Hrun. tauto.
      - apply z80_interrupt_accept_effects in Hrun. tauto. }
    unfold A, F. rewrite Haf. unfold nmos_iff2_fixup.
    destruct (truthy (iff2_read (z80 s))) eqn:Er;
      destruct (truthy (z80_is_cmos env)) eqn:Ec;
      cbn [andb negb z80 set_z80 set_F set_af af];
      try apply truthy_true in Er; try apply truthy_false in Er;
      try apply truthy_true in Ec; try apply truthy_false in Ec;
      (split; [| split]); try reflexivity; try tauto; try lia.
    + apply hi_set_lo.
    + intros _ _ _. rewrite lo_set_lo. apply clear_flag_p, lo_is_byte.
Qed.

Lemma z80_interrupt_parity_fixup_witness :
  exists s',
    z80_interrupt sample_env iff2_read_state = Returned 0 s' /\
    F (z80 iff2_read_state) = 68 /\ F (z80 s') = 64.
Proof.
  assert (exists s', z80_interrupt sample_env iff2_read_state = Returned 0 s')
    as (s' & Hrun) by (vm_compute; eexists; reflexivity).
  destruct (z80_interrupt_parity_fixup sample_env iff2_read_state 0 s' Hrun)
    as (_ & HF & _).
  exists s'. split; [exact Hrun |]. split; [reflexivity |].
  apply HF; cbv; repeat split; congruence.
Defined.

(** X10.  [z80_interrupt]: put off once only.  When a call has put the interrupt
    off because the last instruction was EI, a further call on the state
    it left, at any later time at which the line is still active, accepts
    the interrupt (the mode being 0, 1 or 2). *)
Theorem z80_interrupt_retry_accepts env s s1 later :
  interrupt_line_active env s ->
  tstates s = interrupts_enabled_at (z80 s) ->
  z80_interrupt env s = Returned 0 s1 ->
  tstates s < later < interrupt_length (timings (machine_current env)) ->
  im (z80 s) = 0 \/ im (z80 s) = 1 \/ im (z80 s) = 2 ->
  exists s2,
    z80_interrupt env (set_tstates s1 later) = Returned 1 s2 /\
    iff1 (z80 s2) = 0 /\ event_list s2 = event_list s1.
Proof.
  intros Ha Hei Hrun Hlater Him.
  rewrite z80_interrupt_active in Hrun by assumption. cbv zeta in Hrun.
  apply Z.eqb_eq in Hei as Heib. rewrite Heib in Hrun.
  destruct (nmos_iff2_fixup_fields env s) as (f & Hfix & _ & _).
  rewrite Hfix in Hrun. inversion Hrun as [Hs1]. clear Hrun.
  set (s1' := set_tstates _ later).
  assert (interrupt_line_active env s1') as Ha1.
  { destruct Ha as (Hi & _ & Hd). repeat split; cbn; [exact Hi | lia | exact Hd]. }
  assert (tstates s1' <> interrupts_enabled_at (z80 s1')) as Hne by (cbn; lia).
  assert (im (z80 s1') = im (z80 s)) as Him1 by reflexivity.
  destruct (z80_interrupt env s1') as [value s2 |] eqn:Hrun2.
  - destruct (z80_interrupt_paths env s1')
      as [(Hn & _) | [(_ & He & _) | (_ & _ & H)]]; try contradiction.
    rewrite H in Hrun2. apply z80_interrupt_accept_effects in Hrun2.
    destruct Hrun2 as (-> & _ & _ & _ & Hi1 & _ & _ & _ & _ & _ & Hev & _).
    exists s2. split; [reflexivity |]. split; [exact Hi1 |].
    rewrite Hev. destruct (nmos_iff2_fixup_fields env s1') as (f' & -> & _).
    reflexivity.
  - exfalso.
    destruct (z80_interrupt_paths env s1')
      as [(Hn & _) | [(_ & He & _) | (_ & _ & H)]]; try contradiction.
    rewrite H in Hrun2.
    destruct (nmos_iff2_fixup_fields env s1') as (f' & Hfix' & _).
    rewrite Hfix' in Hrun2. revert Hrun2.
    assert (im (z80 (set_z80 s1' (set_af (z80 s1') f'))) = im (z80 s)) as E
      by reflexivity.
    revert E. generalize (set_z80 s1' (set_af (z80 s1') f')) as u.
    intros u E. rewrite <- E in Him. clear - Him.
    destruct_state u. cbn [z80 im] in Him.
    unfold z80_interrupt_accept. cbn [z80 halted].
    destruct (truthy halted0); run_core;
      destruct Him as [-> | [-> | ->]]; cbn; discriminate.
Qed.

Lemma z80_interrupt_retry_accepts_witness :
  exists s1 s2,
    z80_interrupt sample_env after_ei_state = Returned 0 s1 /\
    z80_interrupt sample_env (set_tstates s1 14) = Returned 1 s2 /\
    iff1 (z80 s2) = 0.
Proof.
  assert (exists s1, z80_interrupt sample_env after_ei_state = Returned 0 s1)
    as (s1 & Hrun) by (vm_compute; eexists; reflexivity).
  destruct (z80_interrupt_retry_accepts sample_env after_ei_state s1 14)
    as (s2 & Hrun2 & Hi & _).
  - cbv. repeat split; congruence.
  - reflexivity.
  - exact Hrun.
  - cbv. split; reflexivity.
  - right. right. reflexivity.
  - exists s1, s2. repeat split; assumption.
Defined.

(** ** Non-maskable interrupts *)

(** With a Spectranet present whose NMI flip-flop is set, the NMI changes
    nothing and pages nothing. *)
Lemma z80_nmi_absorbed pe s :
  spectranet_available pe <> 0 -> spectranet_nmi_flipflop pe <> 0 ->
  z80_nmi pe s = (s, None).
Proof.
  intros Ha Hf. apply truthy_true in Ha, Hf.
  unfold z80_nmi. rewrite Ha, Hf. reflexivity.
Qed.

Lemma z80_nmi_absorbed_witness :
  z80_nmi absorbing_nmi_env halted_im1_state = (halted_im1_state, None).
Proof. apply z80_nmi_absorbed; cbv; congruence. Defined.

(** An NMI that is taken, in terms of the state before. *)
Lemma z80_nmi_effects pe s :
  spectranet_available pe = 0 \/ spectranet_nmi_flipflop pe = 0 ->
  let env := nmi_fuse_env pe in
  let z := z80 s in
  let s' := fst (z80_nmi pe s) in
  let ret := if halted z =? 0 then pc z else wrap_word (pc z + 1) in
  let a1 := wrap_word (sp z - 1) in
  let a2 := wrap_word (a1 - 1) in
  let t0 := wrap_dword (tstates s + 5) in
  let t1 := wrap_dword (t0 + access_cost env a1 t0) in
  let t2 := wrap_dword (t1 + access_cost env a2 t1) in
  memory s' = store (store (memory s) a1 (wrap_byte (hi ret))) a2 (wrap_byte (lo ret)) /\
  tstates s' = t2 /\
  z80 s' =
  mk_processor (af z) (bc z) (de z) (hl z) (af_ z) (bc_ z) (de_ z) (hl_ z)
    (ix z) (iy z) (i z) (wrap_word (r z + 1)) (r7 z) a2 102 (memptr z)
    (iff2_read z) 0 (iff2 z) (im z) 0 (interrupts_enabled_at z) 0 /\
  event_list s' = event_list s /\
  rzx_instructions_offset s' = rzx_instructions_offset s /\
  frames_since_reset s' = frames_since_reset s.
Proof.
  intros Hfree.
  assert (truthy (spectranet_available pe) && truthy (spectranet_nmi_flipflop pe)
          = false) as Hgo.
  { destruct Hfree as [H | H]; apply truthy_false in H; rewrite H;
      [reflexivity | apply andb_false_r]. }
  cbv zeta. unfold z80_nmi. rewrite Hgo.
  destruct_state s. cbn [z80 halted pc].
  assert ((halted0 =? 0) = negb (truthy halted0)) as Eh
    by (unfold truthy; rewrite negb_involutive; reflexivity).
  rewrite Eh.
  destruct (truthy halted0) eqn:Et; cbn [negb];
    cbv -[wrap_byte wrap_word wrap_dword hi lo store Z.add Z.sub Z.mul
          access_cost nmi_fuse_env];
    repeat split.
  apply truthy_false in Et. subst. reflexivity.
Qed.

(** X11.  [z80_nmi]: taken.  Unless a Spectranet absorbs it, an NMI clears IFF1
    and keeps IFF2 and the mode, leaves HALT, pushes PC (PC + 1 if the CPU
    was halted) high byte first, ends at 0x0066 with Q = 0, adds one to R
    and leaves MEMPTR, AF and the event queue alone; it costs 5 tstates
    and the two stack writes. *)
Theorem z80_nmi_taken pe s :
  spectranet_available pe = 0 \/ spectranet_nmi_flipflop pe = 0 ->
  let env := nmi_fuse_env pe in
  let z := z80 s in
  let s' := fst (z80_nmi pe s) in
  let ret := if halted z =? 0 then pc z else wrap_word (pc z + 1) in
  let a1 := wrap_word (sp z - 1) in
  let a2 := wrap_word (sp z - 2) in
  let t0 := wrap_dword (tstates s + 5) in
  let t1 := wrap_dword (t0 + access_cost env a1 t0) in
  let t2 := wrap_dword (t1 + access_cost env a2 t1) in
  iff1 (z80 s') = 0 /\ iff2 (z80 s') = iff2 z /\ im (z80 s') = im z /\
  halted (z80 s') = 0 /\
  pc (z80 s') = 102 /\ q (z80 s') = 0 /\
  sp (z80 s') = a2 /\
  memory s' a1 = hi ret /\ memory s' a2 = lo ret /\
  (forall a, a <> a1 -> a <> a2 -> memory s' a = memory s a) /\
  r (z80 s') = wrap_word (r z + 1) /\
  memptr (z80 s') = memptr z /\ af (z80 s') = af z /\
  event_list s' = event_list s /\
  tstates s' = t2.
Proof.
  intros Hfree. cbv zeta.
  destruct (z80_nmi_effects pe s Hfree) as (Hmem & Ht & Hz & Hev & _).
  rewrite wrap_word_pred_pred in Hmem, Ht, Hz.
  rewrite !wrap_byte_small in Hmem by (apply hi_is_byte || apply lo_is_byte).
  rewrite Hz, Hmem, Ht, Hev. cbn [iff1 iff2 im halted pc q sp r memptr af].
  repeat split.
  - rewrite store_other by apply wrap_word_pred_neq. apply store_same.
  - apply store_same.
  - intros a Ha1 Ha2. rewrite !store_other by assumption. reflexivity.
Qed.

Lemma z80_nmi_taken_witness :
  let s' := fst (z80_nmi sample_nmi_env halted_im1_state) in
  iff1 (z80 s') = 0 /\ iff2 (z80 s') = 1 /\ pc (z80 s') = 102 /\
  memory s' 24575 = 128 /\ memory s' 24574 = 1 /\ tstates s' = 16.
Proof.
  destruct (z80_nmi_taken sample_nmi_env halted_im1_state)
    as (H1 & H2 & _ & _ & Hpc & _ & _ & Hhi & Hlo & _ & _ & _ & _ & _ & Ht).
  - right. reflexivity.
  - cbv zeta. repeat split; assumption.
Defined.

(** X12.  [z80_nmi] then [z80_interrupt]: an NMI that is taken leaves a state
    in which no maskable interrupt is accepted. *)
Theorem z80_interrupt_refused_after_nmi pe env s :
  spectranet_available pe = 0 \/ spectranet_nmi_flipflop pe = 0 ->
  let s' := fst (z80_nmi pe s) in
  z80_interrupt env s' = Returned 0 s'.
Proof.
  intros Hfree. cbv zeta. apply interrupt_guard_false.
  destruct (z80_nmi_effects pe s Hfree) as (_ & _ & Hz & _).
  unfold interrupt_line_active. rewrite Hz. cbn [iff1]. tauto.
Qed.

Lemma z80_interrupt_refused_after_nmi_witness :
  z80_interrupt sample_env (fst (z80_nmi sample_nmi_env halted_im1_state))
  = Returned 0 (fst (z80_nmi sample_nmi_env halted_im1_state)).
Proof.
  apply (z80_interrupt_refused_after_nmi sample_nmi_env sample_env halted_im1_state).
  right. reflexivity.
Defined.

(** At most one peripheral is asked to page: the Scorpion's port first,
    then the Beta interface, then the Spectranet. *)
Lemma z80_nmi_paging_order pe s :
  spectranet_available pe = 0 \/ spectranet_nmi_flipflop pe = 0 ->
  snd (z80_nmi pe s)
  = if truthy (Z.land (capabilities pe)
                 (LIBSPECTRUM_MACHINE_CAPABILITY_SCORP_MEMORY pe))
    then Some (Writeport_internal 8189 (wrap_byte (Z.lor (last_byte2 pe) 2)))
    else if truthy (beta_available pe) then Some Beta_page
    else if truthy (spectranet_available pe) then Some Spectranet_nmi
    else None.
Proof.
  intros Hfree.
  assert (truthy (spectranet_available pe) && truthy (spectranet_nmi_flipflop pe)
          = false) as Hgo.
  { destruct Hfree as [H | H]; apply truthy_false in H; rewrite H;
      [reflexivity | apply andb_false_r]. }
  unfold z80_nmi. rewrite Hgo. reflexivity.
Qed.

(** ** More on frame ends *)

(** [spectrum_frame], field by field. *)
Lemma spectrum_frame_fields env s :
  let L := frame_length env s in
  let rebased := event_frame L (event_list s) in
  let result := spectrum_frame env s in
  let s' := snd result in
  tstates s' = wrap_dword (tstates s - L) /\
  memory s' = memory s /\
  rzx_instructions_offset s' = rzx_instructions_offset s /\
  z80 s' =
  set_interrupts_enabled_at (z80 s)
    (if interrupts_enabled_at (z80 s) >=? 0
     then interrupts_enabled_at (z80 s) - L
     else interrupts_enabled_at (z80 s)) /\
  (display_frame env <> 0 ->
   fst result = 1 /\ event_list s' = rebased /\
   frames_since_reset s' = frames_since_reset s) /\
  (display_frame env = 0 ->
   fst result = 0 /\
   frames_since_reset s' = wrap_dword (frames_since_reset s + 1) /\
   event_list s'
   = (if rzx_playback env =? 0
      then event_add (tstates_per_frame (timings (machine_current env)))
             (spectrum_frame_event env) rebased
      else rebased)).
Proof.
  cbv zeta. unfold spectrum_frame.
  generalize (frame_length env s) as L. intros L.
  destruct_state s.
  cbn [z80 set_event_list set_tstates interrupts_enabled_at tstates event_list].
  unfold truthy.
  destruct (interrupts_enabled_at0 >=? 0);
    destruct (Z.eqb_spec (display_frame env) 0);
    destruct (rzx_playback env =? 0); cbn; repeat split; congruence.
Qed.

(** X13.  [spectrum_frame]: a request to leave.  The call returns 1 exactly
    when [display_frame] returns non-zero, and 0 otherwise.  A frame that
    returns 1 is not counted in [frames_since_reset] and the frame event
    is not queued again, though clock and queue have been rebased; a
    frame that returns 0 is counted. *)
Theorem spectrum_frame_exit_request env s :
  let result := spectrum_frame env s in
  (fst result = 1 <-> display_frame env <> 0) /\
  (fst result = 0 <-> display_frame env = 0) /\
  (fst result = 1 ->
   frames_since_reset (snd result) = frames_since_reset s /\
   event_list (snd result) = event_frame (frame_length env s) (event_list s) /\
   tstates (snd result) = wrap_dword (tstates s - frame_length env s)) /\
  (fst result = 0 ->
   frames_since_reset (snd result) = wrap_dword (frames_since_reset s + 1)).
Proof.
  cbv zeta.
  destruct (spectrum_frame_fields env s) as (Ht & _ & _ & _ & Hexit & Hgo).
  destruct (Z.eq_dec (display_frame env) 0) as [E | E].
  - destruct (Hgo E) as (Hr & Hf & _). rewrite Hr.
    repeat split; try tauto; try lia; try congruence.
  - destruct (Hexit E) as (Hr & He & Hf). rewrite Hr.
    repeat split; try tauto; try lia; try congruence.
Qed.

Lemma spectrum_frame_exit_request_witness :
  fst (spectrum_frame exit_env frame_end_state) = 1 /\
  frames_since_reset (snd (spectrum_frame exit_env frame_end_state)) = 41 /\
  event_list (snd (spectrum_frame exit_env frame_end_state))
  = [mk_event 0 7; mk_event 112 8].
Proof.
  destruct (spectrum_frame_exit_request exit_env frame_end_state)
    as (Hone & _ & Hexit & _).
  assert (fst (spectrum_frame exit_env frame_end_state) = 1) as Hr
    by (apply Hone; cbv; congruence).
  destruct (Hexit Hr) as (Hf & He & _).
  split; [exact Hr |]. split; [exact Hf |]. rewrite He. reflexivity.
Defined.

(** X14.  [spectrum_frame]: re-arming.  In normal running a frame that is not a
    request to leave puts exactly one new entry in the queue, the frame
    event due at [tstates_per_frame]; during RZX playback no entry is
    added and [tstates] is left at 0. *)
Theorem spectrum_frame_rearm env s :
  let s' := snd (spectrum_frame env s) in
  (rzx_playback env = 0 -> display_frame env = 0 ->
   In (mk_event (tstates_per_frame (timings (machine_current env)))
         (spectrum_frame_event env)) (event_list s') /\
   length (event_list s') = S (length (event_list s))) /\
  (rzx_playback env <> 0 ->
   length (event_list s') = length (event_list s) /\
   (is_dword (tstates s) -> tstates s' = 0)).
Proof.
  cbv zeta.
  destruct (spectrum_frame_fields env s) as (Ht & _ & _ & _ & Hexit & Hgo).
  assert (length (event_frame (frame_length env s) (event_list s))
          = length (event_list s)) as Hlen by apply length_map.
  split.
  - intros Hrzx Hd. destruct (Hgo Hd) as (_ & _ & He).
    rewrite He, Hrzx. cbn [Z.eqb].
    split; [| rewrite event_add_length, Hlen; reflexivity].
    destruct (event_add_splits
                (tstates_per_frame (timings (machine_current env)))
                (spectrum_frame_event env)
                (event_frame (frame_length env s) (event_list s)))
      as (before & after & _ & -> & _).
    apply in_or_app. right. left. reflexivity.
  - intros Hrzx. split.
    + destruct (Z.eq_dec (display_frame env) 0) as [E | E].
      * destruct (Hgo E) as (_ & _ & He). rewrite He.
        apply Z.eqb_neq in Hrzx. rewrite Hrzx. exact Hlen.
      * destruct (Hexit E) as (_ & He & _). rewrite He. exact Hlen.
    + intros Hdw. rewrite Ht. unfold frame_length.
      assert (truthy (rzx_playback env) = true) as ->
        by (apply truthy_true; exact Hrzx).
      rewrite Z.sub_diag. reflexivity.
Qed.

Lemma spectrum_frame_rearm_witness :
  event_list (snd (spectrum_frame sample_env frame_end_state))
  = [mk_event 0 7; mk_event 112 8; mk_event 69888 0] /\
  length (event_list (snd (spectrum_frame playback_env frame_end_state))) = 2%nat /\
  tstates (snd (spectrum_frame playback_env frame_end_state)) = 0.
Proof.
  split; [vm_compute; reflexivity |].
  destruct (proj2 (spectrum_frame_rearm playback_env frame_end_state))
    as (Hlen & Ht).
  - cbv. congruence.
  - split; [exact Hlen | apply Ht; cbv; split; congruence].
Defined.

Lemma wrap_dword_add_l a b : wrap_dword (wrap_dword a + b) = wrap_dword (a + b).
Proof. unfold wrap_dword. apply Zplus_mod_idemp_l. Qed.

Lemma frames_completed_cons env envs :
  frames_completed (env :: envs)
  = (if display_frame env =? 0 then 1 else 0) + frames_completed envs.
Proof.
  unfold frames_completed. cbn [filter].
  destruct (display_frame env =? 0); cbn [length]; lia.
Qed.

Lemma spectrum_frames_count envs : forall s,
  is_dword (frames_since_reset s) ->
  frames_since_reset (spectrum_frames envs s)
  = wrap_dword (frames_since_reset s + frames_completed envs).
Proof.
  induction envs as [| env envs IH]; intros s Hs.
  - cbn. rewrite Z.add_0_r. symmetry. apply wrap_dword_small. exact Hs.
  - unfold spectrum_frames. cbn [fold_left]. fold (spectrum_frames envs).
    destruct (spectrum_frame_fields env s) as (_ & _ & _ & _ & Hexit & Hgo).
    rewrite frames_completed_cons.
    destruct (Z.eqb_spec (display_frame env) 0) as [E | E].
    + destruct (Hgo E) as (_ & Hf & _).
      rewrite IH by (rewrite Hf; apply wrap_dword_is_dword).
      rewrite Hf, wrap_dword_add_l. f_equal. lia.
    + destruct (Hexit E) as (_ & _ & Hf).
      rewrite IH by (rewrite Hf; exact Hs).
      rewrite Hf. reflexivity.
Qed.

(** X15.  [get_frame_count]: after [spectrum_reset], hard or soft, and any
    number of frame ends under any settings, the debugger's frame count
    is the number of those frames that were not a request to leave,
    modulo 2^32. *)
Theorem get_frame_count_since_reset hard_reset envs s :
  get_frame_count (spectrum_frames envs (spectrum_reset hard_reset s))
  = wrap_dword (frames_completed envs).
Proof.
  unfold get_frame_count.
  rewrite spectrum_frames_count.
  - destruct s. reflexivity.
  - destruct s. cbn. unfold is_dword. lia.
Qed.

(** X16.  [spectrum_frame]: an EI at the very end of a frame.  When the frame
    had run its length, the test [tstates == interrupts_enabled_at] gives
    the same answer after the frame end as before it; so if EI was the
    last instruction of the frame, a [z80_interrupt] that follows the
    frame end while the line is active is put off: it returns 0, leaves
    PC, SP, IFF1 and memory alone and queues the retry one tstate on. *)
Theorem spectrum_frame_keeps_ei_hold env s :
  is_dword (tstates s) ->
  0 <= frame_length env s <= tstates s ->
  let s' := snd (spectrum_frame env s) in
  (tstates s' = interrupts_enabled_at (z80 s')
   <-> tstates s = interrupts_enabled_at (z80 s)) /\
  (tstates s = interrupts_enabled_at (z80 s) ->
   interrupt_line_active env s' ->
   exists s'',
     z80_interrupt env s' = Returned 0 s'' /\
     pc (z80 s'') = pc (z80 s) /\ sp (z80 s'') = sp (z80 s) /\
     iff1 (z80 s'') = iff1 (z80 s) /\ memory s'' = memory s /\
     event_list s''
     = event_add (wrap_dword (tstates s' + 1)) (z80_interrupt_event env)
         (event_list s')).
Proof.
  intros Hdw HL. cbv zeta.
  destruct (spectrum_frame_fields env s) as (Ht & Hm & _ & Hz & _).
  cbv zeta in Ht, Hz.
  rewrite wrap_dword_small in Ht by (unfold is_dword in *; lia).
  assert (interrupts_enabled_at (z80 (snd (spectrum_frame env s)))
          = if interrupts_enabled_at (z80 s) >=? 0
            then interrupts_enabled_at (z80 s) - frame_length env s
            else interrupts_enabled_at (z80 s)) as Hiea.
  { rewrite Hz. destruct (z80 s). reflexivity. }
  assert (tstates (snd (spectrum_frame env s))
          = interrupts_enabled_at (z80 (snd (spectrum_frame env s)))
          <-> tstates s = interrupts_enabled_at (z80 s)) as Hiff.
  { rewrite Ht, Hiea. unfold is_dword in Hdw.
    destruct (Z.geb_spec (interrupts_enabled_at (z80 s)) 0); lia. }
  split; [exact Hiff |].
  intros Hei Ha.
  destruct (z80_interrupt_paths env (snd (spectrum_frame env s)))
    as [(Hn & _) | [(_ & _ & Hrun) | (_ & Hne & _)]];
    [contradiction | | apply Hiff in Hei; contradiction].
  eexists. split; [exact Hrun |].
  destruct (nmos_iff2_fixup_fields env (snd (spectrum_frame env s)))
    as (f & -> & _).
  generalize dependent (snd (spectrum_frame env s)). intros s' Ht Hm Hz _ _ _ _.
  destruct s' as [z' t' m' ev' ro' fr']. cbn in Hz, Hm |- *. subst z' m'.
  destruct (z80 s). cbn. repeat split; reflexivity.
Qed.

Lemma spectrum_frame_keeps_ei_hold_witness :
  exists s'',
    z80_interrupt sample_env
      (snd (spectrum_frame sample_env (set_tstates frame_end_state 69899)))
    = Returned 0 s'' /\
    pc (z80 s'') = 43981 /\
    event_list s''
    = [mk_event 0 7; mk_event 12 1; mk_event 112 8; mk_event 69888 0].
Proof.
  destruct (spectrum_frame_keeps_ei_hold sample_env
              (set_tstates frame_end_state 69899)) as (_ & H).
  - cbv. split; congruence.
  - cbv. split; congruence.
  - destruct H as (s'' & Hrun & Hpc & _ & _ & _ & Hev).
    + reflexivity.
    + cbv. repeat split; congruence.
    + exists s''. split; [exact Hrun |]. split; [rewrite Hpc; reflexivity |].
      rewrite Hev. vm_compute. reflexivity.
Defined.

(** ** [z80_nmi] keeps the state well-formed *)

Lemma z80_nmi_wf pe s : state_wf s -> state_wf (fst (z80_nmi pe s)).
Proof.
  intros Hs.
  destruct (truthy (spectranet_available pe) && truthy (spectranet_nmi_flipflop pe))
    eqn:Hgo.
  - unfold z80_nmi. rewrite Hgo. exact Hs.
  - assert (spectranet_available pe = 0 \/ spectranet_nmi_flipflop pe = 0) as Hfree.
    { apply andb_false_iff in Hgo.
      destruct Hgo as [H | H]; apply truthy_false in H; tauto. }
    destruct (z80_nmi_effects pe s Hfree) as (Hm & Ht & Hz & _).
    cbv zeta in Hm, Ht, Hz.
    destruct Hs as [[] Hts Hmem].
    constructor.
    + rewrite Hz. constructor; cbn; solve_range.
    + rewrite Ht. solve_range.
    + rewrite Hm. apply store_wf; [apply store_wf; [exact Hmem |] |]; solve_range.
Qed.

(** ** More on contention *)

(** [contend_delay_common] over its two locals. *)
Lemma contend_delay_common_locals BH DH BWC mc time timings_ offset :
  let line := contend_line mc time in
  let col_ts := contend_tstates_through_line BWC mc time in
  contend_delay_common BH DH BWC mc time timings_ offset
  = if (line <? BH) || (line >=? BH + DH) then 0
    else if col_ts <? left_border (timings mc) - offset then 0
    else if col_ts >=?
              left_border (timings mc) + horizontal_screen (timings mc) - offset
    then 0
    else wrap_byte (nth (Z.to_nat (Z.rem col_ts 8)) timings_ 0).
Proof. reflexivity. Qed.

Lemma contend_delay_common_values BH DH BWC mc time timings_ offset :
  contend_delay_common BH DH BWC mc time timings_ offset = 0 \/
  exists k,
    contend_delay_common BH DH BWC mc time timings_ offset
    = wrap_byte (nth k timings_ 0).
Proof.
  rewrite contend_delay_common_locals. cbv zeta.
  destruct ((_ <? _) || (_ >=? _)); [left; reflexivity |].
  destruct (_ <? _); [left; reflexivity |].
  destruct (_ >=? _); [left; reflexivity |].
  right. eexists. reflexivity.
Qed.

Lemma pattern_65432100_bound k :
  0 <= wrap_byte (nth k contention_pattern_65432100 0) <= 6.
Proof. do 9 (destruct k as [| k]; [cbv; split; congruence |]). cbv; split; congruence. Qed.

Lemma pattern_76543210_bound k :
  0 <= wrap_byte (nth k contention_pattern_76543210 0) <= 7.
Proof. do 9 (destruct k as [| k]; [cbv; split; congruence |]). cbv; split; congruence. Qed.

(** X18.  Contention is bounded: at no time does the 48K-like function delay an
    access by more than 6 tstates, nor the 128K-like one by more than 7.
    (The two conditions are those under which the division and the index
    into the pattern are defined in C.) *)
Theorem contend_delay_bounded BH DH BWC mc time :
  0 < tstates_per_line (timings mc) ->
  4 <= left_border (timings mc) ->
  0 <= spectrum_contend_delay_65432100 BH DH BWC mc time <= 6 /\
  0 <= spectrum_contend_delay_76543210 BH DH BWC mc time <= 7.
Proof.
  intros _ _.
  unfold spectrum_contend_delay_65432100, spectrum_contend_delay_76543210.
  split.
  - destruct (contend_delay_common_values BH DH BWC mc time
                contention_pattern_65432100 1) as [-> | (k & ->)];
      [lia | apply pattern_65432100_bound].
  - destruct (contend_delay_common_values BH DH BWC mc time
                contention_pattern_76543210 4) as [-> | (k & ->)];
      [lia | apply pattern_76543210_bound].
Qed.

Lemma contend_delay_bounded_witness :
  0 <= spectrum_contend_delay_65432100 24 192 4 sample_machine 14335 <= 6 /\
  0 <= spectrum_contend_delay_76543210 24 192 4 sample_machine 14335 <= 7.
Proof. apply contend_delay_bounded; cbv; congruence. Defined.

(** X19.  No contention before the screen.  From 2^31 tstates before
    [line_times[0]] (so for every time of the frame before it, where the
    unsigned difference has wrapped) to the end of the upper border, both
    functions return 0. *)
Theorem contend_delay_top_border BH DH BWC mc time :
  0 < tstates_per_line (timings mc) ->
  0 < BH ->
  BH * tstates_per_line (timings mc) <= 2147483648 ->
  -2147483648 <= time - line_times mc 0 < BH * tstates_per_line (timings mc) ->
  spectrum_contend_delay_65432100 BH DH BWC mc time = 0 /\
  spectrum_contend_delay_76543210 BH DH BWC mc time = 0.
Proof.
  intros Htpl HBH Hfit Hd.
  assert (contend_line mc time < BH) as Hline.
  { unfold contend_line.
    set (d := time - line_times mc 0) in *.
    assert (to_signed_dword (wrap_dword d) = d) as ->.
    { unfold to_signed_dword, wrap_dword. rewrite Z.mod_mod by lia.
      destruct (Z_lt_dec d 0) as [Hneg | Hpos].
      - assert (d mod 4294967296 = d + 4294967296) as ->.
        { symmetry. apply Z.mod_unique with (q := -1); lia. }
        destruct (Z.ltb_spec (d + 4294967296) 2147483648); lia.
      - rewrite Z.mod_small by lia.
        destruct (Z.ltb_spec d 2147483648); lia. }
    destruct (Z_lt_dec d 0) as [Hneg | Hpos].
    - pose proof (Z.quot_opp_l d (tstates_per_line (timings mc)) ltac:(lia)) as Hq.
      pose proof (Z.quot_pos (- d) (tstates_per_line (timings mc))
                    ltac:(lia) ltac:(lia)).
      lia.
    - rewrite Z.quot_div_nonneg by lia.
      apply Z.div_lt_upper_bound; lia. }
  unfold spectrum_contend_delay_65432100, spectrum_contend_delay_76543210.
  split; apply contend_delay_common_border; left; exact Hline.
Qed.

Lemma contend_delay_top_border_witness :
  spectrum_contend_delay_65432100 24 192 4 sample_machine 100 = 0 /\
  spectrum_contend_delay_76543210 24 192 4 sample_machine 100 = 0.
Proof. apply contend_delay_top_border; cbv; try split; congruence. Defined.

(** X20.  Contention repeats from one screen line to the next: a time one line
    later, on a screen line as well, is delayed by the same amount. *)
Theorem contend_delay_next_line BH DH BWC mc time :
  let tpl := tstates_per_line (timings mc) in
  let d := time - line_times mc 0 in
  let shift := left_border (timings mc) - BWC * 4 in
  0 < tpl ->
  0 <= d -> 0 <= d + shift ->
  d + tpl < 2147483648 -> d + tpl + shift < 2147483648 ->
  BH <= d / tpl -> d / tpl + 1 < BH + DH ->
  spectrum_contend_delay_65432100 BH DH BWC mc (time + tpl)
  = spectrum_contend_delay_65432100 BH DH BWC mc time /\
  spectrum_contend_delay_76543210 BH DH BWC mc (time + tpl)
  = spectrum_contend_delay_76543210 BH DH BWC mc time.
Proof.
  cbv zeta. intros Htpl Hd Hs Hd' Hs' Hlo Hhi.
  destruct (contend_locals_exact BWC mc time) as (Hline & Hcol); try lia.
  destruct (contend_locals_exact BWC mc (time + tstates_per_line (timings mc)))
    as (Hline' & Hcol'); try lia.
  cbv zeta in Hline, Hcol, Hline', Hcol'.
  replace (time + tstates_per_line (timings mc) - line_times mc 0)
    with (time - line_times mc 0 + 1 * tstates_per_line (timings mc))
    in Hline', Hcol' by lia.
  rewrite Z.div_add in Hline' by lia.
  replace (time - line_times mc 0 + 1 * tstates_per_line (timings mc)
           + (left_border (timings mc) - BWC * 4))
    with (time - line_times mc 0 + (left_border (timings mc) - BWC * 4)
          + 1 * tstates_per_line (timings mc)) in Hcol' by lia.
  rewrite Z.mod_add in Hcol' by lia.
  unfold spectrum_contend_delay_65432100, spectrum_contend_delay_76543210.
  rewrite !contend_delay_common_locals. cbv zeta.
  rewrite Hline', Hcol', Hline, Hcol.
  set (l := (time - line_times mc 0) / tstates_per_line (timings mc)) in *.
  destruct (Z.ltb_spec (l + 1) BH); [lia |].
  destruct (Z.ltb_spec l BH); [lia |].
  destruct (Z.geb_spec (l + 1) (BH + DH)); [lia |].
  destruct (Z.geb_spec l (BH + DH)); [lia |].
  split; reflexivity.
Qed.

Lemma contend_delay_next_line_witness :
  spectrum_contend_delay_65432100 24 192 4 sample_machine (14335 + 224)
  = spectrum_contend_delay_65432100 24 192 4 sample_machine 14335 /\
  spectrum_contend_delay_76543210 24 192 4 sample_machine (14335 + 224)
  = spectrum_contend_delay_76543210 24 192 4 sample_machine 14335.
Proof.
  apply (contend_delay_next_line 24 192 4 sample_machine 14335);
    vm_compute; congruence.
Defined.

(** ** More on the floating bus *)

(** X21.  Every read the floating bus makes of the screen stays inside a row:
    the result is the idle-bus 0xff, or the byte of the current screen
    page at [display_line_start[line] + c] or [display_attr_start[line] +
    c] for a line 0 <= line < DISPLAY_HEIGHT and a column 0 <= c < 32.
    In particular the closing [return 0] is never reached. *)
Theorem spectrum_unattached_port_in_row
    BH DH BWC display_line_start display_attr_start mc RAM
    memory_current_screen tstates :
  2 <= tstates_per_line (timings mc) ->
  0 <= left_border (timings mc) ->
  horizontal_screen (timings mc) <= 128 ->
  let port :=
    spectrum_unattached_port BH DH BWC display_line_start display_attr_start
      mc RAM memory_current_screen tstates in
  port = 255 \/
  exists line c,
    0 <= line < DH /\ 0 <= c < 32 /\
    (port = RAM memory_current_screen (display_line_start line + c) \/
     port = RAM memory_current_screen (display_attr_start line + c)).
Proof.
  intros Htpl Hlb Hhs. cbv zeta.
  rewrite spectrum_unattached_port_unfold. cbv zeta.
  assert (0 <= unattached_line BH mc tstates) as Hline.
  { unfold unattached_line.
    set (x := wrap_dword _).
    assert (0 <= x < 4294967296) as Hx
      by (unfold x, wrap_dword; apply Z.mod_pos_bound; lia).
    assert (0 <= x / tstates_per_line (timings mc) < 2147483648) as Hq.
    { split; [apply Z.div_pos; lia |].
      apply Z.div_lt_upper_bound; lia. }
    rewrite to_signed_dword_small by exact Hq. lia. }
  generalize dependent (unattached_line BH mc tstates).
  generalize (unattached_tstates_through_line BH BWC mc tstates).
  intros col_ts line Hline.
  destruct (tstates <? line_times mc BH); [left; reflexivity |].
  destruct (Z.geb_spec line DH); [left; reflexivity |].
  destruct (Z.ltb_spec col_ts (left_border (timings mc))); [left; reflexivity |].
  destruct (Z.geb_spec col_ts
              (left_border (timings mc) + horizontal_screen (timings mc)));
    [left; reflexivity |].
  set (column := Z.quot (col_ts - left_border (timings mc)) 8 * 2).
  assert (0 <= column <= 30) as Hcol.
  { unfold column. rewrite Z.quot_div_nonneg by lia.
    pose proof (Z.div_pos (col_ts - left_border (timings mc)) 8
                  ltac:(lia) ltac:(lia)).
    assert ((col_ts - left_border (timings mc)) / 8 < 16)
      by (apply Z.div_lt_upper_bound; lia).
    lia. }
  assert (0 <= Z.rem col_ts 8 < 8) as Hrem.
  { rewrite Z.rem_mod_nonneg by lia. apply Z.mod_pos_bound. lia. }
  assert (Z.rem col_ts 8 = 0 \/ Z.rem col_ts 8 = 1 \/ Z.rem col_ts 8 = 2 \/
          Z.rem col_ts 8 = 3 \/ Z.rem col_ts 8 = 4 \/ Z.rem col_ts 8 = 5 \/
          Z.rem col_ts 8 = 6 \/ Z.rem col_ts 8 = 7) as Hcase by lia.
  destruct Hcase as [E | [E | [E | [E | [E | [E | [E | E]]]]]]]; rewrite E;
    first [ left; reflexivity
          | right; exists line, column;
            split; [lia |]; split; [lia |]; tauto
          | right; exists line, (column + 1);
            split; [lia |]; split; [lia |]; tauto ].
Qed.

Lemma spectrum_unattached_port_in_row_witness :
  spectrum_unattached_port 24 192 4 sample_line_start sample_attr_start
    sample_machine sample_RAM 5 25525 = 255 \/
  exists line c,
    0 <= line < 192 /\ 0 <= c < 32 /\
    (spectrum_unattached_port 24 192 4 sample_line_start sample_attr_start
       sample_machine sample_RAM 5 25525
     = sample_RAM 5 (sample_line_start line + c) \/
     spectrum_unattached_port 24 192 4 sample_line_start sample_attr_start
       sample_machine sample_RAM 5 25525
     = sample_RAM 5 (sample_attr_start line + c)).
Proof.
  apply (spectrum_unattached_port_in_row 24 192 4 sample_line_start
           sample_attr_start sample_machine sample_RAM 5 25525);
    cbv; congruence.
Defined.

(** ** Loading a snapshot, then saving *)

(** X22.  A snapshot that is loaded and saved again at the same time comes back
    field for field, if its fields are in range, its two flags are 0 or
    1, it does not claim that the last instruction set F while F is 0,
    and the clock is not at 2^32 - 1 when it says that the last
    instruction was not EI (there the 4294967295 that the load stores for
    "not pending" is the clock itself).  What was in the processor before
    the load does not matter: but for [iff2_read], the load replaces all
    of it. *)
Theorem z80_snapshot_load_save snap t :
  snapshot_wf snap ->
  is_dword t ->
  snap_last_instruction_ei snap = 1 \/
  (snap_last_instruction_ei snap = 0 /\ t <> 4294967295) ->
  snap_last_instruction_set_f snap = 0 \/
  (snap_last_instruction_set_f snap = 1 /\ snap_f snap <> 0) ->
  (forall z, z80_to_snapshot (z80_from_snapshot snap t z) t = snap) /\
  (forall z z', iff2_read z = iff2_read z' ->
     z80_from_snapshot snap t z = z80_from_snapshot snap t z').
Proof.
  intros Hwf Ht Hei Hsf.
  split.
  - intros z. destruct Hwf.
    unfold z80_to_snapshot, z80_from_snapshot, r_register, A, F, A_, F_.
    cbn [af af_ bc de hl bc_ de_ hl_ ix iy i r r7 sp pc iff1 iff2 im memptr
         halted interrupts_enabled_at q].
    rewrite !hi_set_lo, !hi_set_hi, !lo_set_lo.
    rewrite r_register_same by assumption.
    rewrite !wrap_byte_small by assumption.
    assert (of_bool (wrap_dword (if truthy (snap_last_instruction_ei snap)
                                 then t else -1)
                     =? t)
            = snap_last_instruction_ei snap) as ->.
    { destruct Hei as [-> | (-> & Hlast)].
      - change (truthy 1) with true. cbv iota.
        rewrite wrap_dword_small by exact Ht.
        rewrite Z.eqb_refl. reflexivity.
      - change (truthy 0) with false. cbv iota.
        change (wrap_dword (-1)) with 4294967295.
        destruct (Z.eqb_spec 4294967295 t); [congruence | reflexivity]. }
    assert (of_bool (truthy (if truthy (snap_last_instruction_set_f snap)
                             then snap_f snap else 0))
            = snap_last_instruction_set_f snap) as ->.
    { destruct Hsf as [-> | (-> & Hf)]; [reflexivity |].
      change (truthy 1) with true. cbv iota.
      unfold truthy. apply Z.eqb_neq in Hf. rewrite Hf. reflexivity. }
    destruct snap. reflexivity.
  - intros z z' Hr. unfold z80_from_snapshot. rewrite Hr.
    unfold set_lo. rewrite !hi_set_hi. reflexivity.
Qed.

Lemma z80_snapshot_load_save_witness :
  z80_to_snapshot (z80_from_snapshot im1_snapshot 100 seeded_processor) 100
  = im1_snapshot.
Proof.
  apply (z80_snapshot_load_save im1_snapshot 100);
    [constructor; cbv; split; congruence | cbv; split; congruence | |].
  - right. cbv. split; congruence.
  - left. reflexivity.
Defined.

(** The exception is real: at 2^32 - 1 a snapshot that says "not EI" is
    saved as "EI". *)
Lemma z80_snapshot_load_save_at_last_tstate snap z :
  snap_last_instruction_ei snap = 0 ->
  snap_last_instruction_ei
    (z80_to_snapshot (z80_from_snapshot snap 4294967295 z) 4294967295) = 1.
Proof.
  intros Hei.
  cbn [z80_to_snapshot z80_from_snapshot snap_last_instruction_ei
       interrupts_enabled_at].
  rewrite Hei. reflexivity.
Qed.
